(** * train.py: triplet-loss training loop with hard-negative mining

    A shallow embedding of [src/train.py] (the orchestrator [main], the
    phases [Train] and [TestTriplets], [SaveCheckpoint], [AverageMeter] and
    [LossAccuracy]) together with a model of the hard-negative sampler of
    [hard_mining], which the repository imports but which is not part of the
    sources at hand.

    Conventions.
    - Python floats are modelled by exact rationals [Q]: binary rounding,
      infinities and nan are outside the model, and so is the OverflowError
      of an int too large for a float.  A statement that depends on one of
      them carries the bound under which the two agree.  Python ints are [Z].
    - A Python exception is a value [Raise e] of [Py.outcome].  So is the one
      float result that is no rational, the nan of a division of zero by
      zero on tensors: a computation that reaches it ends there.
    - Paths are strings, compared as written: links, [.] and [..] and
      repeated separators are outside the model of the file system.
    - The torch network, the loss, the optimizer, the data loaders and the
      sampler are collaborators: an interface [Collaborators] of total
      functions on abstract types.
    - A computation on the program state returns its outcome, the state it
      leaves behind and the calls it made, in order ([Run]). *)

From Stdlib Require Import ZArith QArith Lia Ascii Sorting.Sorted Sorting.Permutation.
From stdpp Require Import gmap strings list.

Open Scope Z_scope.

(** ** Python primitives *)

Module Py.

Inductive Exn : Set :=
| ZeroDivisionError
| RuntimeError
(** [FileExistsError], [NotADirectoryError], [IsADirectoryError] and
    [FileNotFoundError] *)
| OSError
(** [shutil.SameFileError] *)
| SameFileError
(** no exception: the value nan *)
| NotANumber.

Inductive outcome (A : Type) : Type :=
| Ok (a : A)
| Raise (e : Exn).
Arguments Ok {A} a.
Arguments Raise {A} e.

Definition obind {A B} (o : outcome A) (k : A -> outcome B) : outcome B :=
  match o with
  | Ok a => k a
  | Raise e => Raise e
  end.

(** [a % b] on ints: the sign follows the divisor, as for [Z.modulo];
    a zero divisor raises. *)
Definition mod_ (a b : Z) : outcome Z :=
  if b =? 0 then Raise ZeroDivisionError else Ok (a `mod` b).

(** [a / b] on floats. *)
Definition truediv (a b : Q) : outcome Q :=
  if Qeq_bool b 0 then Raise ZeroDivisionError else Ok (a / b)%Q.

(** [a > b] on floats. *)
Definition gt (a b : Q) : bool := negb (Qle_bool a b).

(** [max(a, b)]: the first argument unless the second is larger. *)
Definition max (a b : Q) : Q := if gt b a then b else a.

(** [int(x)] on a float: truncation toward zero. *)
Definition int (x : Q) : Z := Z.quot (Qnum x) (Zpos (Qden x)).

(** [range(lo, hi)]. *)
Definition range (lo hi : Z) : list Z :=
  map (fun i : nat => lo + Z.of_nat i) (seq 0 (Z.to_nat (hi - lo))).

(** An int that [float] converts without OverflowError. *)
Definition fits_float (z : Z) : Prop := Z.abs z < 2 ^ 1023.

(** A number within the range of the finite floats. *)
Definition float_range (q : Q) : Prop :=
  (inject_Z (- 2 ^ 1023) < q)%Q /\ (q < inject_Z (2 ^ 1023))%Q.

(** [s.startswith('/')] *)
Definition starts_with_sep (s : string) : bool :=
  match s with
  | String c _ => Ascii.eqb c "/"%char
  | EmptyString => false
  end.

(** [s.endswith('/')] *)
Fixpoint ends_with_sep (s : string) : bool :=
  match s with
  | EmptyString => false
  | String c EmptyString => Ascii.eqb c "/"%char
  | String _ rest => ends_with_sep rest
  end.

(** [os.path.join(d, f)]: an absolute [f] replaces [d]; a separator is put
    between the two unless [d] is empty or ends with one. *)
Definition path_join (d f : string) : string :=
  if starts_with_sep f then f
  else if String.eqb d "" || ends_with_sep d then d +:+ f
  else d +:+ "/" +:+ f.

(** The directories on the way to [p]: for each separator of [p], what
    stands before it.  The empty string is the root of an absolute path. *)
Fixpoint path_parents (p : string) : list string :=
  match p with
  | EmptyString => []
  | String c rest =>
      (if Ascii.eqb c "/"%char then [EmptyString] else [])
      ++ map (String c) (path_parents rest)
  end.

(** The components of [p], between its separators. *)
Fixpoint path_components (p : string) : list string :=
  match p with
  | EmptyString => [EmptyString]
  | String c rest =>
      if Ascii.eqb c "/"%char then EmptyString :: path_components rest
      else match path_components rest with
           | x :: l => String c x :: l
           | [] => [String c EmptyString]
           end
  end.

(** A path written plainly: not empty, and no component of it is empty (but
    the one before the leading separator of an absolute path), [.] or [..]. *)
Definition plain_path (p : string) : bool :=
  negb (String.eqb p "") &&
  forallb (fun x => negb (String.eqb x "") && negb (String.eqb x ".")
                    && negb (String.eqb x ".."))
          (if starts_with_sep p then tail (path_components p) else path_components p).

(** A file name: not empty and without a separator. *)
Definition file_name (f : string) : bool :=
  negb (String.eqb f "") &&
  match path_parents f with [] => true | _ => false end.

End Py.

Notation "x <~ o ;; k" := (Py.obind o (fun x => k))
  (at level 100, o at next level, right associativity, only parsing).

(** ** Torch tensors of rank one, as lists *)

Module Tensor.

(** [a - b], elementwise.  Of two sizes that differ, one has to be 1: that
    operand is broadcast over the other; any other pair of sizes raises. *)
Definition sub (a b : list Q) : Py.outcome (list Q) :=
  if (length a =? length b)%nat
  then Py.Ok (map (fun p => (fst p - snd p)%Q) (combine a b))
  else match a, b with
       | [x], _ => Py.Ok (map (fun y => (x - y)%Q) b)
       | _, [y] => Py.Ok (map (fun x => (x - y)%Q) a)
       | _, _ => Py.Raise Py.RuntimeError
       end.

(** [t - c] for a scalar [c]. *)
Definition sub_scalar (t : list Q) (c : Q) : list Q :=
  map (fun x => (x - c)%Q) t.

(** [(t > 0).sum()]. *)
Definition count_pos (t : list Q) : Z :=
  Z.of_nat (length (List.filter (fun x => Py.gt x 0) t)).

(** [torch.FloatTensor(size).fill_(1)]. *)
Definition ones (n : nat) : list Q := repeat 1%Q n.

(** [t / n] for a tensor [t] of one element and an int [n].  Division of
    tensors does not raise: over [n = 0] it yields nan for a zero [t] (an
    infinity otherwise), which is no rational. *)
Definition div (t : Q) (n : Z) : Py.outcome Q :=
  if n =? 0 then Py.Raise Py.NotANumber else Py.Ok (t / inject_Z n)%Q.

End Tensor.

(** ** [AverageMeter] (train.py, lines 290-305)

    The values are floats, taken as exact rationals, and the weights are
    ints; [val * n] and [sum / count] convert the int to a float, which
    Python refuses with OverflowError beyond the float range
    ([Py.fits_float]), as it refuses a quotient of two ints that is beyond
    it ([Py.float_range]). *)

Record AverageMeter : Set := mkMeter {
  val : Q;
  avg : Q;
  sum : Q;
  count : Z
}.

(** A method call returns its outcome and the object as the call leaves it. *)
Definition Method (A : Type) : Type := (Py.outcome A * AverageMeter)%type.

Module Meter.

Definition reset (self : AverageMeter) : AverageMeter :=
  {| val := 0; avg := 0; sum := 0; count := 0 |}.

(** [AverageMeter()]: [__init__] calls [reset] on the new object. *)
Definition new : AverageMeter :=
  reset {| val := 0; avg := 0; sum := 0; count := 0 |}.

(** [update(val, n)].  The three assignments precede the division, so an
    update that raises leaves [val], [sum] and [count] written and [avg]
    as it was. *)
Definition update (self : AverageMeter) (v : Q) (n : Z) : Method unit :=
  let s1 := {| val := v; avg := avg self; sum := sum self; count := count self |} in
  let s2 := {| val := val s1; avg := avg s1;
               sum := (sum s1 + v * inject_Z n)%Q; count := count s1 |} in
  let s3 := {| val := val s2; avg := avg s2; sum := sum s2;
               count := count s2 + n |} in
  match Py.truediv (sum s3) (inject_Z (count s3)) with
  | Py.Ok q => (Py.Ok tt,
                {| val := val s3; avg := q; sum := sum s3; count := count s3 |})
  | Py.Raise e => (Py.Raise e, s3)
  end.

(** Reading the attribute [avg]. *)
Definition get_avg (self : AverageMeter) : Method Q := (Py.Ok (avg self), self).

(** A sequence of [update] calls on one object; it stops at the first
    call that raises. *)
Fixpoint updates (self : AverageMeter) (calls : list (Q * Z)) : Method unit :=
  match calls with
  | [] => (Py.Ok tt, self)
  | (v, n) :: rest =>
      match update self v n with
      | (Py.Ok _, self') => updates self' rest
      | (Py.Raise e, self') => (Py.Raise e, self')
      end
  end.

End Meter.

(** ** [LossAccuracy] (train.py, lines 307-310)

    The count [(pred > 0).sum()] is a tensor, and so is the quotient: for
    empty vectors, where count and size are both 0, the function returns nan
    (on torch before 0.4, whose empty tensors have no dimension,
    [dista.size()[0]] raises IndexError instead).  Either way no fraction
    comes back. *)

Definition LossAccuracy (dista distb : list Q) : Py.outcome Q :=
  let margin := 0%Q in
  d <~ Tensor.sub dista distb ;;
  let pred := Tensor.sub_scalar d margin in
  Tensor.div (inject_Z (Tensor.count_pos pred) * 1) (Z.of_nat (length dista)).

(** ** Global parameters (train.py, lines 67-82) *)

Definition train_classes : list Z := Py.range 0 8.
Definition hard_frac : Q := 1 # 2.

(** Command-line arguments read by the modelled code. *)
Record Args : Set := mkArgs {
  batch_size : Z;
  epochs : Z;
  margin : Q;
  reg : Q;
  name : string;
  triplet_freq : Z;
  val_freq : Z;
  log_interval : Z
}.

(** ** Collaborators *)

(** What [tnet(data1, data2, data3)] returns. *)
Record Forward (E : Type) : Type := mkForward {
  dista : list Q;
  distb : list Q;
  embedded_x : E;
  embedded_y : E;
  embedded_z : E
}.
Arguments mkForward {E} _ _ _ _ _.
Arguments dista {E} _.
Arguments distb {E} _.
Arguments embedded_x {E} _.
Arguments embedded_y {E} _.
Arguments embedded_z {E} _.

(** What a loader yields: three image tensors and their index tensors. *)
Record BatchOf (I : Type) : Type := mkBatch {
  data1 : I;
  data2 : I;
  data3 : I;
  idx1 : list Z;
  idx2 : list Z;
  idx3 : list Z
}.
Arguments mkBatch {I} _ _ _ _ _ _.
Arguments data1 {I} _.
Arguments data2 {I} _.
Arguments data3 {I} _.
Arguments idx1 {I} _.
Arguments idx2 {I} _.
Arguments idx3 {I} _.

Class Collaborators : Type := {
  Images : Type;
  Embedding : Type;
  Model : Type;
  StateDict : Type;
  Dataset : Type;
  Sampler : Type;
  Rng : Type;
  (** [x.size(0)], which is also [len(x)] *)
  size0 : Images -> Z;
  (** [tnet(data1, data2, data3)] *)
  tnet_forward : Model -> Images -> Images -> Images -> Forward Embedding;
  (** [e.norm(2)] *)
  norm2 : Embedding -> Q;
  tnet_train : Model -> Model;
  tnet_eval : Model -> Model;
  state_dict : Model -> StateDict;
  (** [torch.nn.MarginRankingLoss(margin)(dista, distb, target)] *)
  criterion : Q -> list Q -> list Q -> list Q -> Q;
  (** [optimizer.zero_grad(); loss.backward(); optimizer.step()] on the
      batch just forwarded *)
  optimizer_step : Model -> Images -> Images -> Images -> Q -> Model;
  (** one pass over a shuffling [DataLoader] of the given batch size *)
  enumerate_loader : Dataset -> Z -> Rng -> list (BatchOf Images) * Rng;
  dataset_len : Dataset -> Z;
  (** [hard_mining.NHardestTripletSampler] *)
  OurSampler : Z -> Z -> Sampler;
  SampleNegatives : Sampler -> list Q -> list Q -> Q ->
                    list Z * list Z * list Z -> Sampler;
  Reset : Sampler -> Sampler;
  (** [CUBTriplets.regenerate_triplet_list(sampler, hard_frac)] *)
  regenerate_triplet_list : Dataset -> Sampler -> Q -> Rng -> Dataset * Rng
}.

Section Program.

Context {C : Collaborators}.

Definition Batch : Type := BatchOf Images.

(** The dictionary handed to [SaveCheckpoint]. *)
Record Checkpoint : Type := mkCheckpoint {
  ck_epoch : Z;
  ck_state_dict : StateDict;
  ck_best_prec1 : Q
}.

Record FileSystem : Type := mkFS {
  dirs : gset string;
  files : gmap string Checkpoint
}.

(** The objects the modelled part of [main] works on. *)
Record World : Type := mkWorld {
  tnet : Model;
  sampler : Sampler;
  train_data_set : Dataset;
  val_data_set_t : Dataset;
  rng : Rng;
  best_acc : Q;
  fs : FileSystem
}.

(** Calls, returns and output, in program order. *)
Inductive Event : Type :=
| Call_OurSampler (num_classes capacity : Z)
| Call_Train (epoch : Z)
| Call_criterion (dista distb target : list Q)
| Call_SampleNegatives (dista distb : list Q) (loss : Q) (idx : list Z * list Z * list Z)
| Call_optimizer_step
| Print_Train (epoch seen total : Z) (loss_val loss_avg acc_val acc_avg emb_val emb_avg : Q)
| Call_TestTriplets
| Print_Test (loss_avg acc : Q)
| Ret_TestTriplets (acc : Q)
| Call_SaveCheckpoint (state : Checkpoint) (is_best : bool)
| Call_regenerate_triplet_list (s : Sampler) (frac : Q)
| Call_Reset.

Record Run (A : Type) : Type := mkRun {
  out : Py.outcome A;
  world : World;
  events : list Event
}.
Arguments mkRun {A} out world events.
Arguments out {A} r.
Arguments world {A} r.
Arguments events {A} r.

Definition M (A : Type) : Type := World -> Run A.

Definition ret {A} (a : A) : M A := fun w => mkRun (Py.Ok a) w [].

Definition bind {A B} (m : M A) (k : A -> M B) : M B := fun w =>
  match m w with
  | mkRun (Py.Ok a) w1 evs1 =>
      match k a w1 with
      | mkRun o w2 evs2 => mkRun o w2 (evs1 ++ evs2)
      end
  | mkRun (Py.Raise e) w1 evs1 => mkRun (Py.Raise e) w1 evs1
  end.

Definition emit (ev : Event) : M unit := fun w => mkRun (Py.Ok tt) w [ev].

Definition get : M World := fun w => mkRun (Py.Ok w) w [].

Definition put (w : World) : M unit := fun _ => mkRun (Py.Ok tt) w [].

Definition modify (f : World -> World) : M unit := fun w => mkRun (Py.Ok tt) (f w) [].

(** A pure expression that may raise. *)
Definition lift {A} (o : Py.outcome A) : M A := fun w => mkRun o w [].

(** A method call on a local meter: the updated object, or the exception. *)
Definition call {A} (c : Method A) : M AverageMeter := lift (_ <~ fst c ;; Py.Ok (snd c)).

End Program.

Arguments mkRun {C A} out world events.
Arguments out {C A} r.
Arguments world {C A} r.
Arguments events {C A} r.

Notation "x <- m ;; k" := (bind m (fun x => k))
  (at level 100, m at next level, right associativity, only parsing).
Notation "m ;;; k" := (bind m (fun _ => k))
  (at level 100, right associativity, only parsing).

Section Phases.

Context {C : Collaborators}.

(** [runs_dir], fixed when the module is loaded (train.py, lines 81-82). *)
Variable runs_dir : string.

Definition set_tnet (m : Model) (w : World) : World :=
  mkWorld m (sampler w) (train_data_set w) (val_data_set_t w) (rng w) (best_acc w) (fs w).

Definition set_sampler (s : Sampler) (w : World) : World :=
  mkWorld (tnet w) s (train_data_set w) (val_data_set_t w) (rng w) (best_acc w) (fs w).

Definition set_train_data_set (d : Dataset) (w : World) : World :=
  mkWorld (tnet w) (sampler w) d (val_data_set_t w) (rng w) (best_acc w) (fs w).

Definition set_rng (r : Rng) (w : World) : World :=
  mkWorld (tnet w) (sampler w) (train_data_set w) (val_data_set_t w) r (best_acc w) (fs w).

Definition set_best_acc (b : Q) (w : World) : World :=
  mkWorld (tnet w) (sampler w) (train_data_set w) (val_data_set_t w) (rng w) b (fs w).

Definition set_fs (f : FileSystem) (w : World) : World :=
  mkWorld (tnet w) (sampler w) (train_data_set w) (val_data_set_t w) (rng w) (best_acc w) f.

(** *** The file system under [SaveCheckpoint] *)

Definition is_dir (p : string) (f : FileSystem) : bool := bool_decide (p ∈ dirs f).

Definition is_file (p : string) (f : FileSystem) : bool :=
  bool_decide (is_Some (files f !! p)).

(** [os.path.exists(p)] *)
Definition path_exists (p : string) (f : FileSystem) : bool :=
  is_dir p f || is_file p f.

(** A regular file stands where [p] needs a directory. *)
Definition blocked (p : string) (f : FileSystem) : bool :=
  existsb (fun a => is_file a f) (Py.path_parents p).

(** [os.makedirs(p)]: creates [p] and the missing directories on the way to
    it; raises when [p] exists already or a regular file is on the way. *)
Definition makedirs (p : string) (f : FileSystem) : Py.outcome FileSystem :=
  if path_exists p f || blocked p f then Py.Raise Py.OSError
  else Py.Ok (mkFS (list_to_set (p :: Py.path_parents p) ∪ dirs f) (files f)).

(** [open(p, 'wb')] succeeds: no directory stands at [p], and every
    directory on the way to [p] exists. *)
Definition writable (p : string) (f : FileSystem) : bool :=
  negb (is_dir p f) &&
  forallb (fun a => String.eqb a "" || is_dir a f) (Py.path_parents p).

(** [torch.save(state, filename)] *)
Definition torch_save (state : Checkpoint) (filename : string) (f : FileSystem)
    : Py.outcome FileSystem :=
  if writable filename f
  then Py.Ok (mkFS (dirs f) (<[ filename := state ]> (files f)))
  else Py.Raise Py.RuntimeError.

(** [shutil.copyfile(src, dst)] *)
Definition copyfile (src dst : string) (f : FileSystem) : Py.outcome FileSystem :=
  if String.eqb src dst then Py.Raise Py.SameFileError
  else match files f !! src with
       | Some c =>
           if writable dst f
           then Py.Ok (mkFS (dirs f) (<[ dst := c ]> (files f)))
           else Py.Raise Py.OSError
       | None => Py.Raise Py.OSError
       end.

(** A call that works on the file system. *)
Definition on_fs (op : FileSystem -> Py.outcome FileSystem) : M unit :=
  w <- get ;;
  f <- lift (op (fs w)) ;;
  put (set_fs f w).

(** *** [SaveCheckpoint] (train.py, lines 280-288) *)

Definition SaveCheckpoint (args : Args) (state : Checkpoint) (is_best : bool)
    (filename : string) : M unit :=
  emit (Call_SaveCheckpoint state is_best) ;;;
  let directory := Py.path_join runs_dir (name args) in
  w <- get ;;
  (if negb (path_exists directory (fs w))
   then on_fs (makedirs directory)
   else ret tt) ;;;
  let filename := Py.path_join directory filename in
  on_fs (torch_save state filename) ;;;
  if is_best
  then on_fs (copyfile filename (Py.path_join directory "model_best.pth.tar"))
  else ret tt.

(** *** The calls of the batch loops

    Each call is recorded in the trace with the arguments it is made with. *)

(** [criterion(dista, distb, target)] *)
Definition call_criterion (margin : Q) (dista distb target : list Q) : M Q :=
  emit (Call_criterion dista distb target) ;;;
  ret (criterion margin dista distb target).

(** [sampler.SampleNegatives(dista, distb, loss, (idx1, idx2, idx3))] *)
Definition call_SampleNegatives (dista distb : list Q) (loss : Q)
    (idx : list Z * list Z * list Z) : M unit :=
  emit (Call_SampleNegatives dista distb loss idx) ;;;
  modify (fun w => set_sampler (SampleNegatives (sampler w) dista distb loss idx) w).

(** [optimizer.zero_grad(); loss.backward(); optimizer.step()] *)
Definition call_optimizer_step (x y z : Images) (loss : Q) : M unit :=
  emit Call_optimizer_step ;;;
  modify (fun w => set_tnet (optimizer_step (tnet w) x y z loss) w).

(** *** [Train] (train.py, lines 184-237) *)

Record TrainMeters : Set := mkTrainMeters {
  tr_losses : AverageMeter;
  tr_loss_accs : AverageMeter;
  tr_emb_norms : AverageMeter
}.

(** Lines 185-187. *)
Definition Train_meters : TrainMeters :=
  {| tr_losses := Meter.new; tr_loss_accs := Meter.new; tr_emb_norms := Meter.new |}.

(** One iteration of the batch loop, lines 192-235. *)
Definition Train_batch (args : Args) (epoch : Z) (ms : TrainMeters)
    (batch_idx : Z) (b : Batch) : M TrainMeters :=
  w <- get ;;
  (* compute output *)
  let o := tnet_forward (tnet w) (data1 b) (data2 b) (data3 b) in
  (* 1 means, dista should be larger than distb *)
  let target := Tensor.ones (length (dista o)) in
  (* forward pass *)
  loss_triplet <- call_criterion (margin args) (dista o) (distb o) target ;;
  (* sample hard negatives based on loss *)
  call_SampleNegatives (dista o) (distb o) loss_triplet (idx1 b, idx2 b, idx3 b) ;;;
  let loss_embedd :=
    (norm2 (embedded_x o) + norm2 (embedded_y o) + norm2 (embedded_z o))%Q in
  let loss := (loss_triplet + reg args * loss_embedd)%Q in
  (* measure loss accuracy and record loss *)
  loss_acc <- lift (LossAccuracy (dista o) (distb o)) ;;
  losses <- call (Meter.update (tr_losses ms) loss_triplet (size0 (data1 b))) ;;
  loss_accs <- call (Meter.update (tr_loss_accs ms) loss_acc (size0 (data1 b))) ;;
  emb_norms <- call (Meter.update (tr_emb_norms ms) (loss_embedd / 3)%Q (size0 (data1 b))) ;;
  (* compute gradient and do optimizer step *)
  call_optimizer_step (data1 b) (data2 b) (data3 b) loss ;;;
  r <- lift (Py.mod_ batch_idx (log_interval args)) ;;
  (if r =? 0
   then w <- get ;;
        emit (Print_Train epoch (batch_idx * size0 (data1 b))
                (dataset_len (train_data_set w))
                (val losses) (avg losses)
                (100 * val loss_accs)%Q (100 * avg loss_accs)%Q
                (val emb_norms) (avg emb_norms))
   else ret tt) ;;;
  ret {| tr_losses := losses; tr_loss_accs := loss_accs; tr_emb_norms := emb_norms |}.

(** The [for batch_idx, ... in enumerate(train_loader)] loop. *)
Fixpoint Train_loop (args : Args) (epoch : Z) (ms : TrainMeters)
    (batch_idx : Z) (batches : list Batch) : M TrainMeters :=
  match batches with
  | [] => ret ms
  | b :: rest =>
      ms' <- Train_batch args epoch ms batch_idx b ;;
      Train_loop args epoch ms' (batch_idx + 1) rest
  end.

Definition Train (args : Args) (epoch : Z) : M Q :=
  emit (Call_Train epoch) ;;;
  let ms := Train_meters in
  (* switch to train mode *)
  modify (fun w => set_tnet (tnet_train (tnet w)) w) ;;;
  w <- get ;;
  let it := enumerate_loader (train_data_set w) (batch_size args) (rng w) in
  put (set_rng (snd it) w) ;;;
  ms <- Train_loop args epoch ms 0 (fst it) ;;
  ret (avg (tr_loss_accs ms)).

(** *** [TestTriplets] (train.py, lines 252-278) *)

Record TestMeters : Set := mkTestMeters {
  te_losses : AverageMeter;
  te_accs : AverageMeter
}.

(** Lines 253-254. *)
Definition Test_meters : TestMeters :=
  {| te_losses := Meter.new; te_accs := Meter.new |}.

(** One iteration of the batch loop, lines 259-274. *)
Definition Test_batch (args : Args) (ms : TestMeters) (b : Batch) : M TestMeters :=
  w <- get ;;
  (* compute output *)
  let o := tnet_forward (tnet w) (data1 b) (data2 b) (data3 b) in
  let target := Tensor.ones (length (dista o)) in
  test_loss <- call_criterion (margin args) (dista o) (distb o) target ;;
  (* measure accuracy and record loss *)
  acc <- lift (LossAccuracy (dista o) (distb o)) ;;
  accs <- call (Meter.update (te_accs ms) acc (size0 (data1 b))) ;;
  losses <- call (Meter.update (te_losses ms) test_loss (size0 (data1 b))) ;;
  ret {| te_losses := losses; te_accs := accs |}.

Fixpoint Test_loop (args : Args) (ms : TestMeters) (batches : list Batch) : M TestMeters :=
  match batches with
  | [] => ret ms
  | b :: rest =>
      ms' <- Test_batch args ms b ;;
      Test_loop args ms' rest
  end.

Definition TestTriplets (args : Args) : M Q :=
  emit Call_TestTriplets ;;;
  let ms := Test_meters in
  (* switch to evaluation mode *)
  modify (fun w => set_tnet (tnet_eval (tnet w)) w) ;;;
  w <- get ;;
  let it := enumerate_loader (val_data_set_t w) (batch_size args) (rng w) in
  put (set_rng (snd it) w) ;;;
  ms <- Test_loop args ms (fst it) ;;
  emit (Print_Test (avg (te_losses ms)) (100 * avg (te_accs ms))%Q) ;;;
  emit (Ret_TestTriplets (avg (te_accs ms))) ;;;
  ret (avg (te_accs ms)).

(** *** [main] (train.py, lines 155-182) *)

(** Lines 155-156: the capacity handed to the sampler's constructor.  The
    factor is 0.75 exactly, and its product with the batch size is the
    double product as long as [3 * batch_size] is below [2^53]. *)
Definition capacity_per_class (batch_size : Z) : Z :=
  Py.int ((hard_frac + hard_frac / 2) * inject_Z batch_size)%Q.

(** Lines 166-173: remember best acc and save checkpoint. *)
Definition remember_best (args : Args) (epoch : Z) (acc : Q) : M unit :=
  w <- get ;;
  let is_best := Py.gt acc (best_acc w) in
  modify (fun w => set_best_acc (Py.max acc (best_acc w)) w) ;;;
  w <- get ;;
  SaveCheckpoint args
    {| ck_epoch := epoch + 1;
       ck_state_dict := state_dict (tnet w);
       ck_best_prec1 := best_acc w |}
    is_best "checkpoint.pth.tar".

(** Lines 178-182: regenerate the triplet list, then reset the sampler. *)
Definition regenerate_and_reset : M unit :=
  w <- get ;;
  emit (Call_regenerate_triplet_list (sampler w) hard_frac) ;;;
  let d := regenerate_triplet_list (train_data_set w) (sampler w) hard_frac (rng w) in
  put (set_rng (snd d) (set_train_data_set (fst d) w)) ;;;
  (* then reset sampler *)
  emit Call_Reset ;;;
  modify (fun w => set_sampler (Reset (sampler w)) w).

(** The body of the epoch loop, lines 159-182. *)
Definition epoch_body (args : Args) (epoch : Z) : M unit :=
  (* train for one epoch *)
  Train args epoch ;;;
  (* evaluate on validation set *)
  r <- lift (Py.mod_ epoch (val_freq args)) ;;
  (if r =? 0
   then acc <- TestTriplets args ;; remember_best args epoch acc
   else ret tt) ;;;
  (* reset sampler and regenerate triplets every few epochs *)
  r <- lift (Py.mod_ epoch (triplet_freq args)) ;;
  if r =? 0 then regenerate_and_reset else ret tt.

Fixpoint for_each (l : list Z) (body : Z -> M unit) : M unit :=
  match l with
  | [] => ret tt
  | x :: rest => body x ;;; for_each rest body
  end.

(** What lines 88-153 set up before the sampler is built. *)
Record Setup : Type := mkSetup {
  setup_tnet : Model;
  setup_train_data_set : Dataset;
  setup_val_data_set_t : Dataset;
  setup_rng : Rng;
  setup_fs : FileSystem
}.

Definition main (args : Args) (s : Setup) : Run unit :=
  let cap := capacity_per_class (batch_size args) in
  let num_classes := Z.of_nat (length train_classes) in
  let w0 := {| tnet := setup_tnet s;
               sampler := OurSampler num_classes cap;
               train_data_set := setup_train_data_set s;
               val_data_set_t := setup_val_data_set_t s;
               rng := setup_rng s;
               best_acc := 0;   (* line 68 *)
               fs := setup_fs s |} in
  (emit (Call_OurSampler num_classes cap) ;;;
   for_each (Py.range 1 (epochs args + 1)) (epoch_body args)) w0.

End Phases.

(** ** The hard-negative sampler *)

Module HardMining.

(** Modelled from the spec: the error taxonomy of section 7, as far as the
    sampler raises it. *)
Inductive Error : Set :=
| ConfigurationError
| NotFoundError
| InvariantViolation.

(** Modelled from the spec: one retained triplet record, that is its
    indices, its hardness (the loss it contributed) and its distance margin
    [dista - distb]. *)
Record HardRecord : Set := mkRecord {
  triplet : Z * Z * Z;
  hardness : Q;
  dist_margin : Q
}.

(** Modelled from the spec: [hard_mining.NHardestTripletSampler], imported by
    train.py, is not among the sources.  The state is the spec's
    ClassDifficultyState: for each class id in [0, num_classes) a collection of
    records, kept hardest first, of at most [capacity] records. *)
Record Sampler : Set := mkSampler {
  num_classes : nat;
  capacity : nat;
  hardest : list (list HardRecord)
}.

(** Modelled from the spec: the ordered insertion behind a bounded max-size
    structure ordered by hardness descending.  The new record goes before the
    first retained record that is strictly less hard, so of two records of
    equal hardness the earlier-seen one stays ahead. *)
Fixpoint insert_desc (r : HardRecord) (l : list HardRecord) : list HardRecord :=
  match l with
  | [] => [r]
  | x :: l' =>
      if Py.gt (hardness r) (hardness x) then r :: x :: l'
      else x :: insert_desc r l'
  end.

(** Modelled from the spec: one insertion into a class's collection.  Below
    capacity the record is inserted unconditionally; at capacity it is
    inserted only if its hardness exceeds the smallest retained hardness,
    and that smallest entry is evicted. *)
Definition insert_bounded (cap : nat) (r : HardRecord) (l : list HardRecord)
    : list HardRecord :=
  if (length l <? cap)%nat then insert_desc r l
  else match last l with
       | Some least =>
           if Py.gt (hardness r) (hardness least)
           then insert_desc r (removelast l)
           else l
       | None => l
       end.

(** Modelled from the spec: [Construct(num_classes, capacity_per_class)],
    which fails with ConfigurationError on a non-positive argument. *)
Definition Construct (n cap : Z) : Error + Sampler :=
  if (n <=? 0) || (cap <=? 0) then inl ConfigurationError
  else inr {| num_classes := Z.to_nat n;
              capacity := Z.to_nat cap;
              hardest := replicate (Z.to_nat n) [] |}.

(** Modelled from the spec: [Reset()] clears every collection. *)
Definition Reset (s : Sampler) : Sampler :=
  {| num_classes := num_classes s;
     capacity := capacity s;
     hardest := replicate (num_classes s) [] |}.

(** Modelled from the spec: [HardestForClass(class_id)], hardest first;
    NotFoundError outside [0, num_classes). *)
Definition HardestForClass (s : Sampler) (class_id : Z) : Error + list HardRecord :=
  if (class_id <? 0) || (Z.of_nat (num_classes s) <=? class_id) then inl NotFoundError
  else match hardest s !! Z.to_nat class_id with
       | Some l => inr l
       | None => inl NotFoundError
       end.

Section Sampling.

(** Modelled from the spec: the class label of a data set index, which the
    spec calls recoverable from idx. *)
Variable class_of : Z -> Z.

(** Modelled from the spec: the insertion of one triplet of the batch under
    the class of its anchor; a class out of range is an InvariantViolation. *)
Definition insert_one (s : Sampler) (r : HardRecord) : Error + Sampler :=
  let c := class_of (fst (fst (triplet r))) in
  if (c <? 0) || (Z.of_nat (num_classes s) <=? c) then inl InvariantViolation
  else match hardest s !! Z.to_nat c with
       | Some l =>
           inr {| num_classes := num_classes s;
                  capacity := capacity s;
                  hardest := <[ Z.to_nat c := insert_bounded (capacity s) r l ]> (hardest s) |}
       | None => inl InvariantViolation
       end.

(** Modelled from the spec: the triplets of a batch are inserted in batch
    order, up to the first failure. *)
Fixpoint insert_all (s : Sampler) (rs : list HardRecord) : Error + Sampler :=
  match rs with
  | [] => inr s
  | r :: rest =>
      match insert_one s r with
      | inr s' => insert_all s' rest
      | inl e => inl e
      end
  end.

(** Modelled from the spec: the arguments of one [SampleNegatives] call. *)
Record Batch : Set := mkBatch {
  b_dista : list Q;
  b_distb : list Q;
  b_loss : list Q;
  b_idxA : list Z;
  b_idxP : list Z;
  b_idxN : list Z
}.

(** Modelled from the spec: the records of a batch, in batch order;
    hardness is the loss value of the triplet. *)
Fixpoint records (da db ls : list Q) (ia ip inn : list Z) : list HardRecord :=
  match da, db, ls, ia, ip, inn with
  | a :: da', b :: db', l :: ls', i :: ia', p :: ip', n :: inn' =>
      {| triplet := (i, p, n); hardness := l; dist_margin := (a - b)%Q |}
      :: records da' db' ls' ia' ip' inn'
  | _, _, _, _, _, _ => []
  end.

(** Modelled from the spec: the length check behind "mismatched tuple
    lengths". *)
Definition same_lengths (b : Batch) : bool :=
  let n := length (b_dista b) in
  (length (b_distb b) =? n)%nat && (length (b_loss b) =? n)%nat &&
  (length (b_idxA b) =? n)%nat && (length (b_idxP b) =? n)%nat &&
  (length (b_idxN b) =? n)%nat.

(** Modelled from the spec: the records of one call. *)
Definition batch_records (b : Batch) : list HardRecord :=
  records (b_dista b) (b_distb b) (b_loss b) (b_idxA b) (b_idxP b) (b_idxN b).

(** Modelled from the spec: [SampleNegatives(dista, distb, loss_values,
    (idxA, idxP, idxN))]; mismatched lengths are an InvariantViolation. *)
Definition SampleNegatives (s : Sampler) (b : Batch) : Error + Sampler :=
  if same_lengths b then insert_all s (batch_records b)
  else inl InvariantViolation.

(** A sequence of [SampleNegatives] calls. *)
Fixpoint sample_all (s : Sampler) (calls : list Batch) : Error + Sampler :=
  match calls with
  | [] => inr s
  | b :: rest =>
      match SampleNegatives s b with
      | inr s' => sample_all s' rest
      | inl e => inl e
      end
  end.

(** The calls a sampler of [n] classes accepts: index and distance vectors
    of one length, anchors of a class in [0, n). *)
Definition well_formed_calls (n : nat) (calls : list Batch) : Prop :=
  Forall (fun b =>
            same_lengths b = true /\
            Forall (fun r => 0 <= class_of (fst (fst (triplet r))) < Z.of_nat n)
                   (batch_records b)) calls.

(** The records that a sequence of calls reports for one class, in the
    order in which they arrive. *)
Definition class_records (c : Z) (calls : list Batch) : list HardRecord :=
  List.filter (fun r => class_of (fst (fst (triplet r))) =? c)
    (concat (map batch_records calls)).

End Sampling.

(** All records of a list sorted hardest first, earlier-seen first among
    equals: the reference against which the bounded collection is compared. *)
Definition sort_desc (rs : list HardRecord) : list HardRecord :=
  fold_left (fun acc r => insert_desc r acc) rs [].

(** [x] is at least as hard as [y]. *)
Definition harder_eq (x y : HardRecord) : Prop := (hardness y <= hardness x)%Q.

(** [x] is strictly harder than [y]. *)
Definition harder (x y : HardRecord) : Prop := (hardness y < hardness x)%Q.

(** No two records of the list have the same hardness (as numbers: the
    hardness values are compared in lowest terms). *)
Definition distinct_hardness (rs : list HardRecord) : Prop :=
  NoDup (map (fun r => Qred (hardness r)) rs).

(** The collection of one class after the records [rs] arrived one by one,
    starting from the collection [l]. *)
Definition insert_each (cap : nat) (rs l : list HardRecord) : list HardRecord :=
  fold_left (fun acc r => insert_bounded cap r acc) rs l.

End HardMining.

(** ** Reference notions used in the statements *)

(** The number of pairs with [dista - distb - margin > 0], for margin 0, in
    the words of the specification. *)
Definition correctly_ranked (dista distb : list Q) : Z :=
  Z.of_nat (length (List.filter (fun p => Py.gt (fst p - snd p - 0)%Q 0)
                      (combine dista distb))).

(** The sum of [value * weight] over a sequence of [update] calls. *)
Definition weighted_sum (calls : list (Q * Z)) : Q :=
  fold_right (fun c acc => (fst c * inject_Z (snd c) + acc)%Q) 0%Q calls.

(** The sum of the weights of a sequence of [update] calls. *)
Definition weight_total (calls : list (Q * Z)) : Z :=
  fold_right (fun c acc => snd c + acc) 0 calls.

(** Starting from count [c], no call of the sequence brings the running
    count to zero. *)
Fixpoint counts_nonzero (c : Z) (calls : list (Q * Z)) : Prop :=
  match calls with
  | [] => True
  | (_, n) :: rest => c + n <> 0 /\ counts_nonzero (c + n) rest
  end.

(** Every number that [update(v, n)] on a meter of sum [s] and count [c]
    converts to a float or divides is within the float range, the results
    included: no OverflowError. *)
Definition update_fits (s : Q) (c : Z) (v : Q) (n : Z) : Prop :=
  Py.fits_float n /\ Py.fits_float (c + n) /\
  Py.float_range v /\ Py.float_range s /\
  Py.float_range (v * inject_Z n) /\
  Py.float_range (s + v * inject_Z n) /\
  Py.float_range ((s + v * inject_Z n) / inject_Z (c + n)).


(** No loader yields an empty batch. *)
Definition nonempty_batches {C : Collaborators} : Prop :=
  forall d n r b, In b (fst (enumerate_loader d n r)) -> 0 < size0 (data1 b).

(** A loss call that received two distance vectors of one non-zero length;
    any other event passes. *)
Definition distances_ok {C : Collaborators} (ev : Event) : bool :=
  match ev with
  | Call_criterion a b _ => (length a =? length b)%nat && negb (length a =? 0)%nat
  | _ => true
  end.

(** In a trace, the network returned well-formed distance vectors on every
    batch that was handed to it. *)
Definition well_formed_trace {C : Collaborators} (evs : list Event) : Prop :=
  forallb distances_ok evs = true.

(** The directory [d] is there or can be made: it is a directory, with
    every directory on the way to it, or nothing is at its place and no
    regular file is on the way. *)
Definition dir_ready {C : Collaborators} (d : string) (f : FileSystem) : bool :=
  if path_exists d f
  then is_dir d f &&
       forallb (fun a => String.eqb a "" || is_dir a f) (Py.path_parents d)
  else negb (blocked d f).

(** The directory [runs_dir/name] can take the checkpoints: its path is
    written plainly, it is there or can be made, and no directory stands at
    the place of either checkpoint file. *)
Definition checkpoint_dir_usable {C : Collaborators} (runs_dir name : string)
    (f : FileSystem) : bool :=
  let directory := Py.path_join runs_dir name in
  Py.plain_path directory &&
  dir_ready directory f &&
  negb (is_dir (Py.path_join directory "checkpoint.pth.tar") f) &&
  negb (is_dir (Py.path_join directory "model_best.pth.tar") f).

(** The file systems on which the checkpoints of [main] can be saved. *)
Definition usable {C : Collaborators} (runs_dir : string) (args : Args)
    (f : FileSystem) : Prop :=
  checkpoint_dir_usable runs_dir (name args) f = true.

(** The outcome of the three file-system steps of [SaveCheckpoint] in the
    directory [directory], and the file system they leave. *)
Definition save_steps {C : Collaborators} (directory : string) (state : Checkpoint)
    (is_best : bool) (filename : string) (f : FileSystem)
    : Py.outcome unit * FileSystem :=
  match (if negb (path_exists directory f) then makedirs directory f else Py.Ok f) with
  | Py.Raise e => (Py.Raise e, f)
  | Py.Ok f1 =>
      match torch_save state (Py.path_join directory filename) f1 with
      | Py.Raise e => (Py.Raise e, f1)
      | Py.Ok f2 =>
          if is_best
          then match copyfile (Py.path_join directory filename)
                       (Py.path_join directory "model_best.pth.tar") f2 with
               | Py.Raise e => (Py.Raise e, f2)
               | Py.Ok f3 => (Py.Ok tt, f3)
               end
          else (Py.Ok tt, f2)
      end
  end.

(** The events of the batch loops: every loss call carries an all-ones
    target of the size of [dista]. *)
Definition batch_event {C : Collaborators} (ev : Event) : Prop :=
  match ev with
  | Call_criterion a _ t => t = Tensor.ones (length a)
  | Call_SampleNegatives _ _ _ _ => True
  | Call_optimizer_step => True
  | Print_Train _ _ _ _ _ _ _ _ _ => True
  | _ => False
  end.

(** The state in which the batch loop of [Train] starts, and its batches. *)
Definition Train_entry {C : Collaborators} (args : Args) (w : World) : World :=
  let w1 := set_tnet (tnet_train (tnet w)) w in
  set_rng (snd (enumerate_loader (train_data_set w1) (batch_size args) (rng w1))) w1.

Definition Train_batches {C : Collaborators} (args : Args) (w : World) : list Batch :=
  fst (enumerate_loader (train_data_set w) (batch_size args) (rng w)).

(** The state in which the batch loop of [TestTriplets] starts, and its
    batches. *)
Definition Test_entry {C : Collaborators} (args : Args) (w : World) : World :=
  let w1 := set_tnet (tnet_eval (tnet w)) w in
  set_rng (snd (enumerate_loader (val_data_set_t w1) (batch_size args) (rng w1))) w1.

Definition Test_batches {C : Collaborators} (args : Args) (w : World) : list Batch :=
  fst (enumerate_loader (val_data_set_t w) (batch_size args) (rng w)).




(** The phases of an epoch, as the orchestrator enters them. *)
Inductive Phase : Set :=
| PTrain (epoch : Z)
| PValidate
| PRegenerate
| PReset.

Definition phase_of {C : Collaborators} (ev : Event) : option Phase :=
  match ev with
  | Call_Train e => Some (PTrain e)
  | Call_TestTriplets => Some PValidate
  | Call_regenerate_triplet_list _ _ => Some PRegenerate
  | Call_Reset => Some PReset
  | _ => None
  end.

Definition phases {C : Collaborators} (evs : list Event) : list Phase :=
  omap phase_of evs.


(** The number of train phases among a list of phases. *)
Definition train_count (ps : list Phase) : nat :=
  length (List.filter (fun p => match p with PTrain _ => true | _ => false end) ps).

(** A computation that returns and enters the phases [ps], from every state
    whose file system satisfies [I] and on every trace that is well formed;
    it leaves a file system that satisfies [I]. *)
Definition runs_with {C : Collaborators} {A} (I : FileSystem -> Prop) (m : M A)
    (ps : list Phase) : Prop :=
  forall w, I (fs w) -> well_formed_trace (events (m w)) ->
    (exists a, out (m w) = Py.Ok a) /\ phases (events (m w)) = ps /\
    I (fs (world (m w))).

(** ** A small instance of the collaborators, for concrete runs

    A batch of images is given by the outcome the network will have on it:
    for each triplet, the number of optimizer steps after which its negative
    comes out farther than its positive; a batch holds at least one triplet.
    The model counts the optimizer steps taken, the sampler the calls since
    its last reset, and a data set is the list of its batches. *)

Module Demo.

Definition images : Type := (nat * list nat)%type.

Definition thresholds (x : images) : list nat := fst x :: snd x.

Definition forward (m : nat) (x y z : images) : Forward unit :=
  mkForward (map (fun t : nat => if (t <=? m)%nat then 1%Q else 0%Q) (thresholds x))
            (map (fun _ : nat => (1 # 2)%Q) (thresholds x)) tt tt tt.

#[export] Instance collaborators : Collaborators := {|
  Images := images;
  Embedding := unit;
  Model := nat;
  StateDict := nat;
  Dataset := list (BatchOf images);
  Sampler := nat;
  Rng := unit;
  size0 := fun x => Z.of_nat (length (thresholds x));
  tnet_forward := forward;
  norm2 := fun _ => 1%Q;
  tnet_train := fun m => m;
  tnet_eval := fun m => m;
  state_dict := fun m => m;
  criterion := fun _ _ _ _ => 0%Q;
  optimizer_step := fun m _ _ _ _ => S m;
  enumerate_loader := fun d _ r => (d, r);
  dataset_len := fun d => Z.of_nat (length d);
  OurSampler := fun _ _ => 0%nat;
  SampleNegatives := fun s _ _ _ _ => S s;
  Reset := fun _ => 0%nat;
  regenerate_triplet_list := fun d _ _ r => (d, r)
|}.

Definition batch (x : images) : BatchOf images := mkBatch x x x [] [] [].

Definition setup (train validation : list images) : Setup :=
  {| setup_tnet := 0%nat;
     setup_train_data_set := map batch train;
     setup_val_data_set_t := map batch validation;
     setup_rng := tt;
     setup_fs := mkFS ∅ ∅ |}.

Definition checkpoint (e : Z) (steps : nat) (best : Q) : @Checkpoint collaborators :=
  mkCheckpoint e steps best.

Definition args (epochs val_freq triplet_freq : Z) : Args :=
  {| batch_size := 64; epochs := epochs; margin := 1 # 5; reg := 1 # 1000;
     name := "TripletNet"; triplet_freq := triplet_freq; val_freq := val_freq;
     log_interval := 2 |}.

End Demo.

(** The accuracies that the validation passes of a run return, in order. *)
Definition validation_accs {C : Collaborators} (evs : list Event) : list Q :=
  omap (fun ev => match ev with
                  | Ret_TestTriplets a => Some a
                  | _ => None
                  end) evs.

(** The [is_best] flag and the best accuracy handed to each
    [SaveCheckpoint] call of a run, in order. *)
Definition best_flags {C : Collaborators} (evs : list Event) : list (bool * Q) :=
  omap (fun ev => match ev with
                  | Call_SaveCheckpoint st b => Some (b, ck_best_prec1 st)
                  | _ => None
                  end) evs.

(** The best accuracy after the validation accuracies [accs], from [b]. *)
Definition final_best (b : Q) (accs : list Q) : Q :=
  fold_left (fun b a => Py.max a b) accs b.

(** Flag and best accuracy of each validation cycle, from best accuracy [b]. *)
Fixpoint track_best (b : Q) (accs : list Q) : list (bool * Q) :=
  match accs with
  | [] => []
  | a :: rest => (Py.gt a b, Py.max a b) :: track_best (Py.max a b) rest
  end.

(** A computation whose [SaveCheckpoint] calls and final best accuracy
    follow from the best accuracy it starts with and the validation
    accuracies returned on its way. *)
Definition tracks {C : Collaborators} {A} (m : M A) : Prop :=
  forall w,
    best_flags (events (m w)) =
      track_best (best_acc w) (validation_accs (events (m w))) /\
    best_acc (world (m w)) = final_best (best_acc w) (validation_accs (events (m w))).

(** Events that are neither a validation result nor a checkpoint call. *)
Definition silent {C : Collaborators} (ev : Event) : Prop :=
  match ev with
  | Ret_TestTriplets _ => False
  | Call_SaveCheckpoint _ _ => False
  | _ => True
  end.

(** A small sampler scenario: data set indices 0-9 belong to class 0,
    indices 10-19 to class 1; one call reports three triplets of class 0 and
    one of class 1, a second call one more triplet of class 0. *)
Module SamplerDemo.

Definition class_of (i : Z) : Z := i / 10.

Definition calls : list HardMining.Batch :=
  [ HardMining.mkBatch [1; 2; 1; 3]%Q [2; 1; 1; 1]%Q
      [(1 # 10); (5 # 10); (9 # 10); (2 # 10)]%Q
      [0; 1; 2; 10] [3; 4; 5; 11] [12; 13; 14; 6];
    HardMining.mkBatch [1]%Q [1]%Q [(3 # 10)]%Q [7] [8] [15] ].

End SamplerDemo.

(** ** Notions used in the further properties *)

(** The meter that a returning [update(v, n)] leaves. *)
Definition updated (m : AverageMeter) (v : Q) (n : Z) : AverageMeter :=
  {| val := v;
     avg := ((sum m + v * inject_Z n) / inject_Z (count m + n))%Q;
     sum := (sum m + v * inject_Z n)%Q;
     count := count m + n |}.

Section BatchNotions.

Context {C : Collaborators}.

(** What the network returns on batch [b] in state [w]. *)
Definition batch_forward (b : Batch) (w : World) : Forward Embedding :=
  tnet_forward (tnet w) (data1 b) (data2 b) (data3 b).

(** The loss of the batch, as both loops compute it. *)
Definition batch_loss (args : Args) (b : Batch) (w : World) : Q :=
  criterion (margin args) (dista (batch_forward b w)) (distb (batch_forward b w))
    (Tensor.ones (length (dista (batch_forward b w)))).

(** The value of [LossAccuracy] on the batch, when it returns. *)
Definition batch_accuracy (b : Batch) (w : World) : Q :=
  (inject_Z (correctly_ranked (dista (batch_forward b w)) (distb (batch_forward b w))) * 1
   / inject_Z (Z.of_nat (length (dista (batch_forward b w)))))%Q.

Definition batch_loss_embedd (b : Batch) (w : World) : Q :=
  (norm2 (embedded_x (batch_forward b w)) + norm2 (embedded_y (batch_forward b w))
   + norm2 (embedded_z (batch_forward b w)))%Q.

(** The state after one training batch: the sampler has taken the batch and
    the optimizer has stepped. *)
Definition trained_on (args : Args) (b : Batch) (w : World) : World :=
  set_tnet
    (optimizer_step (tnet w) (data1 b) (data2 b) (data3 b)
       (batch_loss args b w + reg args * batch_loss_embedd b w)%Q)
    (set_sampler
       (SampleNegatives (sampler w) (dista (batch_forward b w)) (distb (batch_forward b w))
          (batch_loss args b w) (idx1 b, idx2 b, idx3 b)) w).

(** The three calls every training batch makes before it logs. *)
Definition training_calls (args : Args) (b : Batch) (w : World) : list Event :=
  [ Call_criterion (dista (batch_forward b w)) (distb (batch_forward b w))
      (Tensor.ones (length (dista (batch_forward b w))));
    Call_SampleNegatives (dista (batch_forward b w)) (distb (batch_forward b w))
      (batch_loss args b w) (idx1 b, idx2 b, idx3 b);
    Call_optimizer_step ].

(** The meters of [Train] after a batch that returned. *)
Definition trained_meters (args : Args) (ms : TrainMeters) (b : Batch) (w : World)
    : TrainMeters :=
  {| tr_losses := updated (tr_losses ms) (batch_loss args b w) (size0 (data1 b));
     tr_loss_accs := updated (tr_loss_accs ms) (batch_accuracy b w) (size0 (data1 b));
     tr_emb_norms := updated (tr_emb_norms ms) (batch_loss_embedd b w / 3)%Q
                       (size0 (data1 b)) |}.

(** The line [Train] prints after batch [batch_idx]. *)
Definition training_print (args : Args) (epoch batch_idx : Z) (ms : TrainMeters)
    (b : Batch) (w : World) : Event :=
  let ms' := trained_meters args ms b w in
  Print_Train epoch (batch_idx * size0 (data1 b)) (dataset_len (train_data_set w))
    (val (tr_losses ms')) (avg (tr_losses ms'))
    (100 * val (tr_loss_accs ms'))%Q (100 * avg (tr_loss_accs ms'))%Q
    (val (tr_emb_norms ms')) (avg (tr_emb_norms ms')).

(** Batch [b] is well formed in state [w]: it is not empty, and the network
    returns for it two distance vectors of one non-zero length. *)
Definition batch_ok (b : Batch) (w : World) : Prop :=
  0 < size0 (data1 b) /\
  length (dista (batch_forward b w)) = length (distb (batch_forward b w)) /\
  dista (batch_forward b w) <> [].

(** The counts of a phase's meters are not negative. *)
Definition train_counts_ok (ms : TrainMeters) : Prop :=
  0 <= count (tr_losses ms) /\ 0 <= count (tr_loss_accs ms) /\
  0 <= count (tr_emb_norms ms).

End BatchNotions.

(** The number of events of a kind. *)
Definition count_events {C : Collaborators} (kind : Event -> bool) (evs : list Event) : nat :=
  length (List.filter kind evs).

Definition is_SampleNegatives {C : Collaborators} (ev : Event) : bool :=
  match ev with Call_SampleNegatives _ _ _ _ => true | _ => false end.

Definition is_optimizer_step {C : Collaborators} (ev : Event) : bool :=
  match ev with Call_optimizer_step => true | _ => false end.

Definition is_criterion {C : Collaborators} (ev : Event) : bool :=
  match ev with Call_criterion _ _ _ => true | _ => false end.

Definition is_Print_Train {C : Collaborators} (ev : Event) : bool :=
  match ev with Print_Train _ _ _ _ _ _ _ _ _ => true | _ => false end.

(** A meter of values between 0 and 1 taken with positive weights. *)
Definition unit_meter (m : AverageMeter) : Prop :=
  0 <= count m /\
  (0 <= sum m)%Q /\ (sum m <= inject_Z (count m))%Q /\
  (0 <= avg m)%Q /\ (avg m <= 1)%Q.

(** Concrete states and arguments for the small instance. *)
Module DemoRun.

Definition world (train validation : list Demo.images) : @World Demo.collaborators :=
  @mkWorld Demo.collaborators 0%nat 0%nat (map Demo.batch train)
    (map Demo.batch validation) tt 0%Q (@mkFS Demo.collaborators ∅ ∅).

Definition batch (x : Demo.images) : @Batch Demo.collaborators := Demo.batch x.

(** Arguments with a chosen [log_interval]. *)
Definition args_logging (log_interval : Z) : Args :=
  {| batch_size := 64; epochs := 1; margin := 1 # 5; reg := 1 # 1000;
     name := "TripletNet"; triplet_freq := 1; val_freq := 1;
     log_interval := log_interval |}.

End DemoRun.

(** The meters of [TestTriplets] after a batch that returned. *)
Definition tested_meters {C : Collaborators} (args : Args) (ms : TestMeters)
    (b : Batch) (w : World) : TestMeters :=
  {| te_losses := updated (te_losses ms) (batch_loss args b w) (size0 (data1 b));
     te_accs := updated (te_accs ms) (batch_accuracy b w) (size0 (data1 b)) |}.

(** The loss calls of a batch loop over the batches [bs], the network being
    in state [w]. *)
Definition batch_calls {C : Collaborators} (w : World) (bs : list Batch) : list Event :=
  map (fun b => Call_criterion (dista (batch_forward b w)) (distb (batch_forward b w))
                  (Tensor.ones (length (dista (batch_forward b w))))) bs.

(** The updates the loss meter and the accuracy meter of a validation pass
    take: one per batch, weighted by the size of the batch. *)
Definition loss_updates {C : Collaborators} (args : Args) (w : World) (bs : list Batch)
    : list (Q * Z) :=
  map (fun b => (batch_loss args b w, size0 (data1 b))) bs.

Definition accuracy_updates {C : Collaborators} (w : World) (bs : list Batch)
    : list (Q * Z) :=
  map (fun b => (batch_accuracy b w, size0 (data1 b))) bs.

(** The batches of a loader with their indices, counted from [first]. *)
Fixpoint indexed {C : Collaborators} (first : Z) (bs : list Batch) : list (Z * Batch) :=
  match bs with
  | [] => []
  | b :: rest => (first, b) :: indexed (first + 1) rest
  end.

(** The batches at which [Train] logs: those with
    [batch_idx % log_interval == 0]. *)
Definition logged_batches {C : Collaborators} (args : Args) (first : Z)
    (bs : list Batch) : list (Z * Batch) :=
  List.filter (fun ib => fst ib `mod` log_interval args =? 0) (indexed first bs).

(** What the log lines of a trace show: the epoch and the number of samples
    seen, [batch_idx * len(data1)]. *)
Definition printed_progress {C : Collaborators} (evs : list Event) : list (Z * Z) :=
  omap (fun ev => match ev with
                  | Print_Train e seen _ _ _ _ _ _ _ => Some (e, seen)
                  | _ => None
                  end) evs.


(** The world in which the epoch loop of [main] starts. *)
Definition initial_world {C : Collaborators} (args : Args) (s : Setup) : World :=
  {| tnet := setup_tnet s;
     sampler := OurSampler (Z.of_nat (length train_classes))
                  (capacity_per_class (batch_size args));
     train_data_set := setup_train_data_set s;
     val_data_set_t := setup_val_data_set_t s;
     rng := setup_rng s;
     best_acc := 0;
     fs := setup_fs s |}.

(** A checkpoint saved in epoch [e] carries the epoch number [e + 1], and
    epoch [e] is one that validates. *)
Definition saved_in {C : Collaborators} (args : Args) (e : Z) (ev : Event) : Prop :=
  match ev with
  | Call_SaveCheckpoint st _ =>
      ck_epoch st = e + 1 /\ val_freq args <> 0 /\ e `mod` val_freq args = 0
  | _ => True
  end.

(** Every checkpoint of a run was saved in one of its epochs. *)
Definition saved_in_run {C : Collaborators} (args : Args) (ev : Event) : Prop :=
  match ev with
  | Call_SaveCheckpoint st _ =>
      exists e, 1 <= e <= epochs args /\ e `mod` val_freq args = 0 /\
                ck_epoch st = e + 1
  | _ => True
  end.


(** A computation that raises ZeroDivisionError, having entered the phases
    [ps], from every state whose file system satisfies [I] and on every trace
    that is well formed. *)
Definition aborts_with {C : Collaborators} {A} (I : FileSystem -> Prop) (m : M A)
    (ps : list Phase) : Prop :=
  forall w, I (fs w) -> well_formed_trace (events (m w)) ->
    out (m w) = Py.Raise Py.ZeroDivisionError /\ phases (events (m w)) = ps.

(** ** What [main] does before the epoch loop (train.py, lines 88-153) *)

Definition im_size : Z := 64.
Definition val_classes : list Z := Py.range 8 12.
Definition triplets_per_class : Z := 16.

(** The command-line arguments read before the epoch loop, on top of
    those read in it. *)
Record RunArgs : Set := mkRunArgs {
  run_args : Args;
  seed : Z;
  no_cuda : bool;
  data : string;
  network : string;
  resume : string
}.

(** The exceptions the preparation raises by itself: [TLoader] read before
    any assignment, and [Net] called while it is [None]. *)
Inductive SetupError : Set :=
| UnboundLocalError
| TypeError.

(** What the preparation prints. *)
Inductive Notice : Set :=
| Print_using_simple_net
| Print_loading_checkpoint (path : string)
| Print_loaded_checkpoint (path : string) (epoch : Z)
| Print_no_checkpoint_found (path : string)
| Print_number_of_params (n : Z).

(** The constructors and library calls of the preparation. *)
Class SetupCollaborators (C : Collaborators) : Type := {
  Network : Type;
  (** [torch.cuda.is_available()] *)
  cuda_is_available : bool;
  (** the random state after [torch.manual_seed], [np.random.seed] and,
      with cuda, [torch.cuda.manual_seed] *)
  manual_seed : Z -> bool -> Rng;
  (** [CUBTriplets(data_path, n_triplets, transform, classes, im_size)] *)
  CUBTriplets : string -> Z -> list Z -> Z -> Rng -> Dataset * Rng;
  (** [model_net.Simplenet(im_size)] *)
  Simplenet : Z -> Network;
  (** [triplet_net.Tripletnet(model)], with the Adam optimizer built on its
      parameters *)
  Tripletnet : Network -> Model;
  (** [tnet.cuda()] *)
  to_cuda : Model -> Model;
  (** [tnet.load_state_dict(state_dict)] *)
  load_state_dict : Model -> StateDict -> Model;
  (** [sum([p.data.nelement() for p in tnet.parameters()])] *)
  number_of_params : Model -> Z
}.

Section Preparation.

Context {C : Collaborators} {S : SetupCollaborators C}.

(** The directory of train.py, fixed when the module is loaded. *)
Variable dir_path : string.

(** Lines 133-144: optionally resume from a checkpoint. *)
Definition resume_checkpoint (a : RunArgs) (disk : FileSystem) (tnet : Model)
    : Model * list Notice :=
  if negb (String.eqb (resume a) "")
  then match files disk !! resume a with
       | Some checkpoint =>
           (* args.start_epoch and best_prec1 are assigned and not read again *)
           (load_state_dict tnet (ck_state_dict checkpoint),
            [Print_loading_checkpoint (resume a);
             Print_loaded_checkpoint (resume a) (ck_epoch checkpoint)])
       | None => (tnet, [Print_no_checkpoint_found (resume a)])
       end
  else (tnet, []).

(** Lines 88-153. *)
Definition prepare (a : RunArgs) (disk : FileSystem)
    : SetupError + Setup * list Notice :=
  (* cuda *)
  let cuda := negb (no_cuda a) && cuda_is_available in
  let rng0 := manual_seed (seed a) cuda in
  (* data *)
  if String.eqb (data a) "cub-2011"
  then
    let data_path := Py.path_join dir_path "datasets/cub-2011" in
    let train := CUBTriplets data_path
                   (triplets_per_class * Z.of_nat (length train_classes))
                   train_classes im_size rng0 in
    let validation := CUBTriplets data_path
                        (triplets_per_class * Z.of_nat (length val_classes))
                        val_classes im_size (snd train) in
    (* network *)
    if String.eqb (network a) "Simple"
    then
      let model := Simplenet im_size in
      (* triplet loss *)
      let tnet := Tripletnet model in
      let tnet := if cuda then to_cuda tnet else tnet in
      (* optionally resume from a checkpoint *)
      let resumed := resume_checkpoint a disk tnet in
      inr ({| setup_tnet := fst resumed;
              setup_train_data_set := fst train;
              setup_val_data_set_t := fst validation;
              setup_rng := snd validation;
              setup_fs := disk |},
           [Print_using_simple_net] ++ snd resumed
           ++ [Print_number_of_params (number_of_params (fst resumed))])
    else inl TypeError
  else inl UnboundLocalError.

(** The whole of [main]: the preparation, then the sampler and the epoch
    loop. *)
Definition main_program (runs_dir : string) (a : RunArgs) (disk : FileSystem)
    : SetupError + list Notice * Run unit :=
  match prepare a disk with
  | inr (s, notices) => inr (notices, main runs_dir (run_args a) s)
  | inl e => inl e
  end.

End Preparation.

(** The constructors of the small instance: a fresh network has taken no
    optimizer step, and loading a state dict restores the step count it
    holds. *)
Module DemoSetup.

Definition seeded (seed : Z) (cuda : bool) : @Rng Demo.collaborators := tt.

Definition triplets (path : string) (n : Z) (classes : list Z) (size : Z)
    (r : @Rng Demo.collaborators)
    : @Dataset Demo.collaborators * @Rng Demo.collaborators :=
  ([Demo.batch (0%nat, [length classes])], r).

Definition fresh (net : unit) : @Model Demo.collaborators := 0%nat.

Definition loaded (m : @Model Demo.collaborators) (sd : @StateDict Demo.collaborators)
    : @Model Demo.collaborators := sd.

#[global] Instance constructors : SetupCollaborators Demo.collaborators :=
  @Build_SetupCollaborators Demo.collaborators
    unit false seeded triplets (fun _ => tt) fresh (fun m => m) loaded (fun _ => 0).

Definition run_args (resume : string) : RunArgs :=
  {| run_args := Demo.args 2 1 5; seed := 1; no_cuda := false;
     data := "cub-2011"; network := "Simple"; resume := resume |}.

(** A disk holding one checkpoint, saved after 7 optimizer steps. *)
Definition disk : @FileSystem Demo.collaborators :=
  @mkFS Demo.collaborators ∅ {[ "old.pth.tar" := Demo.checkpoint 40 7 (9 # 10) ]}.

End DemoSetup.

(** * Properties *)

(** ** Python primitives *)

Lemma gt_spec (a b : Q) : Py.gt a b = true <-> (b < a)%Q.
Proof.
  unfold Py.gt. rewrite negb_true_iff.
  split.
  - intros H. apply Qnot_le_lt. intros Hle.
    apply Qle_bool_iff in Hle. congruence.
  - intros H. destruct (Qle_bool a b) eqn:E; [|reflexivity].
    apply Qle_bool_iff in E. exfalso. exact (Qlt_not_le _ _ H E).
Qed.

Lemma gt_false (a b : Q) : Py.gt a b = false <-> (a <= b)%Q.
Proof.
  unfold Py.gt. rewrite negb_false_iff. apply Qle_bool_iff.
Qed.

Lemma truediv_ok (a b : Q) : ~ (b == 0)%Q -> Py.truediv a b = Py.Ok (a / b)%Q.
Proof.
  intros H. unfold Py.truediv.
  destruct (Qeq_bool b 0) eqn:E; [|reflexivity].
  apply Qeq_bool_iff in E. contradiction.
Qed.

Lemma truediv_zero (a b : Q) : (b == 0)%Q -> Py.truediv a b = Py.Raise Py.ZeroDivisionError.
Proof.
  intros H. unfold Py.truediv.
  apply Qeq_bool_iff in H. rewrite H. reflexivity.
Qed.

Lemma inject_Z_eq0 (z : Z) : (inject_Z z == 0)%Q <-> z = 0.
Proof.
  unfold Qeq, inject_Z. simpl. lia.
Qed.

Lemma mod_ok (a b : Z) : b <> 0 -> Py.mod_ a b = Py.Ok (a `mod` b).
Proof.
  intros H. unfold Py.mod_. destruct (Z.eqb_spec b 0); [contradiction|reflexivity].
Qed.

(** ** Paths *)

Lemma string_app_nil_l (b : string) : "" +:+ b = b.
Proof. reflexivity. Qed.

Lemma string_app_cons (c : ascii) (a b : string) :
  String c a +:+ b = String c (a +:+ b).
Proof. reflexivity. Qed.

Lemma string_length_app (a b : string) :
  String.length (a +:+ b) = (String.length a + String.length b)%nat.
Proof.
  induction a as [|c a IH]; [reflexivity|].
  rewrite string_app_cons. cbn [String.length]. rewrite IH. reflexivity.
Qed.

Lemma string_app_nil_r (a : string) : a +:+ "" = a.
Proof.
  induction a as [|c a IH]; [reflexivity|]. rewrite string_app_cons, IH. reflexivity.
Qed.

Lemma append_inj_l (d a b : string) : d +:+ a = d +:+ b -> a = b.
Proof.
  induction d as [|c d IH]; simpl; intros H; [exact H|].
  injection H as H. exact (IH H).
Qed.

Lemma path_parents_app (a b : string) :
  Py.path_parents (a +:+ b) =
  Py.path_parents a ++ map (String.append a) (Py.path_parents b).
Proof.
  induction a as [|c a IH].
  - rewrite string_app_nil_l. cbn [Py.path_parents app].
    rewrite <- (map_id (Py.path_parents b)) at 1. apply map_ext. reflexivity.
  - rewrite string_app_cons. cbn [Py.path_parents].
    rewrite IH, map_app, map_map, <- app_assoc. reflexivity.
Qed.

Lemma path_parents_shorter (p a : string) :
  In a (Py.path_parents p) -> (String.length a < String.length p)%nat.
Proof.
  revert a. induction p as [|c p IH]; intros a H; cbn [Py.path_parents] in H;
    [destruct H|].
  apply in_app_or in H. destruct H as [H|H].
  - destruct (Ascii.eqb c "/"%char); [|destruct H].
    destruct H as [<-|[]]. simpl. lia.
  - apply in_map_iff in H. destruct H as (a' & <- & H). apply IH in H. simpl. lia.
Qed.

Lemma file_name_spec (f : string) :
  Py.file_name f = true ->
  f <> "" /\ Py.path_parents f = [] /\ Py.starts_with_sep f = false.
Proof.
  unfold Py.file_name. intros H. apply andb_true_iff in H as [H1 H2].
  destruct f as [|c f]; [discriminate H1|].
  split; [discriminate|].
  destruct (Py.path_parents (String c f)) eqn:E; [|discriminate H2].
  split; [reflexivity|]. cbn [Py.path_parents Py.starts_with_sep] in *.
  destruct (Ascii.eqb c "/"%char); [discriminate E|reflexivity].
Qed.

(** Joining a file name to a directory appends it, after a separator if the
    directory needs one. *)
Lemma path_join_file (d f : string) :
  Py.file_name f = true ->
  Py.path_join d f =
  d +:+ (if String.eqb d "" || Py.ends_with_sep d then "" else "/") +:+ f.
Proof.
  intros H. destruct (file_name_spec f H) as (_ & _ & Hs).
  unfold Py.path_join. rewrite Hs.
  destruct (String.eqb d "" || Py.ends_with_sep d); reflexivity.
Qed.

Lemma path_join_parents (d f a : string) :
  Py.file_name f = true ->
  In a (Py.path_parents (Py.path_join d f)) -> a = d \/ In a (Py.path_parents d).
Proof.
  intros H Ha. destruct (file_name_spec f H) as (_ & Hp & _).
  rewrite (path_join_file d f H), path_parents_app in Ha.
  apply in_app_or in Ha. destruct Ha as [Ha|Ha]; [right; exact Ha|].
  apply in_map_iff in Ha. destruct Ha as (x & <- & Hx).
  destruct (String.eqb d "" || Py.ends_with_sep d).
  - rewrite string_app_nil_l, Hp in Hx. destruct Hx.
  - rewrite string_app_cons, string_app_nil_l in Hx.
    cbn [Py.path_parents Ascii.eqb Bool.eqb app] in Hx. rewrite Hp in Hx.
    destruct Hx as [<-|[]]. left. apply string_app_nil_r.
Qed.

Lemma path_join_parent (d f : string) :
  d <> "" -> Py.ends_with_sep d = false -> Py.file_name f = true ->
  In d (Py.path_parents (Py.path_join d f)).
Proof.
  intros Hne Hsep H.
  rewrite (path_join_file d f H), Hsep, orb_false_r.
  destruct (String.eqb_spec d "") as [|_]; [contradiction|].
  rewrite path_parents_app. apply in_or_app. right.
  rewrite string_app_cons, string_app_nil_l. cbn [Py.path_parents Ascii.eqb Bool.eqb app].
  left. apply string_app_nil_r.
Qed.

Lemma path_join_longer (d f : string) :
  Py.file_name f = true ->
  (String.length d < String.length (Py.path_join d f))%nat.
Proof.
  intros H. destruct (file_name_spec f H) as (Hne & _ & _).
  rewrite (path_join_file d f H), !string_length_app.
  destruct f; [congruence|cbn [String.length]; lia].
Qed.

Lemma path_join_inj (d f1 f2 : string) :
  Py.file_name f1 = true -> Py.file_name f2 = true ->
  Py.path_join d f1 = Py.path_join d f2 -> f1 = f2.
Proof.
  intros H1 H2. rewrite (path_join_file d f1 H1), (path_join_file d f2 H2).
  intros E. apply append_inj_l in E. apply append_inj_l in E. exact E.
Qed.

(** A file in a directory is neither the directory nor on the way to it. *)
Lemma path_join_apart (d f p : string) :
  Py.file_name f = true ->
  p = d \/ In p (Py.path_parents d) -> p <> Py.path_join d f.
Proof.
  intros H Hp E. pose proof (path_join_longer d f H) as Hl. rewrite <- E in Hl.
  destruct Hp as [->|Hp]; [lia|]. apply path_parents_shorter in Hp. lia.
Qed.

(** ** [LossAccuracy] *)

Lemma sub_same_length (a b : list Q) :
  length a = length b ->
  Tensor.sub a b = Py.Ok (map (fun p => (fst p - snd p)%Q) (combine a b)).
Proof.
  intros Hlen. unfold Tensor.sub. rewrite Hlen, Nat.eqb_refl. reflexivity.
Qed.

Lemma div_ok (t : Q) (n : Z) : n <> 0 -> Tensor.div t n = Py.Ok (t / inject_Z n)%Q.
Proof.
  intros H. unfold Tensor.div. destruct (Z.eqb_spec n 0); [contradiction|reflexivity].
Qed.

Lemma count_pos_sub (a b : list Q) :
  Tensor.count_pos
    (Tensor.sub_scalar (map (fun p => (fst p - snd p)%Q) (combine a b)) 0)
  = correctly_ranked a b.
Proof.
  unfold Tensor.count_pos, Tensor.sub_scalar, correctly_ranked. f_equal.
  induction (combine a b) as [|p l IH]; simpl; [reflexivity|].
  destruct (Py.gt (fst p - snd p - 0) 0); simpl; rewrite IH; reflexivity.
Qed.

Lemma correctly_ranked_bounds (a b : list Q) :
  0 <= correctly_ranked a b <= Z.of_nat (length (combine a b)).
Proof.
  unfold correctly_ranked.
  pose proof (List.filter_length_le
                (fun p : Q * Q => Py.gt (fst p - snd p - 0)%Q 0) (combine a b)).
  lia.
Qed.

Lemma correctly_ranked_all (a b : list Q) :
  Forall2 (fun x y => (y + 0 < x)%Q) a b ->
  correctly_ranked a b = Z.of_nat (length a).
Proof.
  unfold correctly_ranked. intros H. f_equal.
  induction H as [|x y a b Hxy _ IH]; simpl; [reflexivity|].
  match goal with |- context [if ?c then _ else _] => assert (E : c = true) end.
  { apply gt_spec. unfold Qminus. rewrite <- (Qplus_lt_l _ _ (y + 0)).
    ring_simplify. ring_simplify in Hxy. exact Hxy. }
  rewrite E. simpl. rewrite IH. reflexivity.
Qed.

Lemma correctly_ranked_none (a b : list Q) :
  Forall2 (fun x y => (x <= y + 0)%Q) a b ->
  correctly_ranked a b = 0.
Proof.
  unfold correctly_ranked. intros H.
  change 0 with (Z.of_nat 0). f_equal.
  induction H as [|x y a b Hxy _ IH]; simpl; [reflexivity|].
  match goal with |- context [if ?c then _ else _] => assert (E : c = false) end.
  { apply gt_false. unfold Qminus. rewrite <- (Qplus_le_l _ _ (y + 0)).
    ring_simplify. ring_simplify in Hxy. exact Hxy. }
  rewrite E. exact IH.
Qed.

Lemma LossAccuracy_value (dista distb : list Q) :
  length dista = length distb -> dista <> [] ->
  LossAccuracy dista distb =
  Py.Ok (inject_Z (correctly_ranked dista distb) * 1
         / inject_Z (Z.of_nat (length dista)))%Q.
Proof.
  intros Hlen Hne. unfold LossAccuracy.
  rewrite sub_same_length by exact Hlen. simpl.
  rewrite count_pos_sub. apply div_ok.
  destruct dista; [congruence|simpl; lia].
Qed.

(** C3 (amended to non-empty batches).  For equal-length, non-empty distance
    vectors [LossAccuracy] returns a value, the fraction of entries with
    [dista - distb - margin > 0] for margin 0; that value lies in [0,1], is 1
    when every [dista > distb + margin] and is 0 when every
    [dista <= distb + margin]. *)
Theorem LossAccuracy_fraction (dista distb : list Q) :
  length dista = length distb ->
  dista <> [] ->
  exists r : Q,
    LossAccuracy dista distb = Py.Ok r /\
    (r == inject_Z (correctly_ranked dista distb)
          / inject_Z (Z.of_nat (length dista)))%Q /\
    (0 <= r)%Q /\ (r <= 1)%Q /\
    (Forall2 (fun a b => (b + 0 < a)%Q) dista distb -> (r == 1)%Q) /\
    (Forall2 (fun a b => (a <= b + 0)%Q) dista distb -> (r == 0)%Q).
Proof.
  intros Hlen Hne.
  eexists. split; [apply LossAccuracy_value; assumption|].
  set (n := Z.of_nat (length dista)).
  set (k := correctly_ranked dista distb).
  assert (Hn : 0 < n) by (subst n; destruct dista; [congruence|simpl; lia]).
  assert (Hk : 0 <= k <= n).
  { subst k n. pose proof (correctly_ranked_bounds dista distb) as B.
    rewrite length_combine in B. lia. }
  assert (Hq : (0 < inject_Z n)%Q).
  { change 0%Q with (inject_Z 0). rewrite <- Zlt_Qlt. exact Hn. }
  assert (Hq0 : ~ (inject_Z n == 0)%Q) by (rewrite inject_Z_eq0; lia).
  assert (Heq : (inject_Z k * 1 / inject_Z n == inject_Z k / inject_Z n)%Q).
  { rewrite Qmult_1_r. reflexivity. }
  repeat split.
  - exact Heq.
  - rewrite Heq. apply Qle_shift_div_l; [exact Hq|].
    rewrite Qmult_0_l. change 0%Q with (inject_Z 0). rewrite <- Zle_Qle. lia.
  - rewrite Heq. apply Qle_shift_div_r; [exact Hq|].
    rewrite Qmult_1_l. rewrite <- Zle_Qle. lia.
  - intros Hall. rewrite Heq. subst k.
    rewrite (correctly_ranked_all _ _ Hall). fold n.
    field. exact Hq0.
  - intros Hnone. rewrite Heq. subst k.
    rewrite (correctly_ranked_none _ _ Hnone).
    field. exact Hq0.
Qed.

(** C3, witness: three triplets, two of them ranked correctly. *)
Lemma LossAccuracy_fraction_witness :
  exists r : Q,
    LossAccuracy [3; 1; 2]%Q [1; 2; 1]%Q = Py.Ok r /\
    (r == inject_Z (correctly_ranked [3; 1; 2]%Q [1; 2; 1]%Q)
          / inject_Z (Z.of_nat (length [3; 1; 2]%Q)))%Q /\
    (0 <= r)%Q /\ (r <= 1)%Q /\
    (Forall2 (fun a b => (b + 0 < a)%Q) [3; 1; 2]%Q [1; 2; 1]%Q -> (r == 1)%Q) /\
    (Forall2 (fun a b => (a <= b + 0)%Q) [3; 1; 2]%Q [1; 2; 1]%Q -> (r == 0)%Q).
Proof.
  apply (LossAccuracy_fraction [3; 1; 2]%Q [1; 2; 1]%Q).
  - reflexivity.
  - discriminate.
Defined.

(** C3, counterexample: on the empty pair of vectors both "every
    [dista > distb]" and "every [dista <= distb]" hold, so the result would
    have to be 1.0 and 0.0 at once; the count 0 divided by the size 0 is not
    a number, and no value in [0,1] comes back. *)
Lemma LossAccuracy_empty_not_a_number :
  length (@nil Q) = length (@nil Q) /\
  Forall2 (fun a b => (b + 0 < a)%Q) (@nil Q) (@nil Q) /\
  Forall2 (fun a b => (a <= b + 0)%Q) (@nil Q) (@nil Q) /\
  LossAccuracy [] [] = Py.Raise Py.NotANumber /\
  ~ (exists r : Q, LossAccuracy [] [] = Py.Ok r /\ (0 <= r)%Q /\ (r <= 1)%Q).
Proof.
  repeat split; try constructor.
  intros (r & Hr & _). discriminate Hr.
Qed.

(** ** [AverageMeter] *)

Lemma update_ok (m : AverageMeter) (v : Q) (n : Z) :
  count m + n <> 0 ->
  Meter.update m v n =
  (Py.Ok tt, {| val := v;
                avg := ((sum m + v * inject_Z n) / inject_Z (count m + n))%Q;
                sum := (sum m + v * inject_Z n)%Q;
                count := count m + n |}).
Proof.
  intros H. unfold Meter.update. simpl.
  rewrite truediv_ok by (rewrite inject_Z_eq0; exact H). reflexivity.
Qed.

Lemma update_raise (m : AverageMeter) (v : Q) (n : Z) :
  count m + n = 0 ->
  Meter.update m v n =
  (Py.Raise Py.ZeroDivisionError,
   {| val := v; avg := avg m; sum := (sum m + v * inject_Z n)%Q; count := count m + n |}).
Proof.
  intros H. unfold Meter.update. simpl.
  rewrite truediv_zero by (rewrite inject_Z_eq0; exact H). reflexivity.
Qed.


Lemma updates_from (calls : list (Q * Z)) (m : AverageMeter) :
  counts_nonzero (count m) calls ->
  exists m',
    Meter.updates m calls = (Py.Ok tt, m') /\
    (sum m' == sum m + weighted_sum calls)%Q /\
    count m' = count m + weight_total calls /\
    (calls = [] -> m' = m) /\
    (calls <> [] ->
       last (map fst calls) = Some (val m') /\
       avg m' = (sum m' / inject_Z (count m'))%Q).
Proof.
  revert m. induction calls as [|[v n] rest IH]; intros m H.
  - exists m. simpl. repeat split; try congruence; try lia. ring.
  - destruct H as [Hn Hrest].
    cbn [Meter.updates]. rewrite (update_ok _ _ _ Hn).
    destruct (IH {| val := v;
                    avg := ((sum m + v * inject_Z n) / inject_Z (count m + n))%Q;
                    sum := (sum m + v * inject_Z n)%Q;
                    count := count m + n |} Hrest)
      as (m' & Hrun & Hsum & Hcount & Hnil & Hcons).
    exists m'. split; [exact Hrun|]. cbn [sum count val avg] in *.
    split; [|split; [|split]].
    + rewrite Hsum. simpl. ring.
    + rewrite Hcount. simpl. lia.
    + discriminate.
    + intros _. destruct rest as [|c rest'].
      * rewrite (Hnil eq_refl). simpl. split; reflexivity.
      * destruct Hcons as [Hlast Havg]; [discriminate|].
        split; [|exact Havg]. cbn [map]. cbn [map] in Hlast.
        rewrite last_cons_cons. exact Hlast.
Qed.




(** C5 (amended to what the tracker does).  Reading the average never fails:
    right after construction or a reset it yields 0.  With the numbers it
    handles within the float range, the only failure of the tracker is a
    ZeroDivisionError inside [update], raised exactly when the count after
    adding the weight is zero. *)
Theorem AverageMeter_failure_condition :
  fst (Meter.get_avg Meter.new) = Py.Ok 0%Q /\
  (forall m, fst (Meter.get_avg (Meter.reset m)) = Py.Ok 0%Q) /\
  (forall m, fst (Meter.get_avg m) = Py.Ok (avg m)) /\
  (forall m v n,
     update_fits (sum m) (count m) v n ->
     fst (Meter.update m v n) =
     if count m + n =? 0 then Py.Raise Py.ZeroDivisionError else Py.Ok tt).
Proof.
  repeat split.
  intros m v n _. destruct (Z.eqb_spec (count m + n) 0) as [E|E].
  - rewrite (update_raise _ _ _ E). reflexivity.
  - rewrite (update_ok _ _ _ E). reflexivity.
Qed.

(** C5, witness: a meter holding weight 2 that is updated with weight -2. *)
Lemma AverageMeter_failure_condition_witness :
  fst (Meter.update (mkMeter 1 1 2 2) 3 (-2)) = Py.Raise Py.ZeroDivisionError.
Proof.
  destruct AverageMeter_failure_condition as (_ & _ & _ & H).
  apply (H (mkMeter 1 1 2 2) 3%Q (-2)). repeat split; vm_compute; reflexivity.
Defined.

(** C5, counterexample: the average of a meter that was never updated is
    read without failure, as 0. *)
Lemma AverageMeter_query_before_update :
  count Meter.new = 0 /\
  Meter.get_avg Meter.new = (Py.Ok 0%Q, Meter.new) /\
  ~ (exists e, fst (Meter.get_avg Meter.new) = Py.Raise e).
Proof.
  repeat split. intros [e H]. discriminate H.
Qed.

(** ** Computations on the program state *)

Section RunLemmas.

Context {C : Collaborators}.

Lemma out_bind {A B} (m : M A) (k : A -> M B) (w : World) :
  out (bind m k w) =
  match out (m w) with
  | Py.Ok a => out (k a (world (m w)))
  | Py.Raise e => Py.Raise e
  end.
Proof.
  unfold bind. destruct (m w) as [[a|e] w1 evs1]; cbn [out world]; [|reflexivity].
  destruct (k a w1); reflexivity.
Qed.

Lemma world_bind {A B} (m : M A) (k : A -> M B) (w : World) :
  world (bind m k w) =
  match out (m w) with
  | Py.Ok a => world (k a (world (m w)))
  | Py.Raise e => world (m w)
  end.
Proof.
  unfold bind. destruct (m w) as [[a|e] w1 evs1]; cbn [out world]; [|reflexivity].
  destruct (k a w1); reflexivity.
Qed.

Lemma events_bind {A B} (m : M A) (k : A -> M B) (w : World) :
  events (bind m k w) =
  events (m w) ++
  match out (m w) with
  | Py.Ok a => events (k a (world (m w)))
  | Py.Raise e => []
  end.
Proof.
  unfold bind. destruct (m w) as [[a|e] w1 evs1]; cbn [out world events].
  - destruct (k a w1); reflexivity.
  - rewrite app_nil_r. reflexivity.
Qed.

(** Every event of a computation satisfies [P], from whatever state. *)
Definition emits_only {A} (P : Event -> Prop) (m : M A) : Prop :=
  forall w, Forall P (events (m w)).

Lemma emits_only_bind {A B} P (m : M A) (k : A -> M B) :
  emits_only P m -> (forall a, emits_only P (k a)) -> emits_only P (bind m k).
Proof.
  intros Hm Hk w. rewrite events_bind. apply Forall_app. split; [apply Hm|].
  destruct (out (m w)); [apply Hk|constructor].
Qed.

Lemma emits_only_ret {A} P (a : A) : emits_only P (ret a).
Proof. intros w. constructor. Qed.

Lemma emits_only_get P : emits_only P get.
Proof. intros w. constructor. Qed.

Lemma emits_only_put P w0 : emits_only P (put w0).
Proof. intros w. constructor. Qed.

Lemma emits_only_modify P f : emits_only P (modify f).
Proof. intros w. constructor. Qed.

Lemma emits_only_lift {A} P (o : Py.outcome A) : emits_only P (lift o).
Proof. intros w. constructor. Qed.

Lemma emits_only_call {A} P (c : Method A) : emits_only P (call c).
Proof. intros w. constructor. Qed.

Lemma emits_only_emit (P : Event -> Prop) ev : P ev -> emits_only P (emit ev).
Proof. intros H w. repeat constructor. exact H. Qed.

Lemma emits_only_if {A} P (b : bool) (m1 m2 : M A) :
  emits_only P m1 -> emits_only P m2 -> emits_only P (if b then m1 else m2).
Proof. destruct b; auto. Qed.

(** A computation leaves the component [f] of the state as it found it. *)
Definition preserves {A X} (f : World -> X) (m : M A) : Prop :=
  forall w, f (world (m w)) = f w.

Lemma preserves_bind {A B X} (f : World -> X) (m : M A) (k : A -> M B) :
  preserves f m -> (forall a, preserves f (k a)) -> preserves f (bind m k).
Proof.
  intros Hm Hk w. rewrite world_bind.
  destruct (out (m w)); [rewrite Hk|]; apply Hm.
Qed.

Lemma preserves_ret {A X} (f : World -> X) (a : A) : preserves f (ret a).
Proof. intros w. reflexivity. Qed.

Lemma preserves_get {X} (f : World -> X) : preserves f get.
Proof. intros w. reflexivity. Qed.

Lemma preserves_emit {X} (f : World -> X) ev : preserves f (emit ev).
Proof. intros w. reflexivity. Qed.

Lemma preserves_lift {A X} (f : World -> X) (o : Py.outcome A) : preserves f (lift o).
Proof. intros w. reflexivity. Qed.

Lemma preserves_call {A X} (f : World -> X) (c : Method A) : preserves f (call c).
Proof. intros w. reflexivity. Qed.

Lemma preserves_modify {X} (f : World -> X) (g : World -> World) :
  (forall w, f (g w) = f w) -> preserves f (modify g).
Proof. intros H w. apply H. Qed.

Lemma preserves_if {A X} (f : World -> X) (b : bool) (m1 m2 : M A) :
  preserves f m1 -> preserves f m2 -> preserves f (if b then m1 else m2).
Proof. destruct b; auto. Qed.

End RunLemmas.

(** Decompose a computation along its binds. *)
Ltac step_emits :=
  repeat first
    [ apply emits_only_bind; [|intros ?]
    | apply emits_only_ret
    | apply emits_only_get
    | apply emits_only_put
    | apply emits_only_modify
    | apply emits_only_lift
    | apply emits_only_call
    | apply emits_only_if
    | apply emits_only_emit; cbn; try reflexivity; try exact I ].

Ltac step_preserves :=
  repeat first
    [ apply preserves_bind; [|intros ?]
    | apply preserves_ret
    | apply preserves_get
    | apply preserves_emit
    | apply preserves_lift
    | apply preserves_call
    | apply preserves_if
    | apply preserves_modify; intros ?; reflexivity ].

Section PhaseLemmas.

Context {C : Collaborators}.
Variable runs_dir : string.

Lemma Train_batch_emits args epoch ms i b :
  emits_only batch_event (Train_batch args epoch ms i b).
Proof.
  unfold Train_batch, call_criterion, call_SampleNegatives, call_optimizer_step.
  step_emits.
Qed.

Lemma Train_loop_emits args epoch batches :
  forall ms i, emits_only batch_event (Train_loop args epoch ms i batches).
Proof.
  induction batches as [|b rest IH]; intros ms i; simpl.
  - apply emits_only_ret.
  - apply emits_only_bind; [apply Train_batch_emits|intros ms'; apply IH].
Qed.

Lemma Test_batch_emits args ms b :
  emits_only batch_event (Test_batch args ms b).
Proof. unfold Test_batch, call_criterion. step_emits. Qed.

Lemma Test_loop_emits args batches :
  forall ms, emits_only batch_event (Test_loop args ms batches).
Proof.
  induction batches as [|b rest IH]; intros ms; simpl.
  - apply emits_only_ret.
  - apply emits_only_bind; [apply Test_batch_emits|intros ms'; apply IH].
Qed.

Lemma Train_run args epoch w :
  let r := Train_loop args epoch Train_meters 0 (Train_batches args w) (Train_entry args w) in
  Train args epoch w =
  match out r with
  | Py.Ok ms => mkRun (Py.Ok (avg (tr_loss_accs ms))) (world r) (Call_Train epoch :: events r)
  | Py.Raise e => mkRun (Py.Raise e) (world r) (Call_Train epoch :: events r)
  end.
Proof.
  intros r. subst r.
  unfold Train, Train_batches, Train_entry, bind, emit, modify, get, put, ret.
  cbn [out world events app set_tnet set_rng tnet rng train_data_set].
  match goal with
  | |- context [out (Train_loop ?a ?e ?m ?i ?l ?w0)] =>
      destruct (Train_loop a e m i l w0) as [[ms|e'] w' evs]
  end; cbn [out world events app]; rewrite ?app_nil_r; reflexivity.
Qed.

Lemma TestTriplets_run args w :
  let r := Test_loop args Test_meters (Test_batches args w) (Test_entry args w) in
  TestTriplets args w =
  match out r with
  | Py.Ok ms =>
      mkRun (Py.Ok (avg (te_accs ms))) (world r)
        (Call_TestTriplets :: events r ++
         [Print_Test (avg (te_losses ms)) (100 * avg (te_accs ms))%Q;
          Ret_TestTriplets (avg (te_accs ms))])
  | Py.Raise e => mkRun (Py.Raise e) (world r) (Call_TestTriplets :: events r)
  end.
Proof.
  intros r. subst r.
  unfold TestTriplets, Test_batches, Test_entry, bind, emit, modify, get, put, ret.
  cbn [out world events app set_tnet set_rng tnet rng val_data_set_t].
  match goal with
  | |- context [out (Test_loop ?a ?m ?l ?w0)] =>
      destruct (Test_loop a m l w0) as [[ms|e'] w' evs]
  end; cbn [out world events app]; rewrite ?app_nil_r; reflexivity.
Qed.






End PhaseLemmas.


(** ** The meters of a phase *)

Lemma updates_snoc (m m1 m2 : AverageMeter) (calls : list (Q * Z)) (v : Q) (n : Z) :
  Meter.updates m calls = (Py.Ok tt, m1) ->
  Meter.update m1 v n = (Py.Ok tt, m2) ->
  Meter.updates m (calls ++ [(v, n)]) = (Py.Ok tt, m2).
Proof.
  revert m. induction calls as [|[v' n'] rest IH]; intros m H1 H2; simpl in *.
  - inversion H1; subst. rewrite H2. reflexivity.
  - destruct (Meter.update m v' n') as [[u|e] m']; [|discriminate].
    apply IH; assumption.
Qed.

Section MeterLemmas.

Context {C : Collaborators}.

Lemma Train_batch_loss_accs args epoch ms i b w ms' :
  out (Train_batch args epoch ms i b w) = Py.Ok ms' ->
  exists v n, Meter.update (tr_loss_accs ms) v n = (Py.Ok tt, tr_loss_accs ms').
Proof.
  unfold Train_batch, call_criterion, call_SampleNegatives, call_optimizer_step, bind, emit, modify, get, call, lift, ret.
  cbn [out world events app].
  destruct (LossAccuracy _ _) as [acc|e]; cbn [out world events]; [|discriminate].
  destruct (Meter.update (tr_losses ms) _ _) as [[[]|e] m1];
    cbn [out world events fst snd Py.obind]; [|discriminate].
  destruct (Meter.update (tr_loss_accs ms) acc _) as [[[]|e] m2] eqn:E2;
    cbn [out world events fst snd Py.obind]; [|discriminate].
  destruct (Meter.update (tr_emb_norms ms) _ _) as [[[]|e] m3];
    cbn [out world events fst snd Py.obind]; [|discriminate].
  destruct (Py.mod_ _ _) as [r|e]; cbn [out world events]; [|discriminate].
  destruct (r =? 0); cbn [out world events]; intros H; inversion H; subst;
    cbn [tr_loss_accs]; eauto.
Qed.

Lemma Train_loop_loss_accs args epoch batches :
  forall ms i w ms' calls0,
    out (Train_loop args epoch ms i batches w) = Py.Ok ms' ->
    Meter.updates Meter.new calls0 = (Py.Ok tt, tr_loss_accs ms) ->
    exists calls,
      length calls = length batches /\
      Meter.updates Meter.new (calls0 ++ calls) = (Py.Ok tt, tr_loss_accs ms').
Proof.
  induction batches as [|b rest IH]; intros ms i w ms' calls0 Hout H0.
  - simpl in Hout. inversion Hout; subst. exists []. rewrite app_nil_r. auto.
  - cbn [Train_loop] in Hout. rewrite out_bind in Hout.
    destruct (out (Train_batch args epoch ms i b w)) as [ms1|e] eqn:E1; [|discriminate].
    destruct (Train_batch_loss_accs _ _ _ _ _ _ _ E1) as (v & n & Hup).
    destruct (IH _ _ _ _ (calls0 ++ [(v, n)]) Hout) as (calls & Hlen & Hrun).
    { eapply updates_snoc; eassumption. }
    exists ((v, n) :: calls). split; [simpl; lia|].
    rewrite <- app_assoc in Hrun. exact Hrun.
Qed.

Lemma Test_batch_accs args ms b w ms' :
  out (Test_batch args ms b w) = Py.Ok ms' ->
  exists v n, Meter.update (te_accs ms) v n = (Py.Ok tt, te_accs ms').
Proof.
  unfold Test_batch, call_criterion, bind, emit, modify, get, call, lift, ret.
  cbn [out world events app].
  destruct (LossAccuracy _ _) as [acc|e]; cbn [out world events]; [|discriminate].
  destruct (Meter.update (te_accs ms) acc _) as [[[]|e] m2] eqn:E2;
    cbn [out world events fst snd Py.obind]; [|discriminate].
  destruct (Meter.update (te_losses ms) _ _) as [[[]|e] m1];
    cbn [out world events fst snd Py.obind]; [|discriminate].
  intros H; inversion H; subst; cbn [te_accs]; eauto.
Qed.

Lemma Test_loop_accs args batches :
  forall ms w ms' calls0,
    out (Test_loop args ms batches w) = Py.Ok ms' ->
    Meter.updates Meter.new calls0 = (Py.Ok tt, te_accs ms) ->
    exists calls,
      length calls = length batches /\
      Meter.updates Meter.new (calls0 ++ calls) = (Py.Ok tt, te_accs ms').
Proof.
  induction batches as [|b rest IH]; intros ms w ms' calls0 Hout H0.
  - simpl in Hout. inversion Hout; subst. exists []. rewrite app_nil_r. auto.
  - cbn [Test_loop] in Hout. rewrite out_bind in Hout.
    destruct (out (Test_batch args ms b w)) as [ms1|e] eqn:E1; [|discriminate].
    destruct (Test_batch_accs _ _ _ _ _ E1) as (v & n & Hup).
    destruct (IH _ _ _ (calls0 ++ [(v, n)]) Hout) as (calls & Hlen & Hrun).
    { eapply updates_snoc; eassumption. }
    exists ((v, n) :: calls). split; [simpl; lia|].
    rewrite <- app_assoc in Hrun. exact Hrun.
Qed.

End MeterLemmas.

(** C8.  A new meter has last value, sum, count and average all zero; every
    meter of a train epoch and of a validation pass is such a new meter when
    the batch loop starts, whatever an earlier phase left behind; so what a
    phase returns is the average of a meter that was reset and then updated
    once per batch of that phase. *)
Theorem phase_meters_start_reset {C : Collaborators} (args : Args) (epoch : Z) (w : World) :
  (val Meter.new = 0%Q /\ sum Meter.new = 0%Q /\
   count Meter.new = 0 /\ avg Meter.new = 0%Q) /\
  (forall m1 m2 m3,
     out (Train args epoch w) =
     match out (Train_loop args epoch
                  {| tr_losses := Meter.reset m1;
                     tr_loss_accs := Meter.reset m2;
                     tr_emb_norms := Meter.reset m3 |}
                  0 (Train_batches args w) (Train_entry args w)) with
     | Py.Ok ms => Py.Ok (avg (tr_loss_accs ms))
     | Py.Raise e => Py.Raise e
     end) /\
  (forall m1 m2,
     out (TestTriplets args w) =
     match out (Test_loop args
                  {| te_losses := Meter.reset m1; te_accs := Meter.reset m2 |}
                  (Test_batches args w) (Test_entry args w)) with
     | Py.Ok ms => Py.Ok (avg (te_accs ms))
     | Py.Raise e => Py.Raise e
     end) /\
  match out (Train args epoch w) with
  | Py.Ok r =>
      exists calls m,
        length calls = length (Train_batches args w) /\
        Meter.updates Meter.new calls = (Py.Ok tt, m) /\ r = avg m
  | Py.Raise _ => True
  end /\
  match out (TestTriplets args w) with
  | Py.Ok r =>
      exists calls m,
        length calls = length (Test_batches args w) /\
        Meter.updates Meter.new calls = (Py.Ok tt, m) /\ r = avg m
  | Py.Raise _ => True
  end.
Proof.
  split; [repeat split|].
  split; [|split; [|split]].
  - intros m1 m2 m3. rewrite Train_run.
    change (mkTrainMeters (Meter.reset m1) (Meter.reset m2) (Meter.reset m3))
      with Train_meters.
    destruct (out (Train_loop _ _ _ _ _ _)); reflexivity.
  - intros m1 m2. rewrite TestTriplets_run.
    change (mkTestMeters (Meter.reset m1) (Meter.reset m2)) with Test_meters.
    destruct (out (Test_loop _ _ _ _)); reflexivity.
  - rewrite Train_run.
    destruct (out (Train_loop _ _ _ _ _ _)) as [ms|e] eqn:E; cbn [out]; [|exact I].
    destruct (Train_loop_loss_accs _ _ _ _ _ _ _ [] E eq_refl) as (calls & Hlen & Hrun).
    exists calls, (tr_loss_accs ms). auto.
  - rewrite TestTriplets_run.
    destruct (out (Test_loop _ _ _ _)) as [ms|e] eqn:E; cbn [out]; [|exact I].
    destruct (Test_loop_accs _ _ _ _ _ [] E eq_refl) as (calls & Hlen & Hrun).
    exists calls, (te_accs ms). auto.
Qed.

(** ** The sampler's capacity *)

Lemma capacity_per_class_quot (bs : Z) : capacity_per_class bs = (3 * bs) ÷ 4.
Proof.
  change (capacity_per_class bs) with ((6 * bs) ÷ (2 * 4)).
  replace (6 * bs) with (2 * (3 * bs)) by lia.
  apply Z.quot_mul_cancel_l; lia.
Qed.




(** ** The file system under [SaveCheckpoint] *)

Section FileSystemFacts.

Context {C : Collaborators}.

Lemma is_dir_true (p : string) (f : FileSystem) : is_dir p f = true <-> p ∈ dirs f.
Proof. apply bool_decide_eq_true. Qed.

Lemma is_dir_false (p : string) (f : FileSystem) : is_dir p f = false <-> p ∉ dirs f.
Proof. apply bool_decide_eq_false. Qed.

Lemma writable_dirs (p : string) (f g : FileSystem) :
  dirs f = dirs g -> writable p f = writable p g.
Proof. intros H. unfold writable, is_dir. rewrite H. reflexivity. Qed.

(** The first step of [SaveCheckpoint] on a directory that is ready. *)
Lemma dir_ready_step (d : string) (f : FileSystem) :
  dir_ready d f = true ->
  exists D,
    (if negb (path_exists d f) then makedirs d f else Py.Ok f)
      = Py.Ok (mkFS D (files f)) /\
    dirs f ⊆ D /\
    d ∈ D /\
    (forall a, In a (Py.path_parents d) -> a = "" \/ a ∈ D) /\
    (forall p, p ∈ D -> p ∈ dirs f \/ p = d \/ In p (Py.path_parents d)).
Proof.
  unfold dir_ready. intros H. destruct (path_exists d f) eqn:E; cbn [negb].
  - apply andb_true_iff in H as [H1 H2]. exists (dirs f).
    split; [destruct f; reflexivity|]. split; [set_solver|].
    split; [apply is_dir_true; exact H1|]. split.
    + intros a Ha. rewrite forallb_forall in H2. specialize (H2 a Ha).
      apply orb_true_iff in H2 as [H2|H2].
      * left. apply String.eqb_eq. exact H2.
      * right. apply is_dir_true. exact H2.
    + intros p Hp. left. exact Hp.
  - unfold makedirs. rewrite E. apply negb_true_iff in H. rewrite H. cbn [orb].
    exists (list_to_set (d :: Py.path_parents d) ∪ dirs f).
    split; [reflexivity|]. split; [set_solver|]. split; [set_solver|]. split.
    + intros a Ha. right. apply elem_of_union. left. apply elem_of_list_to_set.
      apply list_elem_of_In. right. exact Ha.
    + intros p Hp. apply elem_of_union in Hp as [Hp|Hp]; [|left; exact Hp].
      apply elem_of_list_to_set in Hp. apply list_elem_of_In in Hp.
      destruct Hp as [<-|Hp]; [right; left; reflexivity|right; right; exact Hp].
Qed.

Lemma dir_ready_there (d : string) (f : FileSystem) :
  d ∈ dirs f ->
  (forall a, In a (Py.path_parents d) -> a = "" \/ a ∈ dirs f) ->
  dir_ready d f = true.
Proof.
  intros Hd Hp. unfold dir_ready, path_exists.
  rewrite (proj2 (is_dir_true d f) Hd). cbn [orb andb].
  apply forallb_forall. intros a Ha. apply orb_true_iff.
  destruct (Hp a Ha) as [->|H]; [left; reflexivity|right; apply is_dir_true; exact H].
Qed.

(** A file name in a directory that is there can be opened for writing,
    unless a directory has its name. *)
Lemma writable_in (d name : string) (g : FileSystem) :
  Py.file_name name = true ->
  d ∈ dirs g ->
  (forall a, In a (Py.path_parents d) -> a = "" \/ a ∈ dirs g) ->
  Py.path_join d name ∉ dirs g ->
  writable (Py.path_join d name) g = true.
Proof.
  intros Hn Hd Hp Hfree. unfold writable. apply andb_true_iff. split.
  - apply negb_true_iff. apply is_dir_false. exact Hfree.
  - apply forallb_forall. intros a Ha. apply (path_join_parents d name a Hn) in Ha.
    apply orb_true_iff. destruct Ha as [->|Ha].
    + right. apply is_dir_true. exact Hd.
    + destruct (Hp a Ha) as [->|H]; [left; reflexivity|right; apply is_dir_true; exact H].
Qed.

(** The three steps on a directory that is ready, for a file name that no
    directory has. *)
Lemma save_steps_ok (d : string) (state : Checkpoint) (is_best : bool)
    (name : string) (f : FileSystem) :
  dir_ready d f = true ->
  Py.file_name name = true ->
  is_dir (Py.path_join d name) f = false ->
  (is_best = true ->
   name <> "model_best.pth.tar" /\
   is_dir (Py.path_join d "model_best.pth.tar") f = false) ->
  exists D,
    save_steps d state is_best name f =
      (Py.Ok tt,
       mkFS D (if is_best
               then <[ Py.path_join d "model_best.pth.tar" := state ]>
                      (<[ Py.path_join d name := state ]> (files f))
               else <[ Py.path_join d name := state ]> (files f))) /\
    dirs f ⊆ D /\
    d ∈ D /\
    (forall a, In a (Py.path_parents d) -> a = "" \/ a ∈ D) /\
    (forall p, p ∈ D -> p ∈ dirs f \/ p = d \/ In p (Py.path_parents d)).
Proof.
  intros Hr Hn Hfree Hbest.
  destruct (dir_ready_step d f Hr) as (D & E & Hsub & Hd & Hp & Hin).
  exists D. split; [|auto].
  assert (Hout : forall nm, Py.file_name nm = true ->
                   is_dir (Py.path_join d nm) f = false -> Py.path_join d nm ∉ D).
  { intros nm Hnm Hf Hc. apply is_dir_false in Hf.
    destruct (Hin _ Hc) as [H|H]; [contradiction|].
    exact (path_join_apart d nm _ Hnm H eq_refl). }
  unfold save_steps. rewrite E. unfold torch_save.
  rewrite (writable_in d name (mkFS D (files f)) Hn Hd Hp (Hout name Hn Hfree)).
  cbn [dirs files]. destruct is_best; [|reflexivity].
  destruct (Hbest eq_refl) as [Hne Hfree'].
  unfold copyfile. cbn [dirs files].
  destruct (String.eqb_spec (Py.path_join d name) (Py.path_join d "model_best.pth.tar"))
    as [Heq|_].
  { apply path_join_inj in Heq; [contradiction|exact Hn|reflexivity]. }
  rewrite lookup_insert_eq.
  rewrite (writable_in d "model_best.pth.tar" (mkFS D _) eq_refl Hd Hp
             (Hout "model_best.pth.tar" eq_refl Hfree')).
  reflexivity.
Qed.

(** A usable checkpoint directory takes the checkpoint of [main], and stays
    usable. *)
Lemma save_steps_usable (runs_dir nm : string) (state : Checkpoint) (is_best : bool)
    (f : FileSystem) :
  checkpoint_dir_usable runs_dir nm f = true ->
  let d := Py.path_join runs_dir nm in
  exists D,
    save_steps d state is_best "checkpoint.pth.tar" f =
      (Py.Ok tt,
       mkFS D (if is_best
               then <[ Py.path_join d "model_best.pth.tar" := state ]>
                      (<[ Py.path_join d "checkpoint.pth.tar" := state ]> (files f))
               else <[ Py.path_join d "checkpoint.pth.tar" := state ]> (files f))) /\
    forall F, checkpoint_dir_usable runs_dir nm (mkFS D F) = true.
Proof.
  unfold checkpoint_dir_usable. cbv zeta. intros H.
  apply andb_true_iff in H as [H H4]. apply andb_true_iff in H as [H H3].
  apply andb_true_iff in H as [H1 H2].
  apply negb_true_iff in H3, H4.
  destruct (save_steps_ok (Py.path_join runs_dir nm) state is_best "checkpoint.pth.tar" f
              H2 eq_refl H3) as (D & E & Hsub & Hd & Hp & Hin).
  { intros _. split; [discriminate|exact H4]. }
  exists D. split; [exact E|]. intros F.
  rewrite H1, (dir_ready_there _ (mkFS D F) Hd Hp). cbn [andb].
  assert (Hout : forall name, Py.file_name name = true ->
                   is_dir (Py.path_join (Py.path_join runs_dir nm) name) f = false ->
                   is_dir (Py.path_join (Py.path_join runs_dir nm) name) (mkFS D F) = false).
  { intros name Hnm Hf. apply is_dir_false. intros Hc. apply is_dir_false in Hf.
    destruct (Hin _ Hc) as [H|H]; [contradiction|].
    exact (path_join_apart _ name _ Hnm H eq_refl). }
  rewrite (Hout "checkpoint.pth.tar" eq_refl H3), (Hout "model_best.pth.tar" eq_refl H4).
  reflexivity.
Qed.

Variable runs_dir : string.
Variable args : Args.

(** [SaveCheckpoint] in terms of its three steps. *)
Lemma SaveCheckpoint_run state is_best filename w :
  let r := save_steps (Py.path_join runs_dir (name args)) state is_best filename (fs w) in
  SaveCheckpoint runs_dir args state is_best filename w =
  mkRun (fst r) (set_fs (snd r) w) [Call_SaveCheckpoint state is_best].
Proof.
  cbv zeta. destruct w as [m sm tr va r b f].
  unfold SaveCheckpoint, save_steps, on_fs, bind, emit, get, put, lift, ret, set_fs.
  cbn [out world events app fs tnet sampler train_data_set val_data_set_t rng
       best_acc negb].
  destruct (path_exists _ f), is_best;
    repeat (cbn [out world events app fs tnet sampler train_data_set val_data_set_t rng
                 best_acc negb fst snd];
            match goal with
            | |- context [match ?o with Py.Ok _ => _ | Py.Raise _ => _ end] =>
                destruct o
            end);
    reflexivity.
Qed.

Lemma makedirs_exists (d : string) (f f1 : FileSystem) :
  makedirs d f = Py.Ok f1 -> is_dir d f1 = true /\ files f1 = files f.
Proof.
  unfold makedirs. destruct (_ || _); [discriminate|]. intros H. inversion H.
  split; [|reflexivity]. apply is_dir_true. cbn [dirs]. set_solver.
Qed.

Lemma first_step_exists (d : string) (f f1 : FileSystem) :
  (if negb (path_exists d f) then makedirs d f else Py.Ok f) = Py.Ok f1 ->
  path_exists d f1 = true.
Proof.
  destruct (path_exists d f) eqn:E; cbn [negb]; intros H.
  - inversion H; subst. exact E.
  - apply makedirs_exists in H as [H _]. unfold path_exists. rewrite H. reflexivity.
Qed.

Lemma path_exists_insert (d p : string) (st : Checkpoint) (f : FileSystem) :
  path_exists d f = true ->
  path_exists d (mkFS (dirs f) (<[ p := st ]> (files f))) = true.
Proof.
  unfold path_exists, is_dir, is_file. cbn [dirs files]. intros H.
  apply orb_true_iff in H. apply orb_true_iff. destruct H as [H|H]; [left; exact H|].
  right. apply bool_decide_eq_true in H. apply bool_decide_eq_true.
  apply lookup_insert_is_Some'. right. exact H.
Qed.

Lemma torch_save_inv (st : Checkpoint) (p : string) (f f2 : FileSystem) :
  torch_save st p f = Py.Ok f2 ->
  writable p f = true /\ f2 = mkFS (dirs f) (<[ p := st ]> (files f)).
Proof.
  unfold torch_save. destruct (writable p f); [|discriminate].
  intros H. inversion H. auto.
Qed.

Lemma copyfile_inv (p q : string) (f f3 : FileSystem) :
  copyfile p q f = Py.Ok f3 ->
  exists c, p <> q /\ files f !! p = Some c /\ writable q f = true /\
            f3 = mkFS (dirs f) (<[ q := c ]> (files f)).
Proof.
  unfold copyfile. destruct (String.eqb_spec p q) as [|Hne]; [discriminate|].
  destruct (files f !! p) as [c|]; [|discriminate].
  destruct (writable q f) eqn:E; [|discriminate].
  intros H. inversion H. exists c. auto.
Qed.

(** The steps leave a file system on which they change nothing any more. *)
Lemma save_steps_idempotent (d : string) state is_best filename (f : FileSystem) :
  snd (save_steps d state is_best filename (snd (save_steps d state is_best filename f)))
  = snd (save_steps d state is_best filename f).
Proof.
  set (p := Py.path_join d filename).
  set (q := Py.path_join d "model_best.pth.tar").
  destruct (save_steps d state is_best filename f) as [o g] eqn:E. cbn [snd].
  unfold save_steps in *. fold p q in E |- *.
  destruct (if negb (path_exists d f) then makedirs d f else Py.Ok f) as [f1|e] eqn:E1.
  2:{ inversion E; subst. rewrite E1. reflexivity. }
  pose proof (first_step_exists d f f1 E1) as Hex.
  destruct (torch_save state p f1) as [f2|e] eqn:E2.
  2:{ inversion E; subst. rewrite Hex. cbn [negb]. rewrite E2. reflexivity. }
  destruct (torch_save_inv _ _ _ _ E2) as [Hw ->].
  set (f2 := mkFS (dirs f1) (<[ p := state ]> (files f1))) in *.
  assert (Hex2 : path_exists d f2 = true) by (apply path_exists_insert; exact Hex).
  assert (Hs2 : torch_save state p f2 = Py.Ok f2).
  { unfold torch_save. rewrite (writable_dirs p f2 f1 eq_refl), Hw.
    unfold f2. cbn [dirs files]. rewrite insert_insert_eq. reflexivity. }
  destruct is_best.
  2:{ inversion E; subst. rewrite Hex2. cbn [negb]. rewrite Hs2. reflexivity. }
  destruct (copyfile p q f2) as [f3|e] eqn:E3.
  2:{ inversion E; subst. rewrite Hex2. cbn [negb]. rewrite Hs2, E3. reflexivity. }
  inversion E; subst. clear E.
  destruct (copyfile_inv _ _ _ _ E3) as (c & Hne & Hc & Hwq & ->).
  unfold f2 in Hc. cbn [files] in Hc. rewrite lookup_insert_eq in Hc.
  inversion Hc; subst c. clear Hc.
  set (f3 := mkFS (dirs f2) (<[ q := state ]> (files f2))) in *.
  assert (Hex3 : path_exists d f3 = true) by (apply path_exists_insert; exact Hex2).
  assert (Hp3 : files f3 !! p = Some state).
  { unfold f3, f2. cbn [files]. rewrite lookup_insert_ne by congruence.
    apply lookup_insert_eq. }
  assert (Hs3 : torch_save state p f3 = Py.Ok f3).
  { unfold torch_save. rewrite (writable_dirs p f3 f1 eq_refl), Hw.
    rewrite (insert_id _ _ _ Hp3). reflexivity. }
  assert (Hc3 : copyfile p q f3 = Py.Ok f3).
  { unfold copyfile. destruct (String.eqb_spec p q) as [|_]; [contradiction|].
    rewrite Hp3, (writable_dirs q f3 f2 eq_refl), Hwq.
    unfold f3. cbn [dirs files]. rewrite insert_insert_eq. reflexivity. }
  rewrite Hex3. cbn [negb]. rewrite Hs3, Hc3. reflexivity.
Qed.

End FileSystemFacts.

(** ** The phases run to completion *)

Lemma well_formed_trace_app {C : Collaborators} (l1 l2 : list Event) :
  well_formed_trace (l1 ++ l2) <-> well_formed_trace l1 /\ well_formed_trace l2.
Proof. unfold well_formed_trace. rewrite forallb_app. apply andb_true_iff. Qed.

Lemma well_formed_trace_cons {C : Collaborators} (ev : Event) (l : list Event) :
  well_formed_trace (ev :: l) <-> distances_ok ev = true /\ well_formed_trace l.
Proof. unfold well_formed_trace. cbn [forallb]. apply andb_true_iff. Qed.

Lemma distances_ok_shapes {C : Collaborators} (a b t : list Q) :
  distances_ok (Call_criterion a b t) = true -> length a = length b /\ a <> [].
Proof.
  cbn [distances_ok]. intros H. apply andb_true_iff in H as [H1 H2].
  apply Nat.eqb_eq in H1. apply negb_true_iff in H2. apply Nat.eqb_neq in H2.
  split; [exact H1|]. intros E. apply H2. rewrite E. reflexivity.
Qed.

Lemma updated_unit (m : AverageMeter) (v : Q) (n : Z) :
  unit_meter m -> (0 <= v)%Q -> (v <= 1)%Q -> 0 < n -> unit_meter (updated m v n).
Proof.
  intros (Hc & Hs0 & Hs1 & _ & _) Hv0 Hv1 Hn. unfold unit_meter, updated.
  cbn [count sum avg].
  assert (Hqn : (0 < inject_Z n)%Q).
  { change 0%Q with (inject_Z 0). rewrite <- Zlt_Qlt. exact Hn. }
  assert (Hq : (0 < inject_Z (count m + n))%Q).
  { change 0%Q with (inject_Z 0). rewrite <- Zlt_Qlt. lia. }
  assert (Hlo : (0 <= sum m + v * inject_Z n)%Q).
  { setoid_replace 0%Q with (0 + 0)%Q using relation Qeq by ring.
    apply Qplus_le_compat; [exact Hs0|].
    apply Qmult_le_0_compat; [exact Hv0|apply Qlt_le_weak; exact Hqn]. }
  assert (Hhi : (sum m + v * inject_Z n <= inject_Z (count m + n))%Q).
  { rewrite inject_Z_plus. apply Qplus_le_compat; [exact Hs1|].
    setoid_replace (inject_Z n) with (1 * inject_Z n)%Q using relation Qeq at 2 by ring.
    apply Qmult_le_compat_r; [exact Hv1|apply Qlt_le_weak; exact Hqn]. }
  split; [lia|]. split; [exact Hlo|]. split; [exact Hhi|]. split.
  - apply Qle_shift_div_l; [exact Hq|]. rewrite Qmult_0_l. exact Hlo.
  - apply Qle_shift_div_r; [exact Hq|]. rewrite Qmult_1_l. exact Hhi.
Qed.

Lemma new_unit : unit_meter Meter.new.
Proof. repeat split; simpl; try lia; discriminate. Qed.

Lemma updates_cons (m : AverageMeter) (v : Q) (n : Z) (rest : list (Q * Z)) :
  count m + n <> 0 ->
  Meter.updates m ((v, n) :: rest) = Meter.updates (updated m v n) rest.
Proof. intros H. cbn [Meter.updates]. rewrite (update_ok m v n H). reflexivity. Qed.

Section Completion.

Context {C : Collaborators}.
Variable args : Args.

Lemma bind_ok {A B} (m : M A) (k : A -> M B) w a w1 evs1 :
  m w = mkRun (Py.Ok a) w1 evs1 ->
  bind m k w = mkRun (out (k a w1)) (world (k a w1)) (evs1 ++ events (k a w1)).
Proof. intros H. unfold bind. rewrite H. destruct (k a w1). reflexivity. Qed.

Lemma bind_raise {A B} (m : M A) (k : A -> M B) w e w1 evs1 :
  m w = mkRun (Py.Raise e) w1 evs1 ->
  bind m k w = mkRun (Py.Raise e) w1 evs1.
Proof. intros H. unfold bind. rewrite H. reflexivity. Qed.

Lemma count_events_app kind (l1 l2 : list Event) :
  count_events kind (l1 ++ l2) = (count_events kind l1 + count_events kind l2)%nat.
Proof. unfold count_events. rewrite List.filter_app, length_app. reflexivity. Qed.

Lemma printed_progress_app (l1 l2 : list Event) :
  printed_progress (l1 ++ l2) = printed_progress l1 ++ printed_progress l2.
Proof. apply omap_app. Qed.

Lemma call_criterion_run (mg : Q) (a b t : list Q) (w : World) :
  call_criterion mg a b t w = mkRun (Py.Ok (criterion mg a b t)) w [Call_criterion a b t].
Proof. reflexivity. Qed.

(** Every batch of either loop starts with its loss call. *)
Lemma Train_batch_shapes epoch ms i b w :
  well_formed_trace (events (Train_batch args epoch ms i b w)) ->
  length (dista (batch_forward b w)) = length (distb (batch_forward b w)) /\
  dista (batch_forward b w) <> [].
Proof.
  unfold Train_batch. rewrite events_bind. cbn [get out world events app].
  rewrite events_bind, call_criterion_run. cbn [out world events app].
  intros H. apply well_formed_trace_cons in H as [H _].
  exact (distances_ok_shapes _ _ _ H).
Qed.

Lemma Test_batch_shapes ms b w :
  well_formed_trace (events (Test_batch args ms b w)) ->
  length (dista (batch_forward b w)) = length (distb (batch_forward b w)) /\
  dista (batch_forward b w) <> [].
Proof.
  unfold Test_batch. rewrite events_bind. cbn [get out world events app].
  rewrite events_bind, call_criterion_run. cbn [out world events app].
  intros H. apply well_formed_trace_cons in H as [H _].
  exact (distances_ok_shapes _ _ _ H).
Qed.

Lemma Train_batch_run epoch ms i b w :
  log_interval args <> 0 ->
  batch_ok b w ->
  train_counts_ok ms ->
  Train_batch args epoch ms i b w =
  mkRun (Py.Ok (trained_meters args ms b w)) (trained_on args b w)
    (training_calls args b w ++
     if i `mod` log_interval args =? 0
     then [training_print args epoch i ms b w] else []).
Proof.
  intros Hli (Hn & Hlen & Hne) (H1 & H2 & H3).
  unfold Train_batch, call_criterion, call_SampleNegatives, call_optimizer_step,
    bind, emit, modify, get, call, lift, ret.
  cbn [out world events app].
  unfold batch_forward in *.
  rewrite (LossAccuracy_value _ _ Hlen Hne). cbn [out world events].
  rewrite !update_ok by lia. cbn [out world events fst snd Py.obind].
  rewrite (mod_ok _ _ Hli). cbn [out world events].
  destruct (_ =? 0); reflexivity.
Qed.

Lemma Train_batch_zero_interval epoch ms i b w :
  log_interval args = 0 ->
  batch_ok b w ->
  train_counts_ok ms ->
  Train_batch args epoch ms i b w =
  mkRun (Py.Raise Py.ZeroDivisionError) (trained_on args b w) (training_calls args b w).
Proof.
  intros Hli (Hn & Hlen & Hne) (H1 & H2 & H3).
  unfold Train_batch, call_criterion, call_SampleNegatives, call_optimizer_step,
    bind, emit, modify, get, call, lift, ret.
  cbn [out world events app].
  unfold batch_forward in *.
  rewrite (LossAccuracy_value _ _ Hlen Hne). cbn [out world events].
  rewrite !update_ok by lia. cbn [out world events fst snd Py.obind].
  rewrite Hli. reflexivity.
Qed.

Lemma batch_accuracy_unit (b : Batch) (w : World) :
  batch_ok b w -> (0 <= batch_accuracy b w)%Q /\ (batch_accuracy b w <= 1)%Q.
Proof.
  intros (Hn & Hlen & Hne). unfold batch_accuracy.
  set (a := dista (batch_forward b w)) in *.
  set (d := distb (batch_forward b w)) in *.
  pose proof (correctly_ranked_bounds a d) as B. rewrite length_combine in B.
  assert (Hpos : 0 < Z.of_nat (length a)) by (destruct a; [congruence|simpl; lia]).
  assert (Hq : (0 < inject_Z (Z.of_nat (length a)))%Q).
  { change 0%Q with (inject_Z 0). rewrite <- Zlt_Qlt. exact Hpos. }
  rewrite Qmult_1_r. split.
  - apply Qle_shift_div_l; [exact Hq|]. rewrite Qmult_0_l.
    change 0%Q with (inject_Z 0). rewrite <- Zle_Qle. lia.
  - apply Qle_shift_div_r; [exact Hq|]. rewrite Qmult_1_l, <- Zle_Qle. lia.
Qed.

Lemma trained_counts_ok ms b w :
  0 < size0 (data1 b) -> train_counts_ok ms ->
  train_counts_ok (trained_meters args ms b w).
Proof.
  intros Hn (H1 & H2 & H3). unfold train_counts_ok, trained_meters, updated.
  cbn [tr_losses tr_loss_accs tr_emb_norms count]. lia.
Qed.

Lemma logged_batches_cons (i : Z) (b : Batch) (rest : list Batch) :
  logged_batches args i (b :: rest) =
  (if i `mod` log_interval args =? 0 then [(i, b)] else [])
  ++ logged_batches args (i + 1) rest.
Proof.
  unfold logged_batches. cbn [indexed List.filter fst].
  destruct (i `mod` log_interval args =? 0); reflexivity.
Qed.

(** The batch loop of [Train] on a well-formed trace. *)
Lemma Train_loop_summary epoch batches :
  log_interval args <> 0 ->
  forall ms i w,
    Forall (fun b => 0 < size0 (data1 b)) batches ->
    well_formed_trace (events (Train_loop args epoch ms i batches w)) ->
    train_counts_ok ms ->
    unit_meter (tr_loss_accs ms) ->
    exists ms',
      out (Train_loop args epoch ms i batches w) = Py.Ok ms' /\
      unit_meter (tr_loss_accs ms') /\
      count_events is_criterion (events (Train_loop args epoch ms i batches w))
        = length batches /\
      count_events is_SampleNegatives (events (Train_loop args epoch ms i batches w))
        = length batches /\
      count_events is_optimizer_step (events (Train_loop args epoch ms i batches w))
        = length batches /\
      printed_progress (events (Train_loop args epoch ms i batches w))
        = map (fun ib => (epoch, fst ib * size0 (data1 (snd ib))))
              (logged_batches args i batches).
Proof.
  intros Hli. induction batches as [|b rest IH]; intros ms i w Hne Hwf Hc Hu.
  - exists ms. split; [reflexivity|]. split; [exact Hu|]. repeat split.
  - inversion Hne as [|? ? Hn Hrest]; subst.
    cbn [Train_loop] in Hwf |- *.
    assert (Hb : batch_ok b w).
    { rewrite events_bind in Hwf. apply well_formed_trace_app in Hwf as [Hwf _].
      split; [exact Hn|]. exact (Train_batch_shapes epoch ms i b w Hwf). }
    pose proof (Train_batch_run epoch ms i b w Hli Hb Hc) as Hrun.
    rewrite (bind_ok _ _ _ _ _ _ Hrun) in Hwf |- *.
    cbn [out events] in Hwf |- *.
    apply well_formed_trace_app in Hwf as [_ Hwf].
    destruct (IH (trained_meters args ms b w) (i + 1) (trained_on args b w))
      as (ms' & Hout & Hu' & K1 & K2 & K3 & K4); try assumption.
    { apply trained_counts_ok; assumption. }
    { cbn [trained_meters tr_loss_accs].
      destruct (batch_accuracy_unit b w Hb) as [Ha0 Ha1].
      apply updated_unit; assumption. }
    exists ms'. split; [exact Hout|]. split; [exact Hu'|].
    change (length (b :: rest)) with (S (length rest)).
    rewrite !count_events_app, !printed_progress_app, K1, K2, K3, K4,
      logged_batches_cons, map_app.
    destruct (i `mod` log_interval args =? 0); cbn; auto.
Qed.

Lemma Test_batch_world ms b w : world (Test_batch args ms b w) = w.
Proof.
  unfold Test_batch, call_criterion, bind, emit, modify, get, call, lift, ret.
  cbn [out world events app].
  repeat match goal with
  | |- context [match ?x with Py.Ok _ => _ | Py.Raise _ => _ end] =>
      destruct x; cbn [out world events app]
  end; reflexivity.
Qed.

Lemma Test_loop_world batches : forall ms w, world (Test_loop args ms batches w) = w.
Proof.
  induction batches as [|b rest IH]; intros ms w; [reflexivity|].
  cbn [Test_loop]. rewrite world_bind.
  destruct (out (Test_batch args ms b w)); [rewrite IH|]; apply Test_batch_world.
Qed.

Lemma Test_batch_only_criterion ms b w :
  Forall (fun ev => is_criterion ev = true) (events (Test_batch args ms b w)).
Proof.
  unfold Test_batch, call_criterion, bind, emit, modify, get, call, lift, ret.
  cbn [out world events app].
  repeat match goal with
  | |- context [match ?x with Py.Ok _ => _ | Py.Raise _ => _ end] =>
      destruct x; cbn [out world events app]
  end; repeat constructor.
Qed.

Lemma Test_loop_only_criterion batches :
  forall ms w,
    Forall (fun ev => is_criterion ev = true) (events (Test_loop args ms batches w)).
Proof.
  induction batches as [|b rest IH]; intros ms w; [constructor|].
  cbn [Test_loop]. rewrite events_bind. apply Forall_app. split.
  - apply Test_batch_only_criterion.
  - destruct (out (Test_batch args ms b w)); [apply IH|constructor].
Qed.

Lemma only_criterion_counts (l : list Event) :
  Forall (fun ev => is_criterion ev = true) l ->
  count_events is_optimizer_step l = 0%nat /\
  count_events is_SampleNegatives l = 0%nat.
Proof.
  unfold count_events. induction 1 as [|ev l Hev _ [IH1 IH2]]; [split; reflexivity|].
  destruct ev; simpl in Hev; try discriminate; simpl; auto.
Qed.

Lemma Test_batch_run ms b w :
  batch_ok b w ->
  0 <= count (te_losses ms) -> 0 <= count (te_accs ms) ->
  Test_batch args ms b w =
  mkRun (Py.Ok (tested_meters args ms b w)) w
    [Call_criterion (dista (batch_forward b w)) (distb (batch_forward b w))
       (Tensor.ones (length (dista (batch_forward b w))))].
Proof.
  intros (Hn & Hlen & Hne) H1 H2.
  unfold Test_batch, call_criterion, bind, emit, modify, get, call, lift, ret.
  cbn [out world events app].
  unfold batch_forward in *.
  rewrite (LossAccuracy_value _ _ Hlen Hne). cbn [out world events].
  rewrite !update_ok by lia. reflexivity.
Qed.

(** The batch loop of [TestTriplets] on a well-formed trace: the meters
    take one update per batch, and the trace is the loss calls. *)
Lemma Test_loop_summary batches :
  forall ms w,
    Forall (fun b => 0 < size0 (data1 b)) batches ->
    well_formed_trace (events (Test_loop args ms batches w)) ->
    0 <= count (te_losses ms) ->
    0 <= count (te_accs ms) ->
    unit_meter (te_accs ms) ->
    exists ms',
      out (Test_loop args ms batches w) = Py.Ok ms' /\
      unit_meter (te_accs ms') /\
      te_accs ms' = snd (Meter.updates (te_accs ms) (accuracy_updates w batches)) /\
      te_losses ms' = snd (Meter.updates (te_losses ms) (loss_updates args w batches)) /\
      events (Test_loop args ms batches w) = batch_calls w batches.
Proof.
  induction batches as [|b rest IH]; intros ms w Hne Hwf H1 H2 Hu.
  - exists ms. split; [reflexivity|]. split; [exact Hu|]. repeat split.
  - inversion Hne as [|? ? Hn Hrest]; subst.
    cbn [Test_loop] in Hwf |- *.
    assert (Hb : batch_ok b w).
    { rewrite events_bind in Hwf. apply well_formed_trace_app in Hwf as [Hwf _].
      split; [exact Hn|]. exact (Test_batch_shapes ms b w Hwf). }
    pose proof (Test_batch_run ms b w Hb H1 H2) as Hrun.
    rewrite (bind_ok _ _ _ _ _ _ Hrun) in Hwf |- *.
    cbn [out events] in Hwf |- *.
    apply well_formed_trace_app in Hwf as [_ Hwf].
    destruct (IH (tested_meters args ms b w) w) as (ms' & Hout & Hu' & Ha & Hl & Hev);
      try assumption.
    { cbn [tested_meters te_losses updated count]. lia. }
    { cbn [tested_meters te_accs updated count]. lia. }
    { cbn [tested_meters te_accs].
      destruct (batch_accuracy_unit b w Hb) as [Ha0 Ha1].
      apply updated_unit; assumption. }
    exists ms'. split; [exact Hout|]. split; [exact Hu'|].
    cbn [accuracy_updates loss_updates batch_calls map].
    rewrite !updates_cons by lia.
    split; [exact Ha|]. split; [exact Hl|]. rewrite Hev. reflexivity.
Qed.

Lemma Train_trace_loop epoch w :
  well_formed_trace (events (Train args epoch w)) ->
  well_formed_trace
    (events (Train_loop args epoch Train_meters 0 (Train_batches args w)
               (Train_entry args w))).
Proof.
  rewrite Train_run.
  destruct (out (Train_loop _ _ _ _ _ _)); cbn [events]; intros Hwf;
    apply well_formed_trace_cons in Hwf as [_ Hwf]; exact Hwf.
Qed.

Lemma TestTriplets_trace_loop w :
  well_formed_trace (events (TestTriplets args w)) ->
  well_formed_trace
    (events (Test_loop args Test_meters (Test_batches args w) (Test_entry args w))).
Proof.
  rewrite TestTriplets_run.
  destruct (out (Test_loop _ _ _ _)); cbn [events]; intros Hwf;
    apply well_formed_trace_cons in Hwf as [_ Hwf];
    [apply well_formed_trace_app in Hwf as [Hwf _]|]; exact Hwf.
Qed.

End Completion.

Section TrainFrame.

Context {C : Collaborators}.
Variable args : Args.
Context {X : Type}.
Variable f : World -> X.
Hypothesis f_sampler : forall s w, f (set_sampler s w) = f w.
Hypothesis f_tnet : forall m w, f (set_tnet m w) = f w.
Hypothesis f_rng : forall r w, f (set_rng r w) = f w.

Lemma Train_batch_frame epoch ms i b : preserves f (Train_batch args epoch ms i b).
Proof.
  unfold Train_batch, call_criterion, call_SampleNegatives, call_optimizer_step.
  repeat first
    [ apply preserves_bind; [|intros ?]
    | apply preserves_ret
    | apply preserves_get
    | apply preserves_emit
    | apply preserves_lift
    | apply preserves_call
    | apply preserves_if
    | apply preserves_modify; intros ?; auto ].
Qed.

Lemma Train_loop_frame epoch batches :
  forall ms i, preserves f (Train_loop args epoch ms i batches).
Proof.
  induction batches as [|b rest IH]; intros ms i; simpl.
  - apply preserves_ret.
  - apply preserves_bind; [apply Train_batch_frame|intros ms'; apply IH].
Qed.

Lemma Train_frame epoch w : f (world (Train args epoch w)) = f w.
Proof.
  rewrite Train_run.
  destruct (out (Train_loop _ _ _ _ _ _)); cbn [world];
    rewrite Train_loop_frame; unfold Train_entry; rewrite f_rng, f_tnet; reflexivity.
Qed.

End TrainFrame.

(** ** The order of the phases *)

Section Order.

Context {C : Collaborators}.

Lemma phases_app (l1 l2 : list Event) : phases (l1 ++ l2) = phases l1 ++ phases l2.
Proof. apply omap_app. Qed.

Lemma phases_batch_events (l : list Event) : Forall batch_event l -> phases l = [].
Proof.
  induction 1 as [|ev l Hev _ IH]; [reflexivity|].
  unfold phases in *. cbn [omap list_omap]. rewrite IH.
  destruct ev; simpl in Hev; try contradiction; reflexivity.
Qed.

Section Rules.

Variable I : FileSystem -> Prop.

Lemma runs_with_bind {A B} (m : M A) (k : A -> M B) p1 p2 :
  runs_with I m p1 -> (forall a, runs_with I (k a) p2) ->
  runs_with I (bind m k) (p1 ++ p2).
Proof.
  intros Hm Hk w HI Hwf.
  rewrite events_bind in Hwf. apply well_formed_trace_app in Hwf as [H1 H2].
  destruct (Hm w HI H1) as ([a Ha] & Hp & HI1). rewrite Ha in H2.
  destruct (Hk a (world (m w)) HI1 H2) as (Hout & Hp2 & HI2).
  rewrite out_bind, events_bind, world_bind, Ha, phases_app, Hp, Hp2. auto.
Qed.

Lemma runs_with_eq {A} (m : M A) p p' : runs_with I m p -> p = p' -> runs_with I m p'.
Proof. intros H <-. exact H. Qed.

Lemma runs_with_ret {A} (a : A) : runs_with I (ret a) [].
Proof. intros w HI _. split; [eexists; reflexivity|]. split; [reflexivity|exact HI]. Qed.

Lemma runs_with_get : runs_with I get [].
Proof. intros w HI _. split; [eexists; reflexivity|]. split; [reflexivity|exact HI]. Qed.

Lemma runs_with_modify f : (forall w, fs (f w) = fs w) -> runs_with I (modify f) [].
Proof.
  intros Hf w HI _. split; [eexists; reflexivity|]. split; [reflexivity|].
  cbn [modify world]. rewrite Hf. exact HI.
Qed.


Lemma runs_with_emit ev : runs_with I (emit ev) (phases [ev]).
Proof. intros w HI _. split; [eexists; reflexivity|]. split; [reflexivity|exact HI]. Qed.

Lemma aborts_bind_l {A B} (m : M A) (k : A -> M B) p :
  aborts_with I m p -> aborts_with I (bind m k) p.
Proof.
  intros H w HI Hwf.
  rewrite events_bind in Hwf. apply well_formed_trace_app in Hwf as [H1 _].
  destruct (H w HI H1) as [Ho Hp].
  rewrite out_bind, events_bind, Ho, app_nil_r. auto.
Qed.

Lemma aborts_bind_r {A B} (m : M A) (k : A -> M B) p1 p2 :
  runs_with I m p1 -> (forall a, aborts_with I (k a) p2) ->
  aborts_with I (bind m k) (p1 ++ p2).
Proof.
  intros Hm Hk w HI Hwf.
  rewrite events_bind in Hwf. apply well_formed_trace_app in Hwf as [H1 H2].
  destruct (Hm w HI H1) as ([a Ha] & Hp & HI1). rewrite Ha in H2.
  destruct (Hk a (world (m w)) HI1 H2) as [Ho Hp2].
  rewrite out_bind, events_bind, Ha, phases_app, Hp, Hp2. auto.
Qed.

Lemma aborts_lift {A} : aborts_with I (lift (@Py.Raise A Py.ZeroDivisionError)) [].
Proof. intros w _ _. split; reflexivity. Qed.

Lemma aborts_lift_bind {A B} (a : A) (k : A -> M B) p :
  aborts_with I (k a) p -> aborts_with I (bind (lift (Py.Ok a)) k) p.
Proof.
  intros H w HI Hwf. rewrite events_bind in Hwf. cbn [lift out world events app] in Hwf.
  specialize (H w HI Hwf). rewrite out_bind, events_bind. exact H.
Qed.

Variable args : Args.
Hypothesis log_interval_nonzero : log_interval args <> 0.
Hypothesis batches_ok : nonempty_batches.

Lemma Train_runs epoch : runs_with I (Train args epoch) [PTrain epoch].
Proof.
  intros w HI Hwf.
  pose proof (Train_frame args fs (fun _ _ => eq_refl) (fun _ _ => eq_refl)
                (fun _ _ => eq_refl) epoch w) as Hfs.
  rewrite Hfs. rewrite Train_run in Hwf |- *.
  assert (Hwf' : well_formed_trace
                   (events (Train_loop args epoch Train_meters 0
                              (Train_batches args w) (Train_entry args w)))).
  { destruct (out (Train_loop _ _ _ _ _ _)); cbn [events] in Hwf;
      apply well_formed_trace_cons in Hwf as [_ Hwf]; exact Hwf. }
  destruct (Train_loop_summary args epoch (Train_batches args w) log_interval_nonzero
              Train_meters 0 (Train_entry args w)) as (ms & E & _); try assumption.
  { apply List.Forall_forall. intros b Hb. exact (batches_ok _ _ _ _ Hb). }
  { repeat split; simpl; lia. }
  { apply new_unit. }
  rewrite E. cbn [out events]. split; [eexists; reflexivity|]. split; [|exact HI].
  change (Call_Train epoch :: ?l) with ([Call_Train epoch] ++ l).
  rewrite phases_app, (phases_batch_events (events _)); [reflexivity|apply Train_loop_emits].
Qed.

Lemma TestTriplets_runs : runs_with I (TestTriplets args) [PValidate].
Proof.
  intros w HI Hwf.
  assert (Hfs : fs (world (TestTriplets args w)) = fs w).
  { rewrite TestTriplets_run.
    destruct (out (Test_loop _ _ _ _)); cbn [world]; rewrite Test_loop_world;
      reflexivity. }
  rewrite Hfs. rewrite TestTriplets_run in Hwf |- *.
  assert (Hwf' : well_formed_trace
                   (events (Test_loop args Test_meters
                              (Test_batches args w) (Test_entry args w)))).
  { destruct (out (Test_loop _ _ _ _)); cbn [events] in Hwf;
      apply well_formed_trace_cons in Hwf as [_ Hwf];
      [apply well_formed_trace_app in Hwf as [Hwf _]|]; exact Hwf. }
  destruct (Test_loop_summary args (Test_batches args w) Test_meters (Test_entry args w))
    as (ms & E & _); try assumption; try (simpl; lia).
  { apply List.Forall_forall. intros b Hb. exact (batches_ok _ _ _ _ Hb). }
  { apply new_unit. }
  rewrite E. cbn [out events]. split; [eexists; reflexivity|]. split; [|exact HI].
  change (Call_TestTriplets :: ?l) with ([Call_TestTriplets] ++ l).
  rewrite !phases_app, (phases_batch_events (events _)); [reflexivity|apply Test_loop_emits].
Qed.



End Rules.

Variable runs_dir : string.
Variable args : Args.
Hypothesis log_interval_nonzero : log_interval args <> 0.
Hypothesis batches_ok : nonempty_batches.

Lemma SaveCheckpoint_runs state is_best :
  runs_with (usable runs_dir args) (SaveCheckpoint runs_dir args state is_best "checkpoint.pth.tar") [].
Proof.
  intros w HI _. rewrite SaveCheckpoint_run. cbv zeta.
  destruct (save_steps_usable runs_dir (name args) state is_best (fs w) HI)
    as (D & E & Hus).
  cbv zeta in E. rewrite E. cbn [fst snd out world events].
  split; [eexists; reflexivity|]. split; [reflexivity|]. apply Hus.
Qed.

Lemma remember_best_runs epoch acc :
  runs_with (usable runs_dir args) (remember_best runs_dir args epoch acc) [].
Proof.
  unfold remember_best.
  eapply runs_with_eq.
  - apply runs_with_bind; [apply runs_with_get|intros w0].
    apply runs_with_bind; [apply runs_with_modify; intros w; reflexivity|intros _].
    apply runs_with_bind; [apply runs_with_get|intros w1].
    apply SaveCheckpoint_runs.
  - reflexivity.
Qed.



Lemma epoch_body_aborts epoch :
  val_freq args = 0 \/ triplet_freq args = 0 ->
  aborts_with (usable runs_dir args) (epoch_body runs_dir args epoch)
    ([PTrain epoch] ++
     (if val_freq args =? 0 then []
      else if epoch `mod` val_freq args =? 0 then [PValidate] else [])).
Proof.
  intros zero_frequency. unfold epoch_body.
  apply aborts_bind_r; [apply Train_runs; assumption|intros _].
  unfold Py.mod_ at 1.
  destruct (Z.eqb_spec (val_freq args) 0) as [Hv|Hv].
  - apply aborts_bind_l. apply aborts_lift.
  - destruct zero_frequency as [|Ht]; [contradiction|].
    apply aborts_lift_bind.
    rewrite <- (app_nil_r (if _ =? 0 then _ else _)).
    apply aborts_bind_r.
    + destruct (_ =? 0); [|apply runs_with_ret].
      apply (runs_with_bind _ _ _ [PValidate] []).
      * apply TestTriplets_runs; assumption.
      * intros acc. apply remember_best_runs.
    + intros _. apply aborts_bind_l. unfold Py.mod_. rewrite Ht. apply aborts_lift.
Qed.

Lemma main_aborts (s : Setup) :
  val_freq args = 0 \/ triplet_freq args = 0 ->
  1 <= epochs args ->
  usable runs_dir args (setup_fs s) ->
  well_formed_trace (events (main runs_dir args s)) ->
  out (main runs_dir args s) = Py.Raise Py.ZeroDivisionError /\
  phases (events (main runs_dir args s)) =
    [PTrain 1] ++
    (if val_freq args =? 0 then []
     else if 1 `mod` val_freq args =? 0 then [PValidate] else []).
Proof.
  intros Hz He Hus Hwf. unfold main in *.
  assert (Hr : Py.range 1 (epochs args + 1) = 1 :: Py.range 2 (epochs args + 1)).
  { unfold Py.range. replace (Z.to_nat (epochs args + 1 - 1))
      with (S (Z.to_nat (epochs args + 1 - 2))) by lia.
    cbn [seq map]. f_equal. rewrite <- seq_shift, map_map. apply map_ext.
    intros k. lia. }
  rewrite Hr in Hwf |- *. cbn [for_each] in Hwf |- *.
  match goal with
  | |- out (bind ?m ?k ?w0) = _ /\ _ =>
      assert (H : aborts_with (usable runs_dir args) (bind m k)
                    ([] ++ ([PTrain 1] ++
                            (if val_freq args =? 0 then []
                             else if 1 `mod` val_freq args =? 0
                                  then [PValidate] else []))));
        [|exact (H w0 Hus Hwf)]
  end.
  apply aborts_bind_r; [apply runs_with_emit|intros _].
  apply aborts_bind_l. apply epoch_body_aborts. exact Hz.
Qed.

End Order.







(** ** Checkpoints and the best accuracy *)

Lemma checkpoint_path_differs (d : string) :
  Py.path_join d "checkpoint.pth.tar" <> Py.path_join d "model_best.pth.tar".
Proof.
  intros H. apply path_join_inj in H; [discriminate H|reflexivity|reflexivity].
Qed.

Lemma max_ge_r (a b : Q) : (b <= Py.max a b)%Q.
Proof.
  unfold Py.max. destruct (Py.gt b a) eqn:E; [apply Qle_refl|].
  apply gt_false in E. exact E.
Qed.

Lemma max_ge_l (a b : Q) : (a <= Py.max a b)%Q.
Proof.
  unfold Py.max. destruct (Py.gt b a) eqn:E; [|apply Qle_refl].
  apply gt_spec in E. apply Qlt_le_weak. exact E.
Qed.

Lemma max_lt_iff (a b c : Q) : (Py.max a b < c)%Q <-> (a < c)%Q /\ (b < c)%Q.
Proof.
  split.
  - intros H. split; eapply Qle_lt_trans; try exact H; [apply max_ge_l|apply max_ge_r].
  - intros [Ha Hb]. unfold Py.max. destruct (Py.gt b a); assumption.
Qed.

Lemma final_best_lt_iff (accs : list Q) (b c : Q) :
  (final_best b accs < c)%Q <-> (b < c)%Q /\ Forall (fun x => (x < c)%Q) accs.
Proof.
  revert b. induction accs as [|a rest IH]; intros b; simpl.
  - split; [intros H; split; [exact H|constructor]|intros [H _]; exact H].
  - unfold final_best in *. simpl. rewrite IH, max_lt_iff, Forall_cons.
    tauto.
Qed.

Lemma final_best_ge (accs : list Q) (b : Q) : (b <= final_best b accs)%Q.
Proof.
  revert b. induction accs as [|a rest IH]; intros b; simpl.
  - apply Qle_refl.
  - eapply Qle_trans; [apply (max_ge_r a)|apply IH].
Qed.

Lemma track_best_app (l1 l2 : list Q) (b : Q) :
  track_best b (l1 ++ l2) = track_best b l1 ++ track_best (final_best b l1) l2.
Proof.
  revert b. induction l1 as [|a rest IH]; intros b; simpl; [reflexivity|].
  rewrite IH. reflexivity.
Qed.

Lemma final_best_app (l1 l2 : list Q) (b : Q) :
  final_best b (l1 ++ l2) = final_best (final_best b l1) l2.
Proof. unfold final_best. apply fold_left_app. Qed.

Lemma track_best_length (l : list Q) (b : Q) : length (track_best b l) = length l.
Proof.
  revert b. induction l as [|a rest IH]; intros b; simpl; [reflexivity|].
  rewrite IH. reflexivity.
Qed.

Lemma track_best_lookup (pre post : list Q) (a b : Q) :
  track_best b (pre ++ a :: post) !! length pre =
  Some (Py.gt a (final_best b pre), Py.max a (final_best b pre)).
Proof.
  rewrite track_best_app. rewrite lookup_app_r by (rewrite track_best_length; lia).
  rewrite track_best_length, Nat.sub_diag. reflexivity.
Qed.

Section Tracking.

Context {C : Collaborators}.
Variable runs_dir : string.
Variable args : Args.

Lemma validation_accs_app l1 l2 :
  validation_accs (l1 ++ l2) = validation_accs l1 ++ validation_accs l2.
Proof. apply omap_app. Qed.

Lemma best_flags_app l1 l2 : best_flags (l1 ++ l2) = best_flags l1 ++ best_flags l2.
Proof. apply omap_app. Qed.

Lemma silent_no_accs l : Forall silent l -> validation_accs l = [].
Proof.
  induction 1 as [|ev l Hev _ IH]; [reflexivity|].
  unfold validation_accs in *. cbn [omap list_omap]. rewrite IH.
  destruct ev; simpl in Hev; try contradiction; reflexivity.
Qed.

Lemma silent_no_flags l : Forall silent l -> best_flags l = [].
Proof.
  induction 1 as [|ev l Hev _ IH]; [reflexivity|].
  unfold best_flags in *. cbn [omap list_omap]. rewrite IH.
  destruct ev; simpl in Hev; try contradiction; reflexivity.
Qed.

Lemma batch_event_silent ev : batch_event ev -> silent ev.
Proof. destruct ev; simpl; auto. Qed.

Lemma tracks_bind {A B} (m : M A) (k : A -> M B) :
  tracks m -> (forall a, tracks (k a)) -> tracks (bind m k).
Proof.
  intros Hm Hk w. destruct (Hm w) as [Hf Hb].
  rewrite events_bind, world_bind, validation_accs_app, best_flags_app.
  rewrite track_best_app, final_best_app, Hf, <- Hb.
  destruct (out (m w)) as [a|e].
  - destruct (Hk a (world (m w))) as [Hf' Hb']. rewrite Hf', Hb'. auto.
  - simpl. auto.
Qed.

Lemma tracks_quiet {A} (m : M A) :
  emits_only silent m -> preserves best_acc m -> tracks m.
Proof.
  intros He Hp w.
  rewrite (silent_no_accs _ (He w)), (silent_no_flags _ (He w)), Hp.
  split; reflexivity.
Qed.

Lemma Train_batch_preserves epoch ms i b :
  preserves best_acc (Train_batch args epoch ms i b).
Proof.
  unfold Train_batch, call_criterion, call_SampleNegatives, call_optimizer_step.
  step_preserves.
Qed.

Lemma Train_loop_preserves epoch batches :
  forall ms i, preserves best_acc (Train_loop args epoch ms i batches).
Proof.
  induction batches as [|b rest IH]; intros ms i; simpl.
  - apply preserves_ret.
  - apply preserves_bind; [apply Train_batch_preserves|intros ms'; apply IH].
Qed.

Lemma Test_batch_preserves ms b : preserves best_acc (Test_batch args ms b).
Proof. unfold Test_batch, call_criterion. step_preserves. Qed.

Lemma Test_loop_preserves batches :
  forall ms, preserves best_acc (Test_loop args ms batches).
Proof.
  induction batches as [|b rest IH]; intros ms; simpl.
  - apply preserves_ret.
  - apply preserves_bind; [apply Test_batch_preserves|intros ms'; apply IH].
Qed.

Lemma Train_tracks epoch : tracks (Train args epoch).
Proof.
  apply tracks_quiet.
  - intros w. rewrite Train_run.
    assert (H : Forall silent
                  (events (Train_loop args epoch Train_meters 0
                             (Train_batches args w) (Train_entry args w)))).
    { eapply Forall_impl; [apply Train_loop_emits|].
      intros ev. apply batch_event_silent. }
    destruct (out (Train_loop _ _ _ _ _ _)); cbn [events]; constructor;
      try exact I; exact H.
  - intros w. rewrite Train_run.
    destruct (out (Train_loop _ _ _ _ _ _)); cbn [world];
      rewrite Train_loop_preserves; reflexivity.
Qed.

End Tracking.

Section Checkpoints.

Context {C : Collaborators}.
Variable runs_dir : string.
Variable args : Args.

Lemma remember_best_save epoch acc w :
  remember_best runs_dir args epoch acc w =
  SaveCheckpoint runs_dir args
    {| ck_epoch := epoch + 1;
       ck_state_dict := state_dict (tnet w);
       ck_best_prec1 := Py.max acc (best_acc w) |}
    (Py.gt acc (best_acc w)) "checkpoint.pth.tar"
    (set_best_acc (Py.max acc (best_acc w)) w).
Proof.
  unfold remember_best, bind, get, modify.
  cbn [out world events app set_best_acc best_acc tnet].
  destruct (SaveCheckpoint _ _ _ _ _ _) as [[[]|e] w' evs]; reflexivity.
Qed.

(** The call is made, and the best accuracy updated, whether or not the
    file system takes the checkpoint. *)
Lemma remember_best_trace epoch acc w :
  events (remember_best runs_dir args epoch acc w) =
    [Call_SaveCheckpoint
       {| ck_epoch := epoch + 1;
          ck_state_dict := state_dict (tnet w);
          ck_best_prec1 := Py.max acc (best_acc w) |}
       (Py.gt acc (best_acc w))] /\
  best_acc (world (remember_best runs_dir args epoch acc w)) = Py.max acc (best_acc w).
Proof.
  rewrite remember_best_save, SaveCheckpoint_run. cbv zeta. cbn [events world].
  split; reflexivity.
Qed.

Lemma remember_best_run epoch acc w :
  checkpoint_dir_usable runs_dir (name args) (fs w) = true ->
  let flag := Py.gt acc (best_acc w) in
  let st := {| ck_epoch := epoch + 1;
               ck_state_dict := state_dict (tnet w);
               ck_best_prec1 := Py.max acc (best_acc w) |} in
  let dir := Py.path_join runs_dir (name args) in
  let r := remember_best runs_dir args epoch acc w in
  out r = Py.Ok tt /\
  files (fs (world r)) !! Py.path_join dir "checkpoint.pth.tar" = Some st /\
  files (fs (world r)) !! Py.path_join dir "model_best.pth.tar" =
    (if flag then Some st else files (fs w) !! Py.path_join dir "model_best.pth.tar") /\
  checkpoint_dir_usable runs_dir (name args) (fs (world r)) = true.
Proof.
  intros Hus flag st dir r. subst r.
  pose proof (checkpoint_path_differs (Py.path_join runs_dir (name args))) as Hne.
  rewrite remember_best_save, SaveCheckpoint_run. cbv zeta.
  destruct (save_steps_usable runs_dir (name args) st flag (fs w) Hus) as (D & E & Hus').
  cbv zeta in E. fold dir in E, Hne |- *. fold st flag.
  change (fs (set_best_acc (Py.max acc (best_acc w)) w)) with (fs w).
  rewrite E. cbn [fst snd out world fs set_fs files].
  split; [reflexivity|]. split; [|split; [|apply Hus']].
  - destruct flag; [rewrite lookup_insert_ne by congruence|]; apply lookup_insert_eq.
  - destruct flag; [apply lookup_insert_eq|apply lookup_insert_ne; exact Hne].
Qed.

Lemma validation_tracks epoch :
  tracks (acc <- TestTriplets args ;; remember_best runs_dir args epoch acc).
Proof.
  intros w.
  rewrite events_bind, world_bind.
  rewrite TestTriplets_run.
  set (r := Test_loop args Test_meters (Test_batches args w) (Test_entry args w)).
  assert (Hs : Forall silent (events r)).
  { eapply Forall_impl; [apply Test_loop_emits|].
    intros ev. apply batch_event_silent. }
  assert (Hb : best_acc (world r) = best_acc w).
  { unfold r. rewrite Test_loop_preserves. reflexivity. }
  destruct (out r) as [ms|e]; cbn [out world events].
  - destruct (remember_best_trace epoch (avg (te_accs ms)) (world r)) as (Hev & Hbest).
    rewrite Hev, Hbest, Hb.
    change (Call_TestTriplets :: ?l) with ([Call_TestTriplets] ++ l).
    rewrite !validation_accs_app, !best_flags_app.
    rewrite (silent_no_accs (events r) Hs), (silent_no_flags (events r) Hs).
    cbn. rewrite ?Hb. split; reflexivity.
  - rewrite app_nil_r.
    change (Call_TestTriplets :: ?l) with ([Call_TestTriplets] ++ l).
    rewrite !validation_accs_app, !best_flags_app.
    rewrite (silent_no_accs (events r) Hs), (silent_no_flags (events r) Hs).
    cbn. rewrite ?Hb. split; reflexivity.
Qed.

Lemma regenerate_and_reset_tracks : tracks regenerate_and_reset.
Proof.
  intros w. unfold regenerate_and_reset, bind, emit, get, put, modify.
  cbn [out world events app]. split; reflexivity.
Qed.

Lemma tracks_ret {A} (a : A) : tracks (ret a).
Proof. intros w. split; reflexivity. Qed.

Lemma tracks_lift {A} (o : Py.outcome A) : tracks (lift o).
Proof. intros w. split; reflexivity. Qed.

Lemma tracks_emit ev : silent ev -> tracks (emit ev).
Proof.
  intros H. apply tracks_quiet; [apply emits_only_emit; exact H|apply preserves_emit].
Qed.

Lemma epoch_body_tracks epoch : tracks (epoch_body runs_dir args epoch).
Proof.
  unfold epoch_body.
  apply tracks_bind; [apply Train_tracks|intros _].
  apply tracks_bind; [apply tracks_lift|intros r].
  apply tracks_bind.
  - destruct (r =? 0); [apply validation_tracks|apply tracks_ret].
  - intros _. apply tracks_bind; [apply tracks_lift|intros r'].
    destruct (r' =? 0); [apply regenerate_and_reset_tracks|apply tracks_ret].
Qed.

Lemma for_each_tracks (body : Z -> M unit) (l : list Z) :
  (forall x, tracks (body x)) -> tracks (for_each l body).
Proof.
  intros H. induction l as [|x rest IH]; simpl.
  - apply tracks_ret.
  - apply tracks_bind; [apply H|intros _; exact IH].
Qed.

Lemma main_tracks (s : Setup) :
  best_flags (events (main runs_dir args s)) =
  track_best 0 (validation_accs (events (main runs_dir args s))).
Proof.
  unfold main.
  match goal with
  | |- context [bind ?m ?k ?w0] =>
      assert (H : tracks (bind m k)); [|exact (proj1 (H w0))]
  end.
  apply tracks_bind; [apply tracks_emit; exact I|intros _].
  apply for_each_tracks. intros e. apply epoch_body_tracks.
Qed.

End Checkpoints.

(** C6 (amended to what is written when).  On every validation cycle
    [SaveCheckpoint] is called with the checkpoint (epoch + 1, model
    parameters, best accuracy so far), whether or not the accuracy improved;
    where the checkpoint directory is usable the call returns, the checkpoint
    is written to checkpoint.pth.tar and copied to model_best.pth.tar exactly
    when the new accuracy exceeds the previous best, model_best.pth.tar being
    left as it was otherwise, and the directory is usable afterwards.  In a
    run of [main] every validation pass that returns is followed by one such
    call. *)
Theorem checkpoint_written_each_validation {C : Collaborators} (runs_dir : string)
    (args : Args) (s : Setup) (epoch : Z) (acc : Q) (w : World) :
  (let flag := Py.gt acc (best_acc w) in
   let st := {| ck_epoch := epoch + 1;
                ck_state_dict := state_dict (tnet w);
                ck_best_prec1 := Py.max acc (best_acc w) |} in
   let dir := Py.path_join runs_dir (name args) in
   let r := remember_best runs_dir args epoch acc w in
   events r = [Call_SaveCheckpoint st flag] /\
   (checkpoint_dir_usable runs_dir (name args) (fs w) = true ->
    out r = Py.Ok tt /\
    files (fs (world r)) !! Py.path_join dir "checkpoint.pth.tar" = Some st /\
    files (fs (world r)) !! Py.path_join dir "model_best.pth.tar" =
      (if flag then Some st else files (fs w) !! Py.path_join dir "model_best.pth.tar") /\
    checkpoint_dir_usable runs_dir (name args) (fs (world r)) = true)) /\
  length (best_flags (events (main runs_dir args s))) =
  length (validation_accs (events (main runs_dir args s))).
Proof.
  split.
  - cbv zeta. split; [apply remember_best_trace|].
    intros Hus. exact (remember_best_run runs_dir args epoch acc w Hus).
  - rewrite main_tracks. apply track_best_length.
Qed.

(** C6, witness: a first validation cycle with accuracy 1/2, on an empty
    disk. *)
Lemma checkpoint_written_each_validation_witness :
  let r := remember_best "runs" (Demo.args 1 1 1) 1 (1 # 2) (DemoRun.world [] []) in
  out r = Py.Ok tt /\
  files (fs (world r)) !! "runs/TripletNet/checkpoint.pth.tar"
    = Some (Demo.checkpoint 2 0 (1 # 2)) /\
  files (fs (world r)) !! "runs/TripletNet/model_best.pth.tar"
    = Some (Demo.checkpoint 2 0 (1 # 2)).
Proof.
  destruct (checkpoint_written_each_validation "runs" (Demo.args 1 1 1)
              (Demo.setup [] []) 1 (1 # 2) (DemoRun.world [] [])) as [[_ H] _].
  destruct H as (H1 & H2 & H3 & _).
  - vm_compute. reflexivity.
  - cbv zeta. split; [exact H1|]. split; [exact H2|exact H3].
Defined.

(** C6, counterexample: two epochs, validated each; the second validation
    returns the accuracy of the first, so nothing improved, and yet the
    checkpoint of the second cycle (epoch field 3) is on disk, next to the
    best copy kept from the first cycle (epoch field 2). *)
Lemma checkpoint_written_without_improvement :
  let r := main "runs" (Demo.args 2 1 5) (Demo.setup [(0, [])]%nat [(1, [3; 9])]%nat) in
  validation_accs (events r) = [(3 # 9)%Q; (3 # 9)%Q] /\
  best_flags (events r) = [(true, (3 # 9)%Q); (false, (3 # 9)%Q)] /\
  files (fs (world r)) !! "runs/TripletNet/checkpoint.pth.tar"
    = Some (Demo.checkpoint 3 2 (3 # 9)) /\
  files (fs (world r)) !! "runs/TripletNet/model_best.pth.tar"
    = Some (Demo.checkpoint 2 1 (3 # 9)).
Proof. cbv zeta. repeat split; vm_compute; reflexivity. Qed.

(** C9 (amended to count the initial best accuracy 0).  Across the
    validation cycles of one run the tracked best accuracy never decreases:
    a cycle with accuracy [a] moves it from [b] to [max(a, b)], and it
    starts at 0.  The [is_best] flag passed to [SaveCheckpoint] is true
    exactly when [a] strictly exceeds both 0 and every validation accuracy
    recorded before it. *)
Theorem best_accuracy_tracking {C : Collaborators} (runs_dir : string)
    (args : Args) (s : Setup) (pre post : list Q) (a : Q) :
  validation_accs (events (main runs_dir args s)) = pre ++ a :: post ->
  exists flag : bool,
    best_flags (events (main runs_dir args s)) !! length pre
      = Some (flag, Py.max a (final_best 0 pre)) /\
    (flag = true <-> (0 < a)%Q /\ Forall (fun x => (x < a)%Q) pre) /\
    (0 <= final_best 0 pre)%Q /\
    (final_best 0 pre <= Py.max a (final_best 0 pre))%Q.
Proof.
  intros H. exists (Py.gt a (final_best 0 pre)).
  split; [|split; [|split]].
  - rewrite main_tracks, H. apply track_best_lookup.
  - rewrite gt_spec. apply final_best_lt_iff.
  - apply final_best_ge.
  - apply max_ge_r.
Qed.

(** C9, witness: three epochs, validated each, with accuracies 1/3, 1/3
    and 2/3; the third cycle is the one looked at. *)
Lemma best_accuracy_tracking_witness :
  exists flag : bool,
    best_flags (events (main "runs" (Demo.args 3 1 5)
                          (Demo.setup [(0, [])]%nat [(1, [3; 9])]%nat)))
      !! length [(3 # 9)%Q; (3 # 9)%Q]
      = Some (flag, Py.max (6 # 9) (final_best 0 [(3 # 9)%Q; (3 # 9)%Q])) /\
    (flag = true <->
     (0 < 6 # 9)%Q /\ Forall (fun x => (x < 6 # 9)%Q) [(3 # 9)%Q; (3 # 9)%Q]) /\
    (0 <= final_best 0 [(3 # 9)%Q; (3 # 9)%Q])%Q /\
    (final_best 0 [(3 # 9)%Q; (3 # 9)%Q]
     <= Py.max (6 # 9) (final_best 0 [(3 # 9)%Q; (3 # 9)%Q]))%Q.
Proof.
  apply (best_accuracy_tracking "runs" (Demo.args 3 1 5)
           (Demo.setup [(0, [])]%nat [(1, [3; 9])]%nat)
           [(3 # 9)%Q; (3 # 9)%Q] [] (6 # 9)%Q).
  vm_compute. reflexivity.
Defined.

(** C9, counterexample: the first validation of a run returns accuracy 0.
    No validation accuracy was recorded before it, so it exceeds every one
    of them, and yet [is_best] is false, since 0 does not exceed the initial
    best accuracy. *)
Lemma first_validation_not_best :
  let r := main "runs" (Demo.args 1 1 5) (Demo.setup [(0, [])]%nat [(5, [])]%nat) in
  validation_accs (events r) = [] ++ [0%Q] /\
  Forall (fun x => (x < 0)%Q) (@nil Q) /\
  best_flags (events r) = [(false, 0%Q)].
Proof. cbv zeta. repeat split; try constructor; vm_compute; reflexivity. Qed.

(** ** The bounded collection of hardest records *)

Section HardestRecords.

Import HardMining.

Lemma insert_desc_length r l : length (insert_desc r l) = S (length l).
Proof.
  induction l as [|x l IH]; simpl; [reflexivity|].
  destruct (Py.gt _ _); simpl; [reflexivity|]. rewrite IH. reflexivity.
Qed.

Lemma insert_desc_perm r l : Permutation (insert_desc r l) (r :: l).
Proof.
  induction l as [|x l IH]; simpl; [reflexivity|].
  destruct (Py.gt _ _); [reflexivity|].
  rewrite IH. apply perm_swap.
Qed.

Lemma insert_desc_snoc_gt r l least :
  Py.gt (hardness r) (hardness least) = true ->
  insert_desc r (l ++ [least]) = insert_desc r l ++ [least].
Proof.
  intros H. induction l as [|x l IH]; simpl.
  - rewrite H. reflexivity.
  - destruct (Py.gt _ (hardness x)); [reflexivity|]. rewrite IH. reflexivity.
Qed.

Lemma insert_desc_none_gt r l :
  Forall (fun x => Py.gt (hardness r) (hardness x) = false) l ->
  insert_desc r l = l ++ [r].
Proof.
  induction 1 as [|x l Hx _ IH]; simpl; [reflexivity|].
  rewrite Hx, IH. reflexivity.
Qed.

Lemma insert_desc_sorted r l :
  StronglySorted harder_eq l -> StronglySorted harder_eq (insert_desc r l).
Proof.
  induction 1 as [|x l Hs IH Hx]; simpl.
  - repeat constructor.
  - destruct (Py.gt (hardness r) (hardness x)) eqn:E.
    + apply gt_spec in E. constructor; [constructor; assumption|].
      constructor; [apply Qlt_le_weak; exact E|].
      eapply Forall_impl; [exact Hx|]. intros y Hy. unfold harder_eq in *.
      eapply Qle_trans; [exact Hy|]. apply Qlt_le_weak. exact E.
    + apply gt_false in E. constructor; [exact IH|].
      rewrite (insert_desc_perm r l). constructor; assumption.
Qed.

Lemma sort_desc_from l rs :
  StronglySorted harder_eq l ->
  StronglySorted harder_eq (fold_left (fun acc r => insert_desc r acc) rs l) /\
  Permutation (fold_left (fun acc r => insert_desc r acc) rs l) (l ++ rs).
Proof.
  revert l. induction rs as [|r rs IH]; intros l Hl; simpl.
  - rewrite app_nil_r. split; [exact Hl|reflexivity].
  - destruct (IH (insert_desc r l) (insert_desc_sorted r l Hl)) as [Hs Hp].
    split; [exact Hs|]. rewrite Hp, insert_desc_perm.
    rewrite <- Permutation_middle. reflexivity.
Qed.

Lemma sort_desc_sorted rs : StronglySorted harder_eq (sort_desc rs).
Proof. apply sort_desc_from. constructor. Qed.

Lemma sort_desc_perm rs : Permutation (sort_desc rs) rs.
Proof. apply (sort_desc_from [] rs). constructor. Qed.

Lemma sorted_take (k : nat) l :
  StronglySorted harder_eq l -> StronglySorted harder_eq (take k l).
Proof.
  intros H. revert k. induction H as [|x l Hs IH Hx]; intros [|k]; simpl;
    try constructor.
  - apply IH.
  - apply Forall_take. exact Hx.
Qed.

Lemma sorted_last_least l least :
  StronglySorted harder_eq (l ++ [least]) ->
  Forall (fun x => harder_eq x least) l.
Proof.
  induction l as [|x l IH]; simpl; intros H; [constructor|].
  inversion H as [|? ? Hs Hx]; subst. constructor.
  - rewrite Forall_app in Hx. destruct Hx as [_ Hx].
    inversion Hx; assumption.
  - apply IH. exact Hs.
Qed.

Lemma take_insert_desc_take (cap : nat) r l :
  take cap (insert_desc r (take cap l)) = take cap (insert_desc r l).
Proof.
  revert cap. induction l as [|x l IH]; intros [|cap]; try reflexivity.
  cbn [take insert_desc].
  destruct (Py.gt (hardness r) (hardness x)).
  - cbn [take]. f_equal. destruct cap as [|cap]; [reflexivity|].
    cbn [take]. f_equal. rewrite take_take. f_equal. lia.
  - cbn [take]. f_equal. apply IH.
Qed.

Lemma insert_bounded_take (cap : nat) r l :
  StronglySorted harder_eq l ->
  (length l <= cap)%nat ->
  insert_bounded cap r l = take cap (insert_desc r l).
Proof.
  intros Hs Hlen. unfold insert_bounded.
  destruct (Nat.ltb_spec (length l) cap) as [Hlt|Hge].
  - rewrite take_ge; [reflexivity|]. rewrite insert_desc_length. lia.
  - assert (Hcap : length l = cap) by lia.
    destruct (last l) as [least|] eqn:El.
    + apply last_Some in El. destruct El as [l' ->].
      rewrite removelast_last.
      rewrite length_app in Hcap. simpl in Hcap.
      destruct (Py.gt (hardness r) (hardness least)) eqn:E.
      * rewrite (insert_desc_snoc_gt _ _ _ E).
        replace cap with (length (insert_desc r l'))
          by (rewrite insert_desc_length; lia).
        rewrite take_app_length. reflexivity.
      * rewrite insert_desc_none_gt.
        -- replace cap with (length (l' ++ [least]))
             by (rewrite length_app; simpl; lia).
           rewrite take_app_length. reflexivity.
        -- apply gt_false in E. apply Forall_app. split.
           ++ eapply Forall_impl; [apply (sorted_last_least _ _ Hs)|].
              intros x Hx. apply gt_false. unfold harder_eq in Hx.
              eapply Qle_trans; eassumption.
           ++ repeat constructor. apply gt_false. exact E.
    + apply last_None in El. subst l. simpl in Hcap. subst cap. reflexivity.
Qed.

Lemma insert_each_take (cap : nat) rs l :
  StronglySorted harder_eq l ->
  insert_each cap rs (take cap l) =
  take cap (fold_left (fun acc r => insert_desc r acc) rs l).
Proof.
  revert l. induction rs as [|r rs IH]; intros l Hs; [reflexivity|].
  unfold insert_each in *. cbn [fold_left].
  rewrite insert_bounded_take.
  - rewrite take_insert_desc_take. apply IH. apply insert_desc_sorted. exact Hs.
  - apply sorted_take. exact Hs.
  - rewrite length_take. lia.
Qed.

Lemma insert_each_top (cap : nat) rs :
  insert_each cap rs [] = take cap (sort_desc rs).
Proof.
  pose proof (insert_each_take cap rs [] (SSorted_nil _)) as H.
  rewrite take_nil in H. exact H.
Qed.

Lemma insert_bounded_length (cap : nat) r l :
  (length l <= cap)%nat -> (length (insert_bounded cap r l) <= cap)%nat.
Proof.
  intros H. unfold insert_bounded.
  destruct (Nat.ltb_spec (length l) cap) as [Hlt|Hge].
  - rewrite insert_desc_length. lia.
  - destruct (last l) as [least|] eqn:El; [|exact H].
    apply last_Some in El. destruct El as [l' ->].
    destruct (Py.gt _ _); [|exact H].
    rewrite removelast_last, insert_desc_length.
    rewrite length_app in H. simpl in H. lia.
Qed.

Lemma insert_bounded_sorted (cap : nat) r l :
  StronglySorted harder_eq l ->
  (length l <= cap)%nat ->
  StronglySorted harder_eq (insert_bounded cap r l).
Proof.
  intros Hs Hlen. rewrite (insert_bounded_take cap r l Hs Hlen).
  apply sorted_take. apply insert_desc_sorted. exact Hs.
Qed.

End HardestRecords.

(** ** The sampler over a sequence of calls *)

Section SamplerRuns.

Import HardMining.

Variable class_of : Z -> Z.

Abbreviation class r := (class_of (fst (fst (triplet r)))).

Lemma insert_one_inr s r s' :
  insert_one class_of s r = inr s' ->
  0 <= class r < Z.of_nat (num_classes s) /\
  exists l,
    hardest s !! Z.to_nat (class r) = Some l /\
    s' = {| num_classes := num_classes s;
            capacity := capacity s;
            hardest := <[ Z.to_nat (class r) := insert_bounded (capacity s) r l ]>
                         (hardest s) |}.
Proof.
  unfold insert_one.
  destruct (Z.ltb_spec (class r) 0) as [Hlo|Hlo]; simpl; [discriminate|].
  destruct (Z.leb_spec (Z.of_nat (num_classes s)) (class r)) as [Hhi|Hhi]; simpl;
    [discriminate|].
  destruct (hardest s !! Z.to_nat (class r)) as [l|]; [|discriminate].
  intros H. inversion H. split; [lia|]. exists l. auto.
Qed.

Lemma insert_one_ok s r :
  length (hardest s) = num_classes s ->
  0 <= class r < Z.of_nat (num_classes s) ->
  exists s', insert_one class_of s r = inr s' /\
             length (hardest s') = num_classes s' /\
             num_classes s' = num_classes s.
Proof.
  intros Hlen Hr. unfold insert_one.
  destruct (Z.ltb_spec (class r) 0) as [Hlo|Hlo]; [lia|].
  destruct (Z.leb_spec (Z.of_nat (num_classes s)) (class r)) as [Hhi|Hhi]; [lia|]. simpl.
  destruct (lookup_lt_is_Some_2 (hardest s) (Z.to_nat (class r))) as [l Hl]; [lia|].
  rewrite Hl. eexists. split; [reflexivity|]. simpl.
  rewrite length_insert. auto.
Qed.

Lemma insert_all_ok rs : forall s,
  length (hardest s) = num_classes s ->
  Forall (fun r => 0 <= class r < Z.of_nat (num_classes s)) rs ->
  exists s', insert_all class_of s rs = inr s' /\
             length (hardest s') = num_classes s' /\
             num_classes s' = num_classes s.
Proof.
  induction rs as [|r rs IH]; intros s Hlen Hall; simpl.
  - exists s. auto.
  - inversion Hall as [|? ? Hr Hrs]; subst.
    destruct (insert_one_ok s r Hlen Hr) as (s1 & E & Hlen1 & Hn1).
    rewrite E. destruct (IH s1 Hlen1) as (s' & E' & Hlen' & Hn').
    { rewrite Hn1. exact Hrs. }
    exists s'. split; [exact E'|]. split; [exact Hlen'|congruence].
Qed.

Lemma insert_all_inr rs : forall s s',
  insert_all class_of s rs = inr s' ->
  capacity s' = capacity s /\
  num_classes s' = num_classes s /\
  (Forall (fun l => (length l <= capacity s)%nat /\ StronglySorted harder_eq l)
          (hardest s) ->
   Forall (fun l => (length l <= capacity s)%nat /\ StronglySorted harder_eq l)
          (hardest s')) /\
  (forall c l, 0 <= c ->
     hardest s !! Z.to_nat c = Some l ->
     hardest s' !! Z.to_nat c =
     Some (insert_each (capacity s)
             (List.filter (fun r => class r =? c) rs) l)).
Proof.
  induction rs as [|r rs IH]; intros s s' H; simpl in H.
  - inversion H; subst. repeat split; auto.
  - destruct (insert_one class_of s r) as [e|s1] eqn:E1; [discriminate|].
    destruct (insert_one_inr _ _ _ E1) as (Hr & l0 & Hl0 & ->).
    destruct (IH _ _ H) as (Hcap & Hn & Hsize & Hlook).
    cbn [capacity num_classes hardest] in *.
    split; [exact Hcap|]. split; [exact Hn|]. split.
    + intros Hall. apply Hsize. apply Forall_insert; [exact Hall|].
      destruct (proj1 (Forall_lookup _ _) Hall _ _ Hl0) as [Hlen Hsorted].
      split; [apply insert_bounded_length; exact Hlen|].
      apply insert_bounded_sorted; assumption.
    + intros c l Hc Hl. cbn [List.filter]. cbv beta.
      destruct (Z.eqb_spec (class r) c) as [Heq|Hne]; [subst c|].
      * rewrite Hl in Hl0. inversion Hl0; subst l0.
        rewrite (Hlook _ (insert_bounded (capacity s) r l) Hc); [reflexivity|].
        apply list_lookup_insert_eq. apply lookup_lt_Some in Hl. exact Hl.
      * rewrite (Hlook c l Hc); [reflexivity|].
        rewrite list_lookup_insert_ne; [exact Hl|]. lia.
Qed.

Lemma insert_all_app rs1 rs2 s :
  insert_all class_of s (rs1 ++ rs2) =
  match insert_all class_of s rs1 with
  | inr s1 => insert_all class_of s1 rs2
  | inl e => inl e
  end.
Proof.
  revert s. induction rs1 as [|r rs1 IH]; intros s; simpl; [reflexivity|].
  destruct (insert_one class_of s r); [reflexivity|apply IH].
Qed.

Lemma sample_all_inr calls : forall s s',
  sample_all class_of s calls = inr s' ->
  insert_all class_of s (concat (map batch_records calls)) = inr s'.
Proof.
  induction calls as [|b calls IH]; intros s s' H; simpl in *; [exact H|].
  unfold SampleNegatives in H.
  destruct (same_lengths b); [|discriminate].
  rewrite insert_all_app.
  destruct (insert_all class_of s (batch_records b)); [discriminate|].
  apply IH. exact H.
Qed.

Lemma sample_all_ok calls : forall s,
  length (hardest s) = num_classes s ->
  well_formed_calls class_of (num_classes s) calls ->
  exists s', sample_all class_of s calls = inr s'.
Proof.
  induction calls as [|b calls IH]; intros s Hlen Hwf; simpl.
  - exists s. reflexivity.
  - inversion Hwf as [|? ? [Hsame Hrs] Hrest]; subst.
    unfold SampleNegatives. rewrite Hsame.
    destruct (insert_all_ok _ s Hlen Hrs) as (s1 & E & Hlen1 & Hn1).
    rewrite E. apply IH; [exact Hlen1|]. rewrite Hn1. exact Hrest.
Qed.

Lemma HardestForClass_inr s c l :
  HardestForClass s c = inr l -> 0 <= c /\ hardest s !! Z.to_nat c = Some l.
Proof.
  unfold HardestForClass.
  destruct (Z.ltb_spec c 0) as [Hlo|Hlo]; simpl; [discriminate|].
  destruct (Z.leb_spec (Z.of_nat (num_classes s)) c) as [Hhi|Hhi]; simpl; [discriminate|].
  destruct (hardest s !! Z.to_nat c); [|discriminate].
  intros H. inversion H. subst. auto.
Qed.

Lemma Construct_inr n cap s0 :
  Construct n cap = inr s0 ->
  0 < n /\ 0 < cap /\ num_classes s0 = Z.to_nat n /\ capacity s0 = Z.to_nat cap /\
  hardest s0 = replicate (Z.to_nat n) [].
Proof.
  unfold Construct.
  destruct (Z.leb_spec n 0) as [Hn|Hn]; simpl; [discriminate|].
  destruct (Z.leb_spec cap 0) as [Hc|Hc]; simpl; [discriminate|].
  intros H. inversion H. simpl. auto.
Qed.

End SamplerRuns.

Lemma sorted_distinct_strict (l : list HardMining.HardRecord) :
  StronglySorted HardMining.harder_eq l ->
  HardMining.distinct_hardness l ->
  StronglySorted HardMining.harder l.
Proof.
  unfold HardMining.distinct_hardness.
  induction 1 as [|x l Hs IH Hx]; intros Hd; [constructor|].
  simpl in Hd. apply NoDup_cons in Hd. destruct Hd as [Hnot Hd].
  constructor; [apply IH; exact Hd|].
  apply Forall_forall. intros y Hy.
  pose proof (proj1 (Forall_forall _ _) Hx y Hy) as Hle.
  unfold HardMining.harder, HardMining.harder_eq in *.
  apply Qle_lteq in Hle. destruct Hle as [Hlt|Heq]; [exact Hlt|].
  exfalso. apply Hnot. apply list_elem_of_fmap. exists y. split; [|exact Hy].
  apply Qred_complete. symmetry. exact Heq.
Qed.

Lemma strict_last_least (l : list HardMining.HardRecord) least :
  StronglySorted HardMining.harder (l ++ [least]) ->
  StronglySorted HardMining.harder l /\
  Forall (fun x => HardMining.harder x least) l.
Proof.
  induction l as [|x l IH]; simpl; intros H; [split; constructor|].
  inversion H as [|? ? Hs Hx]; subst.
  destruct (IH Hs) as [Hl Hleast].
  rewrite Forall_app in Hx. destruct Hx as [Hxl Hxleast].
  split; constructor; try assumption. inversion Hxleast; assumption.
Qed.

(** C7.  Whatever calls a sampler has taken, no class holds more than
    [capacity] records, and it holds them hardest first; an insertion that
    arrives at capacity displaces the last, least hard record if the new one
    is harder, and otherwise changes nothing; and once [capacity + 1] records
    of distinct hardness have arrived for one class, [HardestForClass]
    returns all of them but the least hard, hardest first. *)
Theorem hardest_records_bounded (class_of : Z -> Z) (n cap : Z)
    (s0 : HardMining.Sampler) (calls : list HardMining.Batch) (c : Z) :
  HardMining.Construct n cap = inr s0 ->
  HardMining.well_formed_calls class_of (HardMining.num_classes s0) calls ->
  0 <= c < n ->
  length (HardMining.class_records class_of c calls) = S (HardMining.capacity s0) ->
  HardMining.distinct_hardness (HardMining.class_records class_of c calls) ->
  (forall calls' s' c' l,
     HardMining.sample_all class_of s0 calls' = inr s' ->
     HardMining.HardestForClass s' c' = inr l ->
     (length l <= HardMining.capacity s0)%nat /\
     StronglySorted HardMining.harder_eq l) /\
  (forall r l least,
     length l = HardMining.capacity s0 ->
     last l = Some least ->
     if Py.gt (HardMining.hardness r) (HardMining.hardness least)
     then Permutation
            (least :: HardMining.insert_bounded (HardMining.capacity s0) r l) (r :: l)
     else HardMining.insert_bounded (HardMining.capacity s0) r l = l) /\
  exists s l dropped,
    HardMining.sample_all class_of s0 calls = inr s /\
    HardMining.HardestForClass s c = inr l /\
    l = take (HardMining.capacity s0)
          (HardMining.sort_desc (HardMining.class_records class_of c calls)) /\
    StronglySorted HardMining.harder l /\
    Permutation (HardMining.class_records class_of c calls) (l ++ [dropped]) /\
    Forall (fun x => HardMining.harder x dropped) l.
Proof.
  intros Hcons Hwf Hc Hlen Hdist.
  destruct (Construct_inr _ _ _ Hcons) as (Hn & Hcap & Hnum & Hcapacity & Hhard).
  assert (Hlen0 : length (HardMining.hardest s0) = HardMining.num_classes s0).
  { rewrite Hhard, Hnum. apply length_replicate. }
  split; [|split].
  - intros calls' s' c' l Hrun Hget.
    apply sample_all_inr in Hrun.
    destruct (insert_all_inr _ _ _ _ Hrun) as (_ & _ & Hsize & _).
    destruct (HardestForClass_inr _ _ _ Hget) as [_ Hl].
    refine (proj1 (Forall_lookup _ _) (Hsize _) _ _ Hl).
    rewrite Hhard. apply Forall_replicate. simpl. split; [lia|constructor].
  - intros r l least Hl Hlast. unfold HardMining.insert_bounded.
    rewrite Hl, Nat.ltb_irrefl, Hlast.
    destruct (Py.gt _ _); [|reflexivity].
    apply last_Some in Hlast. destruct Hlast as [l' ->].
    rewrite removelast_last, insert_desc_perm.
    transitivity (r :: least :: l'); [apply perm_swap|].
    apply perm_skip. apply Permutation_cons_append.
  - set (rs := HardMining.class_records class_of c calls) in *.
    destruct (sample_all_ok class_of calls s0 Hlen0 Hwf) as [s Hrun].
    pose proof (sample_all_inr _ _ _ _ Hrun) as Hins.
    destruct (insert_all_inr _ _ _ _ Hins) as (_ & Hnum' & _ & Hlook).
    assert (Hl : HardMining.hardest s !! Z.to_nat c =
                 Some (take (HardMining.capacity s0) (HardMining.sort_desc rs))).
    { rewrite (Hlook c [] (proj1 Hc)).
      - fold (HardMining.class_records class_of c calls). fold rs.
        rewrite insert_each_top. reflexivity.
      - rewrite Hhard. apply lookup_replicate_2. lia. }
    pose proof (sort_desc_perm rs) as Hperm.
    pose proof (sort_desc_sorted rs) as Hsorted.
    assert (Hstrict : StronglySorted HardMining.harder (HardMining.sort_desc rs)).
    { apply sorted_distinct_strict; [exact Hsorted|].
      unfold HardMining.distinct_hardness in *.
      rewrite Hperm. exact Hdist. }
    assert (Hsplit : exists dropped,
               HardMining.sort_desc rs =
               take (HardMining.capacity s0) (HardMining.sort_desc rs) ++ [dropped]).
    { pose proof (Permutation_length Hperm) as Hlen'. rewrite Hlen in Hlen'.
      pose proof (take_drop (HardMining.capacity s0) (HardMining.sort_desc rs)) as Htd.
      pose proof (length_drop (HardMining.sort_desc rs) (HardMining.capacity s0)) as Hd.
      destruct (drop (HardMining.capacity s0) (HardMining.sort_desc rs))
        as [|d [|d' rest]] eqn:Ed; simpl in Hd; try lia.
      exists d. symmetry. exact Htd. }
    destruct Hsplit as [dropped Hsplit].
    exists s, (take (HardMining.capacity s0) (HardMining.sort_desc rs)), dropped.
    split; [exact Hrun|]. split.
    { unfold HardMining.HardestForClass. rewrite Hnum', Hnum.
      destruct (Z.ltb_spec c 0) as [Hlo|Hlo]; [lia|].
      destruct (Z.leb_spec (Z.of_nat (Z.to_nat n)) c) as [Hhi|Hhi]; [lia|].
      simpl. rewrite Hl. reflexivity. }
    split; [reflexivity|].
    rewrite Hsplit in Hstrict. destruct (strict_last_least _ _ Hstrict) as [H1 H2].
    split; [exact H1|]. split; [|exact H2].
    rewrite <- Hsplit. symmetry. exact Hperm.
Qed.

(** C7, witness: capacity 3 and five reported triplets, four of them of
    class 0 with hardness 0.1, 0.5, 0.9 and 0.3. *)
Lemma hardest_records_bounded_witness :
  exists s l dropped,
    HardMining.sample_all SamplerDemo.class_of
      (HardMining.mkSampler 2 3 [[]; []]) SamplerDemo.calls = inr s /\
    HardMining.HardestForClass s 0 = inr l /\
    l = take 3 (HardMining.sort_desc
                  (HardMining.class_records SamplerDemo.class_of 0 SamplerDemo.calls)) /\
    StronglySorted HardMining.harder l /\
    Permutation (HardMining.class_records SamplerDemo.class_of 0 SamplerDemo.calls)
      (l ++ [dropped]) /\
    Forall (fun x => HardMining.harder x dropped) l.
Proof.
  apply (hardest_records_bounded SamplerDemo.class_of 2 3
           (HardMining.mkSampler 2 3 [[]; []]) SamplerDemo.calls 0).
  - reflexivity.
  - repeat constructor; vm_compute; congruence.
  - lia.
  - reflexivity.
  - unfold HardMining.distinct_hardness. vm_compute.
    repeat (constructor; [intros H; repeat (apply elem_of_cons in H as [H|H]; [discriminate H|]); inversion H|]).
    constructor.
Defined.

(** * Further properties of the code *)

(** ** [AverageMeter]: weighted means *)

Lemma positive_counts_nonzero (calls : list (Q * Z)) (c : Z) :
  0 <= c -> Forall (fun p => 0 < snd p) calls -> counts_nonzero c calls.
Proof.
  intros Hc H. revert c Hc.
  induction H as [|[v n] rest Hn _ IH]; intros c Hc; simpl; [exact I|].
  simpl in Hn. split; [lia|]. apply IH. lia.
Qed.

Lemma weight_total_pos (calls : list (Q * Z)) :
  calls <> [] -> Forall (fun p => 0 < snd p) calls -> 0 < weight_total calls.
Proof.
  intros Hne H. destruct H as [|[v n] rest Hn Hrest]; [congruence|].
  simpl in *. clear Hne.
  assert (0 <= weight_total rest); [|lia].
  induction Hrest as [|[v' n'] r' Hn' _ IH]; simpl in *; lia.
Qed.

Lemma weighted_sum_between (calls : list (Q * Z)) (lo hi : Q) :
  Forall (fun p => 0 < snd p) calls ->
  Forall (fun p => (lo <= fst p)%Q /\ (fst p <= hi)%Q) calls ->
  (lo * inject_Z (weight_total calls) <= weighted_sum calls)%Q /\
  (weighted_sum calls <= hi * inject_Z (weight_total calls))%Q.
Proof.
  intros Hpos Hval. induction calls as [|[v n] rest IH]; simpl.
  - split; rewrite Qmult_0_r; apply Qle_refl.
  - inversion Hpos as [|? ? Hn Hpos']; inversion Hval as [|? ? [Hlo Hhi] Hval']; subst.
    simpl in *. destruct (IH Hpos' Hval') as [IHlo IHhi].
    assert (Hq : (0 <= inject_Z n)%Q).
    { change 0%Q with (inject_Z 0). rewrite <- Zle_Qle. lia. }
    rewrite inject_Z_plus. split.
    + rewrite Qmult_plus_distr_r. apply Qplus_le_compat; [|exact IHlo].
      apply Qmult_le_compat_r; assumption.
    + rewrite Qmult_plus_distr_r. apply Qplus_le_compat; [|exact IHhi].
      apply Qmult_le_compat_r; assumption.
Qed.

(** X1.  After a reset, any non-empty sequence of updates with positive
    weights, whose values lie between two integers [lo] and [hi], returns,
    and the average it leaves lies between [lo] and [hi] -- the total weight
    being small enough for the products of the bounds and the weights to be
    exact doubles (at most [2^53]). *)
Theorem AverageMeter_mean_between (m0 : AverageMeter) (calls : list (Q * Z))
    (lo hi : Z) :
  calls <> [] ->
  Forall (fun p => 0 < snd p) calls ->
  Forall (fun p => (inject_Z lo <= fst p)%Q /\ (fst p <= inject_Z hi)%Q) calls ->
  Z.max 1 (Z.max (Z.abs lo) (Z.abs hi)) * weight_total calls <= 2 ^ 53 ->
  exists m,
    Meter.updates (Meter.reset m0) calls = (Py.Ok tt, m) /\
    (inject_Z lo <= avg m)%Q /\ (avg m <= inject_Z hi)%Q.
Proof.
  intros Hne Hpos Hval _.
  destruct (updates_from calls (Meter.reset m0)) as (m & Hrun & Hsum & Hcount & _ & Hcons).
  { apply positive_counts_nonzero; [simpl; lia|exact Hpos]. }
  destruct (Hcons Hne) as [_ Havg].
  exists m. split; [exact Hrun|].
  simpl in Hsum, Hcount.
  pose proof (weight_total_pos calls Hne Hpos) as Hw.
  destruct (weighted_sum_between calls (inject_Z lo) (inject_Z hi) Hpos Hval) as [Hlo Hhi].
  assert (Hq : (0 < inject_Z (count m))%Q).
  { change 0%Q with (inject_Z 0). rewrite <- Zlt_Qlt. lia. }
  rewrite Havg, Hcount, Z.add_0_l in *. rewrite Hsum, Qplus_0_l.
  split.
  - apply Qle_shift_div_l; assumption.
  - apply Qle_shift_div_r; assumption.
Qed.

(** X1, witness: three batches with accuracies between 0 and 1. *)
Lemma AverageMeter_mean_between_witness :
  exists m,
    Meter.updates (Meter.reset Meter.new)
      [((1 # 4)%Q, 64%Z); ((3 # 4)%Q, 64%Z); ((1 # 2)%Q, 10%Z)] = (Py.Ok tt, m) /\
    (inject_Z 0 <= avg m)%Q /\ (avg m <= inject_Z 1)%Q.
Proof.
  apply (AverageMeter_mean_between Meter.new
           [((1 # 4)%Q, 64%Z); ((3 # 4)%Q, 64%Z); ((1 # 2)%Q, 10%Z)] 0 1).
  - discriminate.
  - repeat constructor.
  - repeat constructor; simpl; discriminate.
  - vm_compute. discriminate.
Defined.

(** X3.  An update that raises is not rolled back: when the weight brings
    the count to zero, the call raises ZeroDivisionError with the last
    value, the sum and the count already written and the average as it was;
    the next update with a non-zero weight returns, and its average still
    carries the contribution of the call that raised. *)
Theorem AverageMeter_failed_update_stays (m : AverageMeter) (v v' : Q) (n n' : Z) :
  count m + n = 0 ->
  n' <> 0 ->
  fst (Meter.update m v n) = Py.Raise Py.ZeroDivisionError /\
  val (snd (Meter.update m v n)) = v /\
  avg (snd (Meter.update m v n)) = avg m /\
  count (snd (Meter.update m v n)) = 0 /\
  exists m2,
    Meter.update (snd (Meter.update m v n)) v' n' = (Py.Ok tt, m2) /\
    count m2 = n' /\
    (avg m2 == (sum m + v * inject_Z n + v' * inject_Z n') / inject_Z n')%Q.
Proof.
  intros H0 Hn'. rewrite (update_raise m v n H0). cbn [fst snd val avg count sum].
  repeat split; try assumption.
  eexists. split; [apply update_ok; cbn [count]; lia|].
  cbn [count avg sum]. rewrite H0, Z.add_0_l. split; reflexivity.
Qed.

(** X3, witness: a meter holding one value of weight 2 is updated with
    weight -2, then with weight 4. *)
Lemma AverageMeter_failed_update_stays_witness :
  fst (Meter.update (mkMeter 1 1 2 2) 3 (-2)) = Py.Raise Py.ZeroDivisionError /\
  val (snd (Meter.update (mkMeter 1 1 2 2) 3 (-2))) = 3%Q /\
  avg (snd (Meter.update (mkMeter 1 1 2 2) 3 (-2))) = avg (mkMeter 1 1 2 2) /\
  count (snd (Meter.update (mkMeter 1 1 2 2) 3 (-2))) = 0 /\
  exists m2,
    Meter.update (snd (Meter.update (mkMeter 1 1 2 2) 3 (-2))) 5 4 = (Py.Ok tt, m2) /\
    count m2 = 4 /\
    (avg m2 == (sum (mkMeter 1 1 2 2) + 3 * inject_Z (-2) + 5 * inject_Z 4)
               / inject_Z 4)%Q.
Proof.
  apply (AverageMeter_failed_update_stays (mkMeter 1 1 2 2) 3 5 (-2) 4).
  - reflexivity.
  - discriminate.
Defined.

(** ** [LossAccuracy]: ties, direction and invariance *)

Lemma gt_iff (a b c d : Q) :
  ((b < a)%Q <-> (d < c)%Q) -> Py.gt a b = Py.gt c d.
Proof.
  intros H. destruct (Py.gt a b) eqn:E1, (Py.gt c d) eqn:E2; try reflexivity.
  - apply gt_spec in E1. apply H in E1. apply gt_spec in E1. congruence.
  - apply gt_spec in E2. apply H in E2. apply gt_spec in E2. congruence.
Qed.

Lemma gt_difference (x y : Q) : Py.gt (x - y - 0) 0 = Py.gt x y.
Proof.
  assert (E : (x - y - 0 == x + - y)%Q) by ring.
  apply gt_iff. rewrite E. symmetry. apply Qlt_minus_iff.
Qed.

Lemma correctly_ranked_both (a b : list Q) :
  length a = length b ->
  correctly_ranked a b + correctly_ranked b a <= Z.of_nat (length a) /\
  (Forall2 (fun x y => ~ (x == y)%Q) a b ->
   correctly_ranked a b + correctly_ranked b a = Z.of_nat (length a)) /\
  (Forall2 Qeq a b -> correctly_ranked a b = 0 /\ correctly_ranked b a = 0).
Proof.
  unfold correctly_ranked. revert b.
  induction a as [|x a IH]; intros [|y b] Hlen; simpl in Hlen; try lia.
  - simpl. repeat split; lia.
  - destruct (IH b) as (IHle & IHne & IHeq); [lia|].
    cbn [combine List.filter fst snd]. rewrite !gt_difference.
    destruct (Py.gt x y) eqn:Exy, (Py.gt y x) eqn:Eyx; cbn [length];
      try apply gt_spec in Exy; try apply gt_spec in Eyx;
      try apply gt_false in Exy; try apply gt_false in Eyx.
    + exfalso. exact (Qlt_irrefl _ (Qlt_trans _ _ _ Exy Eyx)).
    + split; [lia|]. split.
      * intros H. inversion H; subst. specialize (IHne ltac:(assumption)). lia.
      * intros H. inversion H as [|? ? ? ? Hxy]; subst. exfalso.
        rewrite Hxy in Exy. exact (Qlt_irrefl _ Exy).
    + split; [lia|]. split.
      * intros H. inversion H; subst. specialize (IHne ltac:(assumption)). lia.
      * intros H. inversion H as [|? ? ? ? Hxy]; subst. exfalso.
        rewrite Hxy in Eyx. exact (Qlt_irrefl _ Eyx).
    + split; [lia|]. split.
      * intros H. inversion H as [|? ? ? ? Hxy]; subst. exfalso.
        apply Hxy. apply Qle_antisym; assumption.
      * intros H. inversion H; subst. apply IHeq. assumption.
Qed.

(** X4.  The comparison is strict and directed.  For equal-length,
    non-empty vectors the accuracy of [(dista, distb)] and the accuracy of
    the swapped pair add up to at most 1, and to exactly 1 when no triplet
    is tied; a tied triplet counts as wrong in both directions, so equal
    vectors have accuracy 0. *)
Theorem LossAccuracy_swap (dista distb : list Q) :
  length dista = length distb ->
  dista <> [] ->
  exists r r' : Q,
    LossAccuracy dista distb = Py.Ok r /\
    LossAccuracy distb dista = Py.Ok r' /\
    (r + r' <= 1)%Q /\
    (Forall2 (fun x y => ~ (x == y)%Q) dista distb -> (r + r' == 1)%Q) /\
    (Forall2 Qeq dista distb -> (r == 0)%Q /\ (r' == 0)%Q).
Proof.
  intros Hlen Hne.
  assert (Hne' : distb <> []) by (destruct dista, distb; simpl in *; congruence).
  rewrite (LossAccuracy_value _ _ Hlen Hne).
  rewrite (LossAccuracy_value _ _ (eq_sym Hlen) Hne').
  eexists. eexists. split; [reflexivity|]. split; [reflexivity|].
  destruct (correctly_ranked_both dista distb Hlen) as (Hle & Hno & Heq).
  rewrite <- Hlen.
  set (n := Z.of_nat (length dista)) in *.
  set (k := correctly_ranked dista distb) in *.
  set (k' := correctly_ranked distb dista) in *.
  assert (Hn : 0 < n) by (subst n; destruct dista; [congruence|simpl; lia]).
  assert (Hq : (0 < inject_Z n)%Q).
  { change 0%Q with (inject_Z 0). rewrite <- Zlt_Qlt. exact Hn. }
  assert (Hq0 : ~ (inject_Z n == 0)%Q) by (rewrite inject_Z_eq0; lia).
  assert (Hsum : (inject_Z k * 1 / inject_Z n + inject_Z k' * 1 / inject_Z n
                  == inject_Z (k + k') / inject_Z n)%Q).
  { rewrite inject_Z_plus. field. exact Hq0. }
  split; [|split].
  - rewrite Hsum. apply Qle_shift_div_r; [exact Hq|].
    rewrite Qmult_1_l, <- Zle_Qle. exact Hle.
  - intros H. rewrite Hsum, (Hno H). field. exact Hq0.
  - intros H. destruct (Heq H) as [-> ->]. split; field; exact Hq0.
Qed.

(** X4, witness: one triplet ranked correctly, one wrongly, one tied. *)
Lemma LossAccuracy_swap_witness :
  exists r r' : Q,
    LossAccuracy [3; 1; 2]%Q [1; 2; 2]%Q = Py.Ok r /\
    LossAccuracy [1; 2; 2]%Q [3; 1; 2]%Q = Py.Ok r' /\
    (r + r' <= 1)%Q /\
    (Forall2 (fun x y => ~ (x == y)%Q) [3; 1; 2]%Q [1; 2; 2]%Q -> (r + r' == 1)%Q) /\
    (Forall2 Qeq [3; 1; 2]%Q [1; 2; 2]%Q -> (r == 0)%Q /\ (r' == 0)%Q).
Proof.
  apply (LossAccuracy_swap [3; 1; 2]%Q [1; 2; 2]%Q).
  - reflexivity.
  - discriminate.
Defined.

Lemma correctly_ranked_order (a b a' b' : list Q) :
  Forall2 (fun p p' => Py.gt (fst p) (snd p) = Py.gt (fst p') (snd p'))
    (combine a b) (combine a' b') ->
  correctly_ranked a b = correctly_ranked a' b'.
Proof.
  unfold correctly_ranked. intros H. f_equal.
  induction H as [|[x y] [x' y'] l l' Hxy _ IH]; [reflexivity|].
  cbn [List.filter fst snd] in *. rewrite !gt_difference, Hxy.
  destruct (Py.gt x' y'); cbn [length]; rewrite IH; reflexivity.
Qed.

(** X5.  The accuracy depends on the order of the two distances of each
    triplet only: two non-empty batches of the same size whose triplets
    compare alike, position by position ([dista[i] > distb[i]] in one
    exactly when in the other), have the same accuracy. *)
Theorem LossAccuracy_order_only (dista distb dista' distb' : list Q) :
  length dista = length distb ->
  length dista' = length distb' ->
  length dista = length dista' ->
  dista <> [] ->
  Forall2 (fun p p' => Py.gt (fst p) (snd p) = Py.gt (fst p') (snd p'))
    (combine dista distb) (combine dista' distb') ->
  exists r : Q,
    LossAccuracy dista distb = Py.Ok r /\
    LossAccuracy dista' distb' = Py.Ok r.
Proof.
  intros Hlen Hlen' Hsame Hne Hcmp.
  assert (Hne' : dista' <> []) by (destruct dista, dista'; simpl in *; congruence).
  rewrite (LossAccuracy_value _ _ Hlen Hne), (LossAccuracy_value _ _ Hlen' Hne').
  rewrite (correctly_ranked_order _ _ _ _ Hcmp), Hsame.
  eexists. split; reflexivity.
Qed.

(** X5, witness: two batches of three triplets, the first ranked correctly,
    the second wrongly, the third tied, in both. *)
Lemma LossAccuracy_order_only_witness :
  exists r : Q,
    LossAccuracy [3; 1; 2]%Q [1; 2; 2]%Q = Py.Ok r /\
    LossAccuracy [10; 0; 5]%Q [9; 7; 5]%Q = Py.Ok r.
Proof.
  apply (LossAccuracy_order_only [3; 1; 2]%Q [1; 2; 2]%Q [10; 0; 5]%Q [9; 7; 5]%Q).
  - reflexivity.
  - reflexivity.
  - reflexivity.
  - discriminate.
  - repeat constructor.
Defined.

(** ** [Train]: one batch, and the epoch as a whole *)

(** X6.  An epoch over an empty loader returns accuracy 0, the average of a
    meter that was never updated: the model is switched to train mode, and
    neither the loss, nor the sampler, nor the optimizer is called. *)
Theorem Train_empty_loader {C : Collaborators} (args : Args) (epoch : Z) (w : World) :
  Train_batches args w = [] ->
  out (Train args epoch w) = Py.Ok 0%Q /\
  events (Train args epoch w) = [Call_Train epoch] /\
  tnet (world (Train args epoch w)) = tnet_train (tnet w) /\
  sampler (world (Train args epoch w)) = sampler w.
Proof.
  intros H. rewrite Train_run, H. cbn. auto.
Qed.

(** X6, witness: an empty training set. *)
Lemma Train_empty_loader_witness :
  out (Train (Demo.args 1 1 1) 1 (DemoRun.world [] [])) = Py.Ok 0%Q /\
  events (Train (Demo.args 1 1 1) 1 (DemoRun.world [] [])) = [Call_Train 1] /\
  tnet (world (Train (Demo.args 1 1 1) 1 (DemoRun.world [] [])))
    = tnet_train (tnet (DemoRun.world [] [])) /\
  sampler (world (Train (Demo.args 1 1 1) 1 (DemoRun.world [] [])))
    = sampler (DemoRun.world [] []).
Proof.
  apply (Train_empty_loader (Demo.args 1 1 1) 1 (DemoRun.world [] [])).
  reflexivity.
Defined.

(** X7.  With [log_interval = 0] an epoch over a non-empty loader raises
    ZeroDivisionError at its first batch, and only at the logging test:
    by then the loss was computed, the sampler has taken the batch and the
    optimizer has stepped, and these effects stay. *)
Theorem Train_zero_log_interval {C : Collaborators} (args : Args) (epoch : Z)
    (w : World) (b : Batch) (rest : list Batch) :
  log_interval args = 0 ->
  Train_batches args w = b :: rest ->
  batch_ok b (Train_entry args w) ->
  out (Train args epoch w) = Py.Raise Py.ZeroDivisionError /\
  events (Train args epoch w) =
    Call_Train epoch :: training_calls args b (Train_entry args w) /\
  world (Train args epoch w) = trained_on args b (Train_entry args w).
Proof.
  intros Hli Hb Hok. rewrite Train_run, Hb. cbn [Train_loop].
  rewrite (bind_raise _ _ _ _ _ _
             (Train_batch_zero_interval args epoch Train_meters 0 b _ Hli Hok
                ltac:(repeat split; simpl; lia))).
  cbn. auto.
Qed.

(** X7, witness: one batch of two triplets and [log_interval = 0]. *)
Lemma Train_zero_log_interval_witness :
  out (Train (DemoRun.args_logging 0) 1 (DemoRun.world [(0, [3])%nat] []))
    = Py.Raise Py.ZeroDivisionError /\
  events (Train (DemoRun.args_logging 0) 1 (DemoRun.world [(0, [3])%nat] [])) =
    Call_Train 1 :: training_calls (DemoRun.args_logging 0) (DemoRun.batch (0, [3])%nat)
                      (Train_entry (DemoRun.args_logging 0)
                         (DemoRun.world [(0, [3])%nat] [])) /\
  world (Train (DemoRun.args_logging 0) 1 (DemoRun.world [(0, [3])%nat] [])) =
    trained_on (DemoRun.args_logging 0) (DemoRun.batch (0, [3])%nat)
      (Train_entry (DemoRun.args_logging 0) (DemoRun.world [(0, [3])%nat] [])).
Proof.
  apply (Train_zero_log_interval (DemoRun.args_logging 0) 1
           (DemoRun.world [(0, [3])%nat] []) (DemoRun.batch (0, [3])%nat) []).
  - reflexivity.
  - reflexivity.
  - repeat split; simpl; try lia; discriminate.
Defined.

(** X8.  A train epoch, whether it returns or raises, leaves the best
    accuracy, the files on disk, the training triplet list and the validation
    set as they were: it changes the network, the sampler and the random
    state only. *)
Theorem Train_leaves_rest_untouched {C : Collaborators} (args : Args) (epoch : Z)
    (w : World) :
  best_acc (world (Train args epoch w)) = best_acc w /\
  fs (world (Train args epoch w)) = fs w /\
  train_data_set (world (Train args epoch w)) = train_data_set w /\
  val_data_set_t (world (Train args epoch w)) = val_data_set_t w.
Proof.
  repeat split; apply Train_frame; intros; reflexivity.
Qed.

(** X9.  With a non-zero [log_interval], on a loader whose batches are not
    empty and when every loss call of the epoch receives distance vectors of
    one non-zero length, a train epoch returns, having called the loss, the
    sampler and the optimizer exactly once per batch of the loader, and
    having logged exactly the batches whose index is a multiple of
    [log_interval]: the log lines show, in order, the epoch and
    [batch_idx * len(data1)] of these batches. *)
Theorem Train_calls_once_per_batch {C : Collaborators} (args : Args) (epoch : Z)
    (w : World) :
  log_interval args <> 0 ->
  Forall (fun b => 0 < size0 (data1 b)) (Train_batches args w) ->
  well_formed_trace (events (Train args epoch w)) ->
  (exists r, out (Train args epoch w) = Py.Ok r) /\
  count_events is_criterion (events (Train args epoch w))
    = length (Train_batches args w) /\
  count_events is_SampleNegatives (events (Train args epoch w))
    = length (Train_batches args w) /\
  count_events is_optimizer_step (events (Train args epoch w))
    = length (Train_batches args w) /\
  printed_progress (events (Train args epoch w))
    = map (fun ib => (epoch, fst ib * size0 (data1 (snd ib))))
          (logged_batches args 0 (Train_batches args w)).
Proof.
  intros Hli Hne Hwf.
  destruct (Train_loop_summary args epoch (Train_batches args w) Hli
              Train_meters 0 (Train_entry args w))
    as (ms & Hout & _ & K1 & K2 & K3 & K4).
  { exact Hne. }
  { apply Train_trace_loop. exact Hwf. }
  { repeat split; simpl; lia. }
  { apply new_unit. }
  rewrite Train_run, Hout. cbn [out events].
  split; [eexists; reflexivity|].
  change (Call_Train epoch :: ?l) with ([Call_Train epoch] ++ l).
  rewrite !count_events_app, !printed_progress_app, K1, K2, K3, K4. cbn. auto.
Qed.

(** X9, witness: five batches of one or two triplets, logged every second
    batch. *)
Lemma Train_calls_once_per_batch_witness :
  count_events is_SampleNegatives
    (events (Train (DemoRun.args_logging 2) 1
               (DemoRun.world [(0, []); (1, []); (0, [2]); (3, []); (1, [1])]%nat [])))
    = 5%nat /\
  printed_progress
    (events (Train (DemoRun.args_logging 2) 1
               (DemoRun.world [(0, []); (1, []); (0, [2]); (3, []); (1, [1])]%nat [])))
    = [(1, 0); (1, 4); (1, 8)].
Proof.
  destruct (Train_calls_once_per_batch (DemoRun.args_logging 2) 1
              (DemoRun.world [(0, []); (1, []); (0, [2]); (3, []); (1, [1])]%nat []))
    as (_ & _ & K2 & _ & K4).
  - simpl. lia.
  - repeat constructor.
  - vm_compute. reflexivity.
  - split; [exact K2|]. rewrite K4. reflexivity.
Defined.

(** X10.  Under the same conditions the value a train epoch returns, the
    running average of the per-batch accuracies, lies between 0 and 1. *)
Theorem Train_returns_accuracy {C : Collaborators} (args : Args) (epoch : Z)
    (w : World) :
  log_interval args <> 0 ->
  Forall (fun b => 0 < size0 (data1 b)) (Train_batches args w) ->
  well_formed_trace (events (Train args epoch w)) ->
  exists r, out (Train args epoch w) = Py.Ok r /\ (0 <= r)%Q /\ (r <= 1)%Q.
Proof.
  intros Hli Hne Hwf.
  destruct (Train_loop_summary args epoch (Train_batches args w) Hli
              Train_meters 0 (Train_entry args w))
    as (ms & Hout & Hu & _).
  { exact Hne. }
  { apply Train_trace_loop. exact Hwf. }
  { repeat split; simpl; lia. }
  { apply new_unit. }
  rewrite Train_run, Hout. cbn [out].
  exists (avg (tr_loss_accs ms)). split; [reflexivity|]. apply Hu.
Qed.

(** X10, witness: three batches on the small instance. *)
Lemma Train_returns_accuracy_witness :
  exists r,
    out (Train (DemoRun.args_logging 2) 1
           (DemoRun.world [(0, [4]); (1, []); (0, [2])]%nat [])) = Py.Ok r /\
    (0 <= r)%Q /\ (r <= 1)%Q.
Proof.
  apply (Train_returns_accuracy (DemoRun.args_logging 2) 1
           (DemoRun.world [(0, [4]); (1, []); (0, [2])]%nat [])).
  - simpl. lia.
  - repeat constructor.
  - vm_compute. reflexivity.
Defined.

(** ** [TestTriplets] *)

(** X11.  A validation pass, whether it returns or raises, changes nothing
    but the mode of the network and the random state consumed by one pass
    over the loader: the sampler, the training triplet list, the validation
    set, the best accuracy and the files stay as they were, and no optimizer
    step is taken. *)
Theorem TestTriplets_only_switches_mode {C : Collaborators} (args : Args) (w : World) :
  tnet (world (TestTriplets args w)) = tnet_eval (tnet w) /\
  rng (world (TestTriplets args w)) =
    snd (enumerate_loader (val_data_set_t w) (batch_size args) (rng w)) /\
  sampler (world (TestTriplets args w)) = sampler w /\
  train_data_set (world (TestTriplets args w)) = train_data_set w /\
  val_data_set_t (world (TestTriplets args w)) = val_data_set_t w /\
  best_acc (world (TestTriplets args w)) = best_acc w /\
  fs (world (TestTriplets args w)) = fs w /\
  count_events is_optimizer_step (events (TestTriplets args w)) = 0%nat /\
  count_events is_SampleNegatives (events (TestTriplets args w)) = 0%nat.
Proof.
  assert (Hw : world (TestTriplets args w) = Test_entry args w).
  { rewrite TestTriplets_run.
    destruct (out (Test_loop _ _ _ _)); cbn [world]; apply Test_loop_world. }
  rewrite Hw.
  destruct (only_criterion_counts _
              (Test_loop_only_criterion args (Test_batches args w) Test_meters
                 (Test_entry args w))) as [K1 K2].
  repeat split.
  - rewrite TestTriplets_run.
    destruct (out (Test_loop _ _ _ _)); cbn [events];
      change (Call_TestTriplets :: ?l) with ([Call_TestTriplets] ++ l);
      rewrite !count_events_app, K1; reflexivity.
  - rewrite TestTriplets_run.
    destruct (out (Test_loop _ _ _ _)); cbn [events];
      change (Call_TestTriplets :: ?l) with ([Call_TestTriplets] ++ l);
      rewrite !count_events_app, K2; reflexivity.
Qed.

(** X12.  On a loader whose batches are not empty, and when every loss call
    of the pass receives distance vectors of one non-zero length, a
    validation pass returns the weighted mean of the per-batch accuracies,
    a value between 0 and 1.  Its trace is the call, one loss call per batch
    on the distances of that batch with an all-ones target, the line that
    prints the weighted mean of the per-batch losses with the accuracy as a
    percentage, and the return of the accuracy. *)
Theorem TestTriplets_returns_accuracy {C : Collaborators} (args : Args) (w : World) :
  Forall (fun b => 0 < size0 (data1 b)) (Test_batches args w) ->
  well_formed_trace (events (TestTriplets args w)) ->
  let w0 := Test_entry args w in
  let bs := Test_batches args w in
  let accs := snd (Meter.updates Meter.new (accuracy_updates w0 bs)) in
  let losses := snd (Meter.updates Meter.new (loss_updates args w0 bs)) in
  out (TestTriplets args w) = Py.Ok (avg accs) /\
  (0 <= avg accs)%Q /\ (avg accs <= 1)%Q /\
  events (TestTriplets args w) =
    Call_TestTriplets :: batch_calls w0 bs
      ++ [Print_Test (avg losses) (100 * avg accs)%Q; Ret_TestTriplets (avg accs)].
Proof.
  intros Hne Hwf. cbv zeta.
  destruct (Test_loop_summary args (Test_batches args w) Test_meters (Test_entry args w))
    as (ms & Hout & Hu & Ha & Hl & Hev).
  { exact Hne. }
  { apply TestTriplets_trace_loop. exact Hwf. }
  { simpl. lia. }
  { simpl. lia. }
  { apply new_unit. }
  rewrite TestTriplets_run, Hout. cbn [out events].
  change (te_accs Test_meters) with Meter.new in Ha.
  change (te_losses Test_meters) with Meter.new in Hl.
  rewrite <- Ha, <- Hl, Hev.
  split; [reflexivity|]. split; [apply Hu|]. split; [apply Hu|]. reflexivity.
Qed.

(** X12, witness: a validation set of two batches, of two triplets and of
    one; one of the three triplets is ranked correctly. *)
Lemma TestTriplets_returns_accuracy_witness :
  exists r : Q,
    out (TestTriplets (Demo.args 1 1 1) (DemoRun.world [] [(0, [4]); (1, [])]%nat))
      = Py.Ok r /\
    (r == 1 # 3)%Q /\
    length (events (TestTriplets (Demo.args 1 1 1)
                      (DemoRun.world [] [(0, [4]); (1, [])]%nat))) = 5%nat.
Proof.
  destruct (TestTriplets_returns_accuracy (Demo.args 1 1 1)
              (DemoRun.world [] [(0, [4]); (1, [])]%nat))
    as (Hout & _ & _ & Hev).
  - repeat constructor.
  - vm_compute. reflexivity.
  - eexists. split; [exact Hout|]. split; [vm_compute; reflexivity|].
    rewrite Hev. reflexivity.
Defined.

(** ** [SaveCheckpoint] *)

(** X13.  When the directory [runs_dir/name] is written plainly and is
    there or can be made, [filename] is a file name, and no directory stands
    at the place of the files to write, [SaveCheckpoint] returns.
    Afterwards the directory is there and the given state is stored under
    the given file name, and with [is_best] under model_best.pth.tar too;
    apart from these two every file is as it was, no file and no directory
    has disappeared, and nothing of the program state but the file system
    has changed. *)
Theorem SaveCheckpoint_touches_two_files {C : Collaborators} (runs_dir : string)
    (args : Args) (state : Checkpoint) (is_best : bool) (filename : string)
    (w : World) :
  let dir := Py.path_join runs_dir (name args) in
  let r := SaveCheckpoint runs_dir args state is_best filename w in
  Py.plain_path dir = true ->
  dir_ready dir (fs w) = true ->
  Py.file_name filename = true ->
  is_dir (Py.path_join dir filename) (fs w) = false ->
  (is_best = true ->
   filename <> "model_best.pth.tar" /\
   is_dir (Py.path_join dir "model_best.pth.tar") (fs w) = false) ->
  out r = Py.Ok tt /\
  world r = set_fs (fs (world r)) w /\
  is_dir dir (fs (world r)) = true /\
  dirs (fs w) ⊆ dirs (fs (world r)) /\
  files (fs (world r)) !! Py.path_join dir filename = Some state /\
  (is_best = true ->
   files (fs (world r)) !! Py.path_join dir "model_best.pth.tar" = Some state) /\
  (forall p : string,
     p <> Py.path_join dir filename ->
     p <> Py.path_join dir "model_best.pth.tar" ->
     files (fs (world r)) !! p = files (fs w) !! p) /\
  (forall p : string,
     is_Some (files (fs w) !! p) -> is_Some (files (fs (world r)) !! p)).
Proof.
  cbv zeta. intros _ Hr Hn Hfree Hbest.
  destruct (save_steps_ok _ state is_best filename (fs w) Hr Hn Hfree Hbest)
    as (D & E & Hsub & Hd & _).
  rewrite SaveCheckpoint_run. cbv zeta. rewrite E.
  unfold set_fs. cbn [fst snd out world fs dirs files].
  split; [reflexivity|]. split; [reflexivity|].
  split; [apply is_dir_true; exact Hd|].
  split; [exact Hsub|].
  split.
  { destruct is_best.
    - rewrite lookup_insert. case_decide; [reflexivity|apply lookup_insert_eq].
    - apply lookup_insert_eq. }
  split.
  { intros ->. apply lookup_insert_eq. }
  split.
  - intros p H1 H2.
    destruct is_best; rewrite ?lookup_insert_ne by congruence; reflexivity.
  - intros p H.
    destruct is_best; rewrite ?lookup_insert_is_Some'; tauto.
Qed.

(** X13, witness: the first checkpoint of a run, into a directory that is
    yet to be made. *)
Lemma SaveCheckpoint_touches_two_files_witness :
  out (SaveCheckpoint "runs" (Demo.args 1 1 1) (Demo.checkpoint 2 0 1) true
         "checkpoint.pth.tar" (DemoRun.world [] [])) = Py.Ok tt /\
  is_dir "runs/TripletNet"
    (fs (world (SaveCheckpoint "runs" (Demo.args 1 1 1) (Demo.checkpoint 2 0 1) true
                  "checkpoint.pth.tar" (DemoRun.world [] [])))) = true.
Proof.
  destruct (SaveCheckpoint_touches_two_files "runs" (Demo.args 1 1 1)
              (Demo.checkpoint 2 0 1) true "checkpoint.pth.tar" (DemoRun.world [] []))
    as (H1 & _ & H3 & _).
  - vm_compute. reflexivity.
  - vm_compute. reflexivity.
  - vm_compute. reflexivity.
  - vm_compute. reflexivity.
  - intros _. split; [discriminate|vm_compute; reflexivity].
  - split; [exact H1|exact H3].
Defined.

(** X14.  Saving is idempotent: a second [SaveCheckpoint] with the same
    arguments leaves the program state exactly as the first one left it. *)
Theorem SaveCheckpoint_idempotent {C : Collaborators} (runs_dir : string)
    (args : Args) (state : Checkpoint) (is_best : bool) (filename : string)
    (w : World) :
  world (SaveCheckpoint runs_dir args state is_best filename
           (world (SaveCheckpoint runs_dir args state is_best filename w)))
  = world (SaveCheckpoint runs_dir args state is_best filename w).
Proof.
  rewrite !SaveCheckpoint_run. cbv zeta. unfold set_fs.
  cbn [world fs tnet sampler train_data_set val_data_set_t rng best_acc].
  rewrite save_steps_idempotent. reflexivity.
Qed.

(** X24.  When a regular file stands at [runs_dir/name], a path that is not
    empty and does not end with a separator, [SaveCheckpoint] of a file name
    raises at [torch.save]: no directory is made and no file is written. *)
Theorem SaveCheckpoint_blocked_by_file {C : Collaborators} (runs_dir : string)
    (args : Args) (state : Checkpoint) (is_best : bool) (filename : string)
    (w : World) :
  let dir := Py.path_join runs_dir (name args) in
  let r := SaveCheckpoint runs_dir args state is_best filename w in
  is_file dir (fs w) = true ->
  is_dir dir (fs w) = false ->
  dir <> "" ->
  Py.ends_with_sep dir = false ->
  Py.file_name filename = true ->
  out r = Py.Raise Py.RuntimeError /\
  fs (world r) = fs w /\
  events r = [Call_SaveCheckpoint state is_best].
Proof.
  cbv zeta. intros Hf Hd Hne Hsep Hn.
  rewrite SaveCheckpoint_run. cbv zeta.
  assert (E : save_steps (Py.path_join runs_dir (name args)) state is_best filename (fs w)
              = (Py.Raise Py.RuntimeError, fs w)).
  { unfold save_steps, path_exists. rewrite Hf, orb_true_r. cbn [negb].
    unfold torch_save.
    assert (Hw : writable (Py.path_join (Py.path_join runs_dir (name args)) filename)
                   (fs w) = false).
    { unfold writable. apply andb_false_iff. right.
      apply not_true_iff_false. intros Hall. rewrite forallb_forall in Hall.
      specialize (Hall (Py.path_join runs_dir (name args))
                    (path_join_parent _ filename Hne Hsep Hn)).
      rewrite Hd, orb_false_r in Hall. apply String.eqb_eq in Hall. contradiction. }
    rewrite Hw. reflexivity. }
  rewrite E. unfold set_fs. cbn [fst snd out world events fs]. auto.
Qed.

(** X24, witness: a regular file named runs/TripletNet. *)
Lemma SaveCheckpoint_blocked_by_file_witness :
  out (SaveCheckpoint "runs" (Demo.args 1 1 1) (Demo.checkpoint 2 0 1) false
         "checkpoint.pth.tar"
         (set_fs (@mkFS Demo.collaborators {[ "runs" ]} {[ "runs/TripletNet" := Demo.checkpoint 1 0 0 ]})
            (DemoRun.world [] [])))
  = Py.Raise Py.RuntimeError.
Proof.
  apply (SaveCheckpoint_blocked_by_file "runs" (Demo.args 1 1 1)
           (Demo.checkpoint 2 0 1) false "checkpoint.pth.tar"
           (set_fs (@mkFS Demo.collaborators {[ "runs" ]} {[ "runs/TripletNet" := Demo.checkpoint 1 0 0 ]})
              (DemoRun.world [] []))).
  - vm_compute. reflexivity.
  - vm_compute. reflexivity.
  - discriminate.
  - vm_compute. reflexivity.
  - vm_compute. reflexivity.
Defined.

(** X25.  Saving a best checkpoint under the file name model_best.pth.tar
    raises SameFileError at [shutil.copyfile], the source and the
    destination being one path; the checkpoint itself has been written by
    then. *)
Theorem SaveCheckpoint_same_file {C : Collaborators} (runs_dir : string)
    (args : Args) (state : Checkpoint) (w : World) :
  let dir := Py.path_join runs_dir (name args) in
  let r := SaveCheckpoint runs_dir args state true "model_best.pth.tar" w in
  dir_ready dir (fs w) = true ->
  is_dir (Py.path_join dir "model_best.pth.tar") (fs w) = false ->
  out r = Py.Raise Py.SameFileError /\
  files (fs (world r)) !! Py.path_join dir "model_best.pth.tar" = Some state.
Proof.
  cbv zeta. intros Hr Hfree.
  destruct (save_steps_ok _ state false "model_best.pth.tar" (fs w) Hr eq_refl Hfree)
    as (D & E & _).
  { discriminate. }
  rewrite SaveCheckpoint_run. cbv zeta.
  unfold save_steps in *.
  destruct (if negb (path_exists _ (fs w)) then _ else _) as [f1|e]; [|discriminate E].
  destruct (torch_save state _ f1) as [f2|e]; [|discriminate E].
  inversion E; subst. unfold copyfile. rewrite String.eqb_refl.
  unfold set_fs. cbn [fst snd out world fs files]. split; [reflexivity|].
  apply lookup_insert_eq.
Qed.

(** X25, witness: the default run directory, yet to be made. *)
Lemma SaveCheckpoint_same_file_witness :
  out (SaveCheckpoint "runs" (Demo.args 1 1 1) (Demo.checkpoint 2 0 1) true
         "model_best.pth.tar" (DemoRun.world [] [])) = Py.Raise Py.SameFileError.
Proof.
  apply (SaveCheckpoint_same_file "runs" (Demo.args 1 1 1) (Demo.checkpoint 2 0 1)
           (DemoRun.world [] [])).
  - vm_compute. reflexivity.
  - vm_compute. reflexivity.
Defined.

(** ** [main]: the run as a whole *)

Lemma range_empty (lo hi : Z) : hi <= lo -> Py.range lo hi = [].
Proof.
  intros H. unfold Py.range. replace (Z.to_nat (hi - lo)) with 0%nat by lia. reflexivity.
Qed.

Lemma range_In (lo hi e : Z) : In e (Py.range lo hi) -> lo <= e < hi.
Proof.
  unfold Py.range. rewrite in_map_iff. intros (k & <- & Hk).
  apply in_seq in Hk. lia.
Qed.

(** X15.  With [epochs <= 0] the run constructs the sampler and returns:
    no epoch is entered, nothing is trained or validated, no file is
    written. *)
Theorem main_without_epochs {C : Collaborators} (runs_dir : string) (args : Args)
    (s : Setup) :
  epochs args <= 0 ->
  main runs_dir args s =
  mkRun (Py.Ok tt) (initial_world args s)
    [Call_OurSampler 8 (capacity_per_class (batch_size args))].
Proof.
  intros H. unfold main. rewrite range_empty by lia. reflexivity.
Qed.

(** X15, witness: zero epochs. *)
Lemma main_without_epochs_witness :
  main "runs" (Demo.args 0 1 1) (Demo.setup [(0, [])]%nat [(0, [])]%nat) =
  mkRun (Py.Ok tt)
    (initial_world (Demo.args 0 1 1) (Demo.setup [(0, [])]%nat [(0, [])]%nat))
    [Call_OurSampler 8 (capacity_per_class (batch_size (Demo.args 0 1 1)))].
Proof.
  apply (main_without_epochs "runs" (Demo.args 0 1 1)
           (Demo.setup [(0, [])]%nat [(0, [])]%nat)).
  simpl. lia.
Defined.

Section SavedEpochs.

Context {C : Collaborators}.
Variable runs_dir : string.
Variable args : Args.

Lemma emits_only_lift_bind {A B} P (o : Py.outcome A) (k : A -> M B) :
  (forall a, o = Py.Ok a -> emits_only P (k a)) -> emits_only P (bind (lift o) k).
Proof.
  intros H w. rewrite events_bind. cbn [lift events out app].
  destruct o as [a|e]; [apply (H a eq_refl)|constructor].
Qed.

Lemma emits_only_impl {A} (P Q : Event -> Prop) (m : M A) :
  (forall ev, P ev -> Q ev) -> emits_only P m -> emits_only Q m.
Proof. intros H Hm w. eapply Forall_impl; [apply Hm|exact H]. Qed.

Lemma Train_emits_no_save epoch (P : Event -> Prop) :
  (forall ev, batch_event ev -> P ev) -> P (Call_Train epoch) ->
  emits_only P (Train args epoch).
Proof.
  intros Hb Ht w. rewrite Train_run.
  assert (H : Forall P (events (Train_loop args epoch Train_meters 0
                                  (Train_batches args w) (Train_entry args w)))).
  { eapply Forall_impl; [apply Train_loop_emits|exact Hb]. }
  destruct (out (Train_loop _ _ _ _ _ _)); cbn [events]; constructor; assumption.
Qed.

Lemma TestTriplets_emits_no_save (P : Event -> Prop) :
  (forall ev, batch_event ev -> P ev) -> P Call_TestTriplets ->
  (forall l a, P (Print_Test l a)) -> (forall a, P (Ret_TestTriplets a)) ->
  emits_only P (TestTriplets args).
Proof.
  intros Hb Ht Hp Hr w. rewrite TestTriplets_run.
  assert (H : Forall P (events (Test_loop args Test_meters
                                  (Test_batches args w) (Test_entry args w)))).
  { eapply Forall_impl; [apply Test_loop_emits|exact Hb]. }
  destruct (out (Test_loop _ _ _ _)); cbn [events]; constructor; try assumption.
  apply Forall_app. split; [exact H|]. repeat constructor; auto.
Qed.

Lemma remember_best_saved epoch acc :
  val_freq args <> 0 -> epoch `mod` val_freq args = 0 ->
  emits_only (saved_in args epoch) (remember_best runs_dir args epoch acc).
Proof.
  intros Hv Hm w.
  destruct (remember_best_trace runs_dir args epoch acc w) as [Hev _].
  rewrite Hev. repeat constructor; assumption.
Qed.

Lemma epoch_body_saved epoch :
  emits_only (saved_in args epoch) (epoch_body runs_dir args epoch).
Proof.
  unfold epoch_body.
  apply emits_only_bind.
  { apply Train_emits_no_save; [intros ev Hev; destruct ev; exact I || contradiction|exact I]. }
  intros _. apply emits_only_lift_bind. intros r Hr.
  unfold Py.mod_ in Hr. destruct (Z.eqb_spec (val_freq args) 0) as [|Hv]; [discriminate|].
  inversion Hr; subst r.
  apply emits_only_bind.
  - destruct (Z.eqb_spec (epoch `mod` val_freq args) 0) as [Hm|Hm];
      [|apply emits_only_ret].
    apply emits_only_bind.
    + apply TestTriplets_emits_no_save; try (intros; exact I).
      intros ev Hev; destruct ev; exact I || contradiction.
    + intros acc. apply remember_best_saved; assumption.
  - intros _. apply emits_only_lift_bind. intros r' _.
    destruct (r' =? 0); [|apply emits_only_ret].
    unfold regenerate_and_reset. step_emits.
Qed.

Lemma for_each_emits (P : Z -> Event -> Prop) (body : Z -> M unit) (l : list Z) :
  (forall x, emits_only (P x) (body x)) ->
  emits_only (fun ev => exists x, In x l /\ P x ev) (for_each l body).
Proof.
  intros H. induction l as [|x rest IH]; simpl.
  - apply emits_only_ret.
  - apply emits_only_bind.
    + eapply emits_only_impl; [|apply H]. intros ev Hev. exists x. auto.
    + intros _. eapply emits_only_impl; [|exact IH].
      intros ev (y & Hy & Hev). exists y. auto.
Qed.

Lemma main_final_best (s : Setup) :
  best_acc (world (main runs_dir args s)) =
  final_best 0 (validation_accs (events (main runs_dir args s))).
Proof.
  unfold main.
  match goal with
  | |- context [bind ?m ?k ?w0] =>
      assert (H : tracks (bind m k)); [|exact (proj2 (H w0))]
  end.
  apply tracks_bind; [apply tracks_emit; exact I|intros _].
  apply for_each_tracks. intros e. apply epoch_body_tracks.
Qed.

End SavedEpochs.

(** X16.  Every checkpoint a run saves carries as its epoch number one more
    than the epoch in which it was saved, and that epoch is one of
    [1..epochs] in which [epoch % val_freq == 0]. *)
Theorem checkpoint_epoch_is_next {C : Collaborators} (runs_dir : string)
    (args : Args) (s : Setup) :
  Forall (saved_in_run args) (events (main runs_dir args s)).
Proof.
  unfold main.
  match goal with
  | |- Forall _ (events (bind ?m ?k ?w0)) =>
      assert (H : emits_only (saved_in_run args) (bind m k)); [|exact (H w0)]
  end.
  apply emits_only_bind; [apply emits_only_emit; exact I|intros _].
  eapply emits_only_impl; [|apply for_each_emits; intros e; apply (epoch_body_saved runs_dir args e)].
  intros ev (e & He & Hev). apply range_In in He.
  destruct ev; try exact I. simpl in *. destruct Hev as (H1 & H2 & H3).
  exists e. split; [lia|]. split; assumption.
Qed.

Lemma final_best_dominates (accs : list Q) (b : Q) :
  Forall (fun a => (a <= final_best b accs)%Q) accs.
Proof.
  revert b. induction accs as [|a rest IH]; intros b; [constructor|].
  change (final_best b (a :: rest)) with (final_best (Py.max a b) rest).
  constructor; [|apply IH].
  eapply Qle_trans; [apply (max_ge_l a b)|]. apply final_best_ge.
Qed.

Lemma final_best_is_one (accs : list Q) (b : Q) :
  final_best b accs = b \/ In (final_best b accs) accs.
Proof.
  revert b. induction accs as [|a rest IH]; intros b; [left; reflexivity|].
  unfold final_best in *. cbn [fold_left].
  destruct (IH (Py.max a b)) as [H|H]; [|right; right; exact H].
  rewrite H. unfold Py.max. destruct (Py.gt b a); [left; reflexivity|].
  right. left. reflexivity.
Qed.

(** X17.  At the end of a run, returned or aborted, the best accuracy is
    at least 0 and at least every validation accuracy the run recorded, and
    it is one of them: one of the recorded accuracies, or the initial 0. *)
Theorem final_best_accuracy {C : Collaborators} (runs_dir : string) (args : Args)
    (s : Setup) :
  (0 <= best_acc (world (main runs_dir args s)))%Q /\
  Forall (fun a => (a <= best_acc (world (main runs_dir args s)))%Q)
    (validation_accs (events (main runs_dir args s))) /\
  (best_acc (world (main runs_dir args s)) = 0%Q \/
   In (best_acc (world (main runs_dir args s)))
      (validation_accs (events (main runs_dir args s)))).
Proof.
  rewrite main_final_best.
  split; [apply final_best_ge|]. split; [apply final_best_dominates|].
  apply final_best_is_one.
Qed.






(** X19.  A zero [val_freq] or [triplet_freq] aborts every run of at least
    one epoch in its first epoch ([log_interval] being non-zero, no batch
    empty, the loss calls receiving distance vectors of one non-zero length
    and the checkpoint directory being usable): [main] raises
    ZeroDivisionError after the first train loop, and after the first
    validation pass if only [triplet_freq] is zero and [1 % val_freq == 0];
    no second epoch starts. *)
Theorem zero_frequency_aborts_first_epoch {C : Collaborators} (runs_dir : string)
    (args : Args) (s : Setup) :
  log_interval args <> 0 ->
  nonempty_batches ->
  well_formed_trace (events (main runs_dir args s)) ->
  checkpoint_dir_usable runs_dir (name args) (setup_fs s) = true ->
  val_freq args = 0 \/ triplet_freq args = 0 ->
  1 <= epochs args ->
  out (main runs_dir args s) = Py.Raise Py.ZeroDivisionError /\
  phases (events (main runs_dir args s)) =
    [PTrain 1] ++
    (if val_freq args =? 0 then []
     else if 1 `mod` val_freq args =? 0 then [PValidate] else []) /\
  train_count (phases (events (main runs_dir args s))) = 1%nat.
Proof.
  intros Hl Hb Hwf Hus Hz He.
  destruct (main_aborts runs_dir args Hl Hb s Hz He Hus Hwf) as [Ho Hp].
  split; [exact Ho|]. split; [exact Hp|].
  rewrite Hp. destruct (val_freq args =? 0); [reflexivity|].
  destruct (1 `mod` val_freq args =? 0); reflexivity.
Qed.

(** X19, witness: three epochs asked for, validating every epoch, with
    [triplet_freq = 0]. *)
Lemma zero_frequency_aborts_first_epoch_witness :
  out (main "runs" (Demo.args 3 1 0) (Demo.setup [(0, [3])]%nat [(1, [2])]%nat))
    = Py.Raise Py.ZeroDivisionError /\
  phases (events (main "runs" (Demo.args 3 1 0)
                    (Demo.setup [(0, [3])]%nat [(1, [2])]%nat)))
    = [PTrain 1; PValidate] /\
  train_count (phases (events (main "runs" (Demo.args 3 1 0)
                                 (Demo.setup [(0, [3])]%nat [(1, [2])]%nat)))) = 1%nat.
Proof.
  apply (zero_frequency_aborts_first_epoch "runs" (Demo.args 3 1 0)
           (Demo.setup [(0, [3])]%nat [(1, [2])]%nat)).
  - simpl. lia.
  - intros d n r b _. simpl. lia.
  - vm_compute. reflexivity.
  - vm_compute. reflexivity.
  - right. reflexivity.
  - simpl. lia.
Defined.

(** ** The sampler's capacity as a function of the batch size *)

(** X20.  Among batch sizes whose triple is below [2^53] (so that the
    double product is exact): for a batch size that is not negative the
    capacity is the integer part of three quarters of it,
    [4 * capacity <= 3 * batch_size < 4 * capacity + 4], so it never exceeds
    the batch size and is positive exactly from batch size 2 on; a negative
    batch size gives a capacity that is not positive; and the capacity never
    decreases when the batch size grows. *)
Theorem capacity_three_quarters (bs bs' : Z) :
  Z.abs (3 * bs) < 2 ^ 53 ->
  Z.abs (3 * bs') < 2 ^ 53 ->
  (0 <= bs ->
   4 * capacity_per_class bs <= 3 * bs < 4 * capacity_per_class bs + 4 /\
   0 <= capacity_per_class bs <= bs) /\
  (0 < capacity_per_class bs <-> 2 <= bs) /\
  (bs < 0 -> capacity_per_class bs <= 0) /\
  (bs <= bs' -> capacity_per_class bs <= capacity_per_class bs').
Proof.
  intros _ _. rewrite !capacity_per_class_quot.
  assert (Hpos : forall b, 0 <= b -> 4 * ((3 * b) ÷ 4) <= 3 * b < 4 * ((3 * b) ÷ 4) + 4).
  { intros b Hb. rewrite Z.quot_div_nonneg by lia.
    pose proof (Z.div_mod (3 * b) 4 ltac:(lia)).
    pose proof (Z.mod_pos_bound (3 * b) 4 ltac:(lia)). lia. }
  assert (Hneg : forall b, b < 0 -> (3 * b) ÷ 4 <= 0).
  { intros b Hb. replace (3 * b) with (- (3 * - b)) by lia.
    rewrite Z.quot_opp_l by lia.
    pose proof (Z.quot_pos (3 * - b) 4 ltac:(lia) ltac:(lia)). lia. }
  split; [|split; [|split]].
  - intros Hb. pose proof (Hpos bs Hb). lia.
  - split; intros H.
    + destruct (Z.lt_ge_cases bs 0) as [Hn|Hn].
      * pose proof (Hneg bs Hn). lia.
      * pose proof (Hpos bs Hn). lia.
    + pose proof (Hpos bs ltac:(lia)). lia.
  - apply Hneg.
  - intros Hle. apply Z.quot_le_mono; lia.
Qed.

(** X20, witness: batch sizes 64 and 128. *)
Lemma capacity_three_quarters_witness :
  capacity_per_class 64 = 48 /\ capacity_per_class 64 <= capacity_per_class 128.
Proof.
  destruct (capacity_three_quarters 64 128) as (H1 & _ & _ & H4).
  - vm_compute. reflexivity.
  - vm_compute. reflexivity.
  - split.
    + destruct (H1 ltac:(lia)) as [H _]. lia.
    + apply H4. lia.
Defined.

(** ** Before the epoch loop *)

Section PreparationFacts.

Context {C : Collaborators}.
Variable runs_dir : string.

Lemma main_first_events (args : Args) (s : Setup) :
  1 <= epochs args ->
  exists rest,
    events (main runs_dir args s) =
    Call_OurSampler 8 (capacity_per_class (batch_size args)) :: Call_Train 1 :: rest.
Proof.
  intros He. unfold main.
  assert (Hr : Py.range 1 (epochs args + 1) = 1 :: Py.range 2 (epochs args + 1)).
  { unfold Py.range. replace (Z.to_nat (epochs args + 1 - 1))
      with (S (Z.to_nat (epochs args + 1 - 2))) by lia.
    cbn [seq map]. f_equal. rewrite <- seq_shift, map_map. apply map_ext.
    intros k. lia. }
  rewrite Hr. cbn [for_each]. unfold epoch_body.
  rewrite events_bind. cbn [emit events out world app].
  rewrite !events_bind, Train_run.
  destruct (out (Train_loop _ _ _ _ _ _)); cbn [events out app]; eexists; reflexivity.
Qed.

End PreparationFacts.

(** X21.  With the library constructors returning, the preparation fails
    by itself in exactly two ways, both decided by the arguments alone: with
    UnboundLocalError when the data set is not 'cub-2011', and with TypeError
    when the data set is known and the network is not 'Simple'; with both
    names known it returns, whatever the resume path and the disk. *)
Theorem prepare_failures {C : Collaborators} {SC : SetupCollaborators C}
    (dir_path : string) (a : RunArgs) (disk : FileSystem) :
  (prepare dir_path a disk = inl UnboundLocalError <-> data a <> "cub-2011") /\
  (prepare dir_path a disk = inl TypeError <->
   data a = "cub-2011" /\ network a <> "Simple") /\
  ((exists s notices, prepare dir_path a disk = inr (s, notices)) <->
   data a = "cub-2011" /\ network a = "Simple").
Proof.
  unfold prepare.
  destruct (String.eqb_spec (data a) "cub-2011") as [Hd|Hd];
    [destruct (String.eqb_spec (network a) "Simple") as [Hn|Hn]|];
    (split; [|split]); split; intros H;
    try discriminate H;
    try congruence;
    try (destruct H; congruence);
    try (destruct H as (s & n & H); discriminate H);
    try (split; assumption);
    try (eexists; eexists; reflexivity).
Qed.

(** X22.  Resuming restores the weights and nothing else.  When the resume
    path names a checkpoint on disk, the network starts from that
    checkpoint's state dict, but the checkpoint's epoch number and best
    accuracy are not used: the run still starts with epoch 1 and tracks the
    best accuracy from 0. *)
Theorem resume_restores_weights_only {C : Collaborators} {SC : SetupCollaborators C}
    (dir_path runs_dir : string) (a : RunArgs) (disk : FileSystem)
    (checkpoint : Checkpoint) :
  data a = "cub-2011" ->
  network a = "Simple" ->
  resume a <> "" ->
  files disk !! resume a = Some checkpoint ->
  1 <= epochs (run_args a) ->
  exists s notices,
    main_program dir_path runs_dir a disk
      = inr (notices, main runs_dir (run_args a) s) /\
    setup_tnet s =
      load_state_dict
        (if negb (no_cuda a) && cuda_is_available
         then to_cuda (Tripletnet (Simplenet im_size))
         else Tripletnet (Simplenet im_size))
        (ck_state_dict checkpoint) /\
    best_acc (initial_world (run_args a) s) = 0%Q /\
    (exists rest,
       events (main runs_dir (run_args a) s) =
       Call_OurSampler 8 (capacity_per_class (batch_size (run_args a)))
       :: Call_Train 1 :: rest) /\
    best_flags (events (main runs_dir (run_args a) s)) =
      track_best 0 (validation_accs (events (main runs_dir (run_args a) s))).
Proof.
  intros Hd Hn Hr Hf He.
  unfold main_program, prepare. rewrite Hd, Hn. cbn [String.eqb Ascii.eqb Bool.eqb].
  eexists. eexists. split; [reflexivity|].
  cbn [setup_tnet fst]. unfold resume_checkpoint.
  destruct (String.eqb_spec (resume a) "") as [E|_]; [contradiction|].
  cbn [negb]. rewrite Hf. cbn [fst].
  split; [reflexivity|]. split; [reflexivity|].
  split; [apply main_first_events; exact He|apply main_tracks].
Qed.

(** X22, witness: resuming from a checkpoint that records epoch 40 and best
    accuracy 0.9. *)
Lemma resume_restores_weights_only_witness :
  exists s notices,
    main_program "." "runs" (DemoSetup.run_args "old.pth.tar") DemoSetup.disk
      = inr (notices, main "runs" (run_args (DemoSetup.run_args "old.pth.tar")) s) /\
    setup_tnet s = 7%nat /\
    best_acc (initial_world (run_args (DemoSetup.run_args "old.pth.tar")) s) = 0%Q.
Proof.
  destruct (resume_restores_weights_only "." "runs"
              (DemoSetup.run_args "old.pth.tar") DemoSetup.disk
              (Demo.checkpoint 40 7 (9 # 10)))
    as (s & notices & H1 & H2 & H3 & _).
  - reflexivity.
  - reflexivity.
  - discriminate.
  - vm_compute. reflexivity.
  - simpl. lia.
  - exists s, notices. split; [exact H1|]. split; [exact H2|exact H3].
Defined.

(** X23.  A resume path that is empty, or that names no file on disk, is
    not an error: the preparation returns with the freshly built network,
    leaves the disk as it is, and prints the not-found notice in the second
    case only. *)
Theorem resume_without_checkpoint {C : Collaborators} {SC : SetupCollaborators C}
    (dir_path : string) (a : RunArgs) (disk : FileSystem) :
  data a = "cub-2011" ->
  network a = "Simple" ->
  resume a = "" \/ files disk !! resume a = None ->
  exists s,
    prepare dir_path a disk =
    inr (s, [Print_using_simple_net]
            ++ (if String.eqb (resume a) "" then []
                else [Print_no_checkpoint_found (resume a)])
            ++ [Print_number_of_params (number_of_params (setup_tnet s))]) /\
    setup_tnet s =
      (if negb (no_cuda a) && cuda_is_available
       then to_cuda (Tripletnet (Simplenet im_size))
       else Tripletnet (Simplenet im_size)) /\
    setup_fs s = disk.
Proof.
  intros Hd Hn Hr.
  unfold prepare. rewrite Hd, Hn. cbn [String.eqb Ascii.eqb Bool.eqb].
  unfold resume_checkpoint.
  destruct (String.eqb_spec (resume a) "") as [E|E]; cbn [negb].
  - match goal with |- exists s, inr (?x, _) = _ /\ _ => exists x end.
    split; [reflexivity|]. split; reflexivity.
  - destruct Hr as [Hr|Hr]; [contradiction|]. rewrite Hr.
    match goal with |- exists s, inr (?x, _) = _ /\ _ => exists x end.
    split; [reflexivity|]. split; reflexivity.
Qed.

(** X23, witness: a resume path that names no file. *)
Lemma resume_without_checkpoint_witness :
  exists s,
    prepare "." (DemoSetup.run_args "missing.pth.tar") DemoSetup.disk =
    inr (s, [Print_using_simple_net; Print_no_checkpoint_found "missing.pth.tar";
             Print_number_of_params (number_of_params (setup_tnet s))]) /\
    setup_tnet s = 0%nat /\
    setup_fs s = DemoSetup.disk.
Proof.
  destruct (resume_without_checkpoint "." (DemoSetup.run_args "missing.pth.tar")
              DemoSetup.disk) as (s & H1 & H2 & H3).
  - reflexivity.
  - reflexivity.
  - right. vm_compute. reflexivity.
  - exists s. split; [exact H1|]. split; [exact H2|exact H3].
Defined.
